(** * type-fetcher: the typings extraction pipeline of [src/api/typings.ts]

    A shallow embedding of the pipeline (specifier parsing, tree scan,
    manifest cleanup, response budgeting, scratch cleanup) and of the
    request handler around it, the properties its specification states
    about it, and further properties of the code.

    Conventions of the model.
    - A JavaScript string is a [string]: a sequence of characters, each
      standing for one UTF-16 code unit below 256.  [.length] is
      [String.length].
    - A JavaScript object used as a map is an association list in
      insertion order with unique keys ([obj]); the keys of the program
      are paths and package names, never canonical array indices, so
      [Object.keys] is insertion order.
    - Exceptions are the [Throw] completion of a small error monad; the
      [while] loop of [dropFiles] takes fuel, and running out of fuel
      ([None]) stands for a call that has not returned.
    - The request handler is given the value of [depQuery] in the parsed
      query and the response object; the hash of the scratch name, the
      package manager, and the wording of the messages and stack traces
      of the platform are parameters. *)

From Stdlib Require Import String Ascii List ZArith NArith QArith Bool Lia.
From Stdlib Require Import DecimalString.
Import ListNotations.

Set Warnings "-register-all".

Local Open Scope list_scope.
Local Open Scope string_scope.

(** ** String builtins *)

Module JSString.

(** [s.startsWith(pre)] *)
Fixpoint startsWith (s pre : string) {struct pre} : bool :=
  match pre with
  | EmptyString => true
  | String c pre' =>
      match s with
      | EmptyString => false
      | String d s' => Ascii.eqb d c && startsWith s' pre'
      end
  end.

(** [s.endsWith(suf)] *)
Fixpoint endsWith (s suf : string) : bool :=
  if String.eqb s suf then true
  else match s with
       | EmptyString => false
       | String _ s' => endsWith s' suf
       end.

Fixpoint indexOf_from (s pat : string) (i : Z) : Z :=
  if startsWith s pat then i
  else match s with
       | EmptyString => (-1)%Z
       | String _ s' => indexOf_from s' pat (i + 1)
       end.

(** [s.indexOf(pat)]: position of the first occurrence, [-1] without one. *)
Definition indexOf (s pat : string) : Z := indexOf_from s pat 0.

(** [s.split(sep)] for a separator of one character. *)
Fixpoint split (s : string) (sep : ascii) : list string :=
  match s with
  | EmptyString => [EmptyString]
  | String c s' =>
      if Ascii.eqb c sep then EmptyString :: split s' sep
      else match split s' sep with
           | h :: t => String c h :: t
           | [] => [String c EmptyString]
           end
  end.

(** [parts.join(sep)] *)
Fixpoint join (parts : list string) (sep : string) : string :=
  match parts with
  | [] => EmptyString
  | [p] => p
  | p :: rest => p ++ sep ++ join rest sep
  end.

(** [parts.pop()]: the last element ([None] for [undefined], on an empty
    array) and the array left. *)
Fixpoint pop (parts : list string) : option string * list string :=
  match parts with
  | [] => (None, [])
  | [p] => (Some p, [])
  | p :: rest => let (x, rest') := pop rest in (x, p :: rest')
  end.

(** [s.slice(n)]: the string without its first [n] characters. *)
Fixpoint slice (n : nat) (s : string) : string :=
  match n, s with
  | S n', String _ s' => slice n' s'
  | _, _ => s
  end.

(** [s.replace(pat, rep)] with a string pattern: the first occurrence only. *)
Fixpoint replace (s pat rep : string) : string :=
  if startsWith s pat then rep ++ slice (String.length pat) s
  else match s with
       | EmptyString => EmptyString
       | String c s' => String c (replace s' pat rep)
       end.

(** [arr.indexOf(x)] on an array of strings. *)
Fixpoint Array_indexOf_from (arr : list string) (x : string) (i : Z) : Z :=
  match arr with
  | [] => (-1)%Z
  | y :: arr' => if String.eqb y x then i else Array_indexOf_from arr' x (i + 1)
  end.

Definition Array_indexOf (arr : list string) (x : string) : Z :=
  Array_indexOf_from arr x 0.

End JSString.
Import JSString.

(** ** SpecifierParser *)

Record DependencyAndVersion := {
  dependency : string;
  version : option string   (* [None] is [undefined], the type of [parts.pop()] *)
}.

Definition at_sign : ascii := "@"%char.

Definition getDependencyAndVersion (depString : string) : DependencyAndVersion :=
  if (startsWith depString "@" && (List.length (split depString at_sign) =? 2)%nat)
     || (List.length (split depString at_sign) =? 1)%nat
  then {| dependency := depString; version := Some "latest" |}
  else
    let parts := split depString at_sign in
    let (version, parts) := pop parts in
    {| dependency := join parts "@"; version := version |}.

(** ** TreeScanner: the acceptance rule *)

(** Directories where we only want .d.ts from *)
Definition TYPE_ONLY_DIRECTORIES : list string := ["src"].

Definition isFileValid (path : string) : bool :=
  let isTypeOnly :=
    existsb (fun dir => (-1 <? indexOf path ("/" ++ dir ++ "/"))%Z)
            TYPE_ONLY_DIRECTORIES in
  let requiredEnding := if isTypeOnly then ".d.ts" else ".ts" in
  if endsWith path requiredEnding then true
  else if endsWith path "package.json" then true
  else false.

Definition BLACKLISTED_DIRECTORIES : list string := ["__tests__"; "aws-sdk"].

(** ** JavaScript values and objects *)

(** The values the pipeline stores in its maps: strings and plain objects,
    and [undefined] for a property that is not there. *)
Inductive jsval : Type :=
| VUndefined
| VStr (s : string)
| VObj (props : list (string * jsval)).

(** An object: its own properties in insertion order, keys unique. *)
Definition obj : Type := list (string * jsval).

(** [o[k]] *)
Fixpoint obj_get (o : obj) (k : string) : jsval :=
  match o with
  | [] => VUndefined
  | (k', v) :: o' => if String.eqb k' k then v else obj_get o' k
  end.

(** [o[k] = v]: an existing key keeps its place, a new one goes last. *)
Fixpoint obj_set (o : obj) (k : string) (v : jsval) : obj :=
  match o with
  | [] => [(k, v)]
  | (k', v') :: o' =>
      if String.eqb k' k then (k', v) :: o' else (k', v') :: obj_set o' k v
  end.

(** [Object.keys(o)] *)
Definition Object_keys (o : obj) : list string := map fst o.

(** [{ ...a, ...b }] *)
Definition spread (a b : obj) : obj :=
  fold_left (fun acc kv => obj_set acc (fst kv) (snd kv)) b a.

(** [String(v)], the conversion [JSON.parse] applies to its argument. *)
Definition ToString (v : jsval) : string :=
  match v with
  | VUndefined => "undefined"
  | VStr s => s
  | VObj _ => "[object Object]"
  end.

(** Completions: a value, or a thrown error. *)
Inductive error : Type :=
| SyntaxError   (* JSON.parse on a text that is not JSON *)
| TypeError     (* a property read on null *)
| FsError       (* an fs call failed: ENOENT, ENOTDIR, EISDIR *)
| ExecError.    (* execSync: the command exited non-zero *)

Inductive completion (A : Type) : Type :=
| Normal (a : A)
| Throw (e : error).
Arguments Normal {A} a.
Arguments Throw {A} e.

(** ** JSON *)

Module JSON.

Definition dquote : ascii := "034"%char.
Definition backslash : ascii := "092"%char.

Definition hex_digit (n : N) : ascii :=
  ascii_of_N (if (n <? 10)%N then 48 + n else 87 + n).

(** QuoteJSONString, one code unit: the two-character escapes, [\u00xx]
    for the other control characters, the character itself otherwise. *)
Definition quote_char (c : ascii) : string :=
  let n := N_of_ascii c in
  if (n =? 8)%N then String backslash "b"
  else if (n =? 9)%N then String backslash "t"
  else if (n =? 10)%N then String backslash "n"
  else if (n =? 12)%N then String backslash "f"
  else if (n =? 13)%N then String backslash "r"
  else if (n =? 34)%N then String backslash (String dquote "")
  else if (n =? 92)%N then String backslash (String backslash "")
  else if (n <? 32)%N then
    String backslash ("u00" ++ String (hex_digit (n / 16)) (String (hex_digit (n mod 16)) ""))
  else String c "".

Fixpoint quote_chars (s : string) : string :=
  match s with
  | EmptyString => EmptyString
  | String c s' => quote_char c ++ quote_chars s'
  end.

Definition QuoteJSONString (s : string) : string :=
  String dquote (quote_chars s ++ String dquote "").

(** SerializeJSONProperty: [None] for [undefined], which an enclosing
    object leaves out. *)
Fixpoint SerializeJSONProperty (v : jsval) : option string :=
  match v with
  | VUndefined => None
  | VStr s => Some (QuoteJSONString s)
  | VObj props =>
      Some ("{" ++ join (flat_map (fun kv =>
                           match SerializeJSONProperty (snd kv) with
                           | Some str => [QuoteJSONString (fst kv) ++ ":" ++ str]
                           | None => []
                           end) props) ","
                ++ "}")
  end.

(** [JSON.stringify(o)] of an object. *)
Definition stringify (o : obj) : string :=
  match SerializeJSONProperty (VObj o) with
  | Some str => str
  | None => EmptyString
  end.

(** The values [JSON.parse] builds.  A number keeps its lexeme; a string
    is its code units, since an escape [\uXXXX] denotes any of them. *)
Inductive json : Type :=
| JNull
| JBool (b : bool)
| JNumber (lexeme : string)
| JString (units : list N)
| JArray (elements : list json)
| JObject (members : list (list N * json)).

Definition code_units (s : string) : list N :=
  map N_of_ascii (list_ascii_of_string s).

Definition is_ws (c : ascii) : bool :=
  let n := N_of_ascii c in
  ((n =? 32) || (n =? 9) || (n =? 10) || (n =? 13))%N.

Fixpoint skip_ws (s : string) : string :=
  match s with
  | EmptyString => EmptyString
  | String c s' => if is_ws c then skip_ws s' else s
  end.

Definition is_digit (c : ascii) : bool :=
  let n := N_of_ascii c in ((48 <=? n) && (n <=? 57))%N.

Definition hex_value (c : ascii) : option N :=
  let n := N_of_ascii c in
  if ((48 <=? n) && (n <=? 57))%N then Some (n - 48)%N
  else if ((97 <=? n) && (n <=? 102))%N then Some (n - 87)%N
  else if ((65 <=? n) && (n <=? 70))%N then Some (n - 55)%N
  else None.

Fixpoint take_digits (s : string) : string * string :=
  match s with
  | EmptyString => (EmptyString, EmptyString)
  | String c s' =>
      if is_digit c then let (ds, rest) := take_digits s' in (String c ds, rest)
      else (EmptyString, s)
  end.

Definition is_char (c : ascii) (n : N) : bool := (N_of_ascii c =? n)%N.

(** number = [-] int [frac] [exp] *)
Definition parse_int (s : string) : option (string * string) :=
  match s with
  | EmptyString => None
  | String d r =>
      if is_char d 48 then Some ("0", r)
      else if is_digit d then
        let (ds, rest) := take_digits r in Some (String d ds, rest)
      else None
  end.

Definition parse_frac (s : string) : option (string * string) :=
  match s with
  | String c r =>
      if is_char c 46 then
        match take_digits r with
        | (EmptyString, _) => None
        | (ds, rest) => Some (String c ds, rest)
        end
      else Some (EmptyString, s)
  | EmptyString => Some (EmptyString, s)
  end.

Definition parse_exp (s : string) : option (string * string) :=
  match s with
  | String e r =>
      if is_char e 101 || is_char e 69 then
        let (sign, r1) :=
          match r with
          | String g r' =>
              if is_char g 43 || is_char g 45 then (String g "", r') else ("", r)
          | EmptyString => ("", r)
          end in
        match take_digits r1 with
        | (EmptyString, _) => None
        | (ds, rest) => Some (String e (sign ++ ds), rest)
        end
      else Some (EmptyString, s)
  | EmptyString => Some (EmptyString, s)
  end.

Definition parse_number (s : string) : option (string * string) :=
  let (sign, s1) :=
    match s with
    | String c r => if is_char c 45 then ("-", r) else ("", s)
    | EmptyString => ("", s)
    end in
  match parse_int s1 with
  | None => None
  | Some (int, s2) =>
      match parse_frac s2 with
      | None => None
      | Some (frac, s3) =>
          match parse_exp s3 with
          | None => None
          | Some (exp, s4) => Some (sign ++ int ++ frac ++ exp, s4)
          end
      end
  end.

(** The characters of a string after its opening quote, up to the closing
    one: no raw control character, and the escapes of the grammar. *)
Fixpoint parse_chars (s : string) : option (list N * string) :=
  match s with
  | EmptyString => None
  | String c r =>
      if is_char c 34 then Some ([], r)
      else if is_char c 92 then
        match r with
        | EmptyString => None
        | String e r1 =>
            if is_char e 117 then
              match r1 with
              | String h1 (String h2 (String h3 (String h4 r2))) =>
                  match hex_value h1, hex_value h2, hex_value h3, hex_value h4 with
                  | Some a, Some b, Some c, Some d =>
                      match parse_chars r2 with
                      | Some (us, rest) =>
                          Some ((((a * 16 + b) * 16 + c) * 16 + d)%N :: us, rest)
                      | None => None
                      end
                  | _, _, _, _ => None
                  end
              | _ => None
              end
            else
              let unit :=
                if is_char e 34 then Some 34%N
                else if is_char e 92 then Some 92%N
                else if is_char e 47 then Some 47%N
                else if is_char e 98 then Some 8%N
                else if is_char e 102 then Some 12%N
                else if is_char e 110 then Some 10%N
                else if is_char e 114 then Some 13%N
                else if is_char e 116 then Some 9%N
                else None in
              match unit, parse_chars r1 with
              | Some u, Some (us, rest) => Some (u :: us, rest)
              | _, _ => None
              end
        end
      else if (N_of_ascii c <? 32)%N then None
      else
        match parse_chars r with
        | Some (us, rest) => Some (N_of_ascii c :: us, rest)
        | None => None
        end
  end.

Definition parse_literal (s lit : string) (v : json) : option (json * string) :=
  if startsWith s lit then Some (v, slice (String.length lit) s) else None.

(** A value, the elements of an array after its bracket, the members of
    an object after its brace.  Each call spends one unit of fuel. *)
Fixpoint parse_value (fuel : nat) (s : string) : option (json * string) :=
  match fuel with
  | O => None
  | S fuel' =>
      match skip_ws s with
      | EmptyString => None
      | String c r =>
          if is_char c 123 then
            match skip_ws r with
            | String c' r' =>
                if is_char c' 125 then Some (JObject [], r')
                else match parse_members fuel' r with
                     | Some (ms, rest) => Some (JObject ms, rest)
                     | None => None
                     end
            | EmptyString => None
            end
          else if is_char c 91 then
            match skip_ws r with
            | String c' r' =>
                if is_char c' 93 then Some (JArray [], r')
                else match parse_elements fuel' r with
                     | Some (vs, rest) => Some (JArray vs, rest)
                     | None => None
                     end
            | EmptyString => None
            end
          else if is_char c 34 then
            match parse_chars r with
            | Some (us, rest) => Some (JString us, rest)
            | None => None
            end
          else if is_char c 116 then parse_literal (String c r) "true" (JBool true)
          else if is_char c 102 then parse_literal (String c r) "false" (JBool false)
          else if is_char c 110 then parse_literal (String c r) "null" JNull
          else match parse_number (String c r) with
               | Some (lexeme, rest) => Some (JNumber lexeme, rest)
               | None => None
               end
      end
  end
with parse_elements (fuel : nat) (s : string) : option (list json * string) :=
  match fuel with
  | O => None
  | S fuel' =>
      match parse_value fuel' s with
      | None => None
      | Some (v, rest) =>
          match skip_ws rest with
          | String c r =>
              if is_char c 93 then Some ([v], r)
              else if is_char c 44 then
                match parse_elements fuel' r with
                | Some (vs, rest') => Some (v :: vs, rest')
                | None => None
                end
              else None
          | EmptyString => None
          end
      end
  end
with parse_members (fuel : nat) (s : string) : option (list (list N * json) * string) :=
  match fuel with
  | O => None
  | S fuel' =>
      match skip_ws s with
      | String q r =>
          if is_char q 34 then
            match parse_chars r with
            | None => None
            | Some (key, rest) =>
                match skip_ws rest with
                | String c r1 =>
                    if is_char c 58 then
                      match parse_value fuel' r1 with
                      | None => None
                      | Some (v, rest1) =>
                          match skip_ws rest1 with
                          | String c' r2 =>
                              if is_char c' 125 then Some ([(key, v)], r2)
                              else if is_char c' 44 then
                                match parse_members fuel' r2 with
                                | Some (ms, rest2) => Some ((key, v) :: ms, rest2)
                                | None => None
                                end
                              else None
                          | EmptyString => None
                          end
                      end
                    else None
                | EmptyString => None
                end
            end
          else None
      | EmptyString => None
      end
  end.

(** [JSON.parse(text)]: one value between optional white space, a
    SyntaxError otherwise.  No call chain is longer than twice the text. *)
Definition parse (text : string) : completion json :=
  match parse_value (2 * String.length text + 2) text with
  | Some (v, rest) =>
      match skip_ws rest with
      | EmptyString => Normal v
      | String _ _ => Throw SyntaxError
      end
  | None => Throw SyntaxError
  end.

(** A later member of the same name replaces an earlier one. *)
Fixpoint lookup_member (members : list (list N * json)) (k : list N) : option json :=
  match members with
  | [] => None
  | (k', v) :: members' =>
      match lookup_member members' k with
      | Some v' => Some v'
      | None => if list_eq_dec N.eq_dec k' k then Some v else None
      end
  end.

(** [v.name]: a TypeError on null, [None] ([undefined]) where the value
    has no such property. *)
Definition get (v : json) (name : string) : completion (option json) :=
  match v with
  | JNull => Throw TypeError
  | JObject members => Normal (lookup_member members (code_units name))
  | _ => Normal None
  end.

(** The value of a string of digits. *)
Fixpoint digits_value (ds : string) (acc : Z) : Z :=
  match ds with
  | EmptyString => acc
  | String c r => digits_value r (10 * acc + (Z.of_N (N_of_ascii c) - 48))%Z
  end.

(** The parts of the lexeme of a number: the digits of its integer part,
    the digits of its fraction, and its exponent. *)
Definition number_parts (lexeme : string) : string * string * Z :=
  let unsigned :=
    match lexeme with
    | String c r => if is_char c 45 then r else lexeme
    | EmptyString => lexeme
    end in
  let (int, s1) := take_digits unsigned in
  let (frac, s2) :=
    match s1 with
    | String c r => if is_char c 46 then take_digits r else (EmptyString, s1)
    | EmptyString => (EmptyString, s1)
    end in
  let exp :=
    match s2 with
    | String _ (String g r) =>
        if is_char g 45 then (- digits_value r 0)%Z
        else if is_char g 43 then digits_value r 0
        else digits_value (String g r) 0
    | _ => 0%Z
    end in
  (int, frac, exp).

(** A number is falsy when its Number value is zero.  The lexeme denotes
    [m * 10 ^ e], [m] its digits and [e] its exponent less the length of
    its fraction; the double nearest to it is 0 when [m] is 0 and when
    the value is at most [2 ^ -1075], half the least positive double (in
    the tie the even neighbour is taken, which is 0). *)
Definition number_nonzero (lexeme : string) : bool :=
  let '(int, frac, exp) := number_parts lexeme in
  let m := digits_value (int ++ frac) 0 in
  let e := (exp - Z.of_nat (String.length frac))%Z in
  if (0 <=? e)%Z then (0 <? m)%Z
  else (10 ^ (- e) <? m * 2 ^ 1075)%Z.

(** ToBoolean *)
Definition truthy (v : option json) : bool :=
  match v with
  | None => false
  | Some JNull => false
  | Some (JBool b) => b
  | Some (JNumber lexeme) => number_nonzero lexeme
  | Some (JString units) => match units with [] => false | _ :: _ => true end
  | Some (JArray _) => true
  | Some (JObject _) => true
  end.

(** [v.first || v.second] as a condition. *)
Definition has_either (v : json) (first second : string) : completion bool :=
  match get v first with
  | Throw e => Throw e
  | Normal a =>
      if truthy a then Normal true
      else match get v second with
           | Throw e => Throw e
           | Normal b => Normal (truthy b)
           end
  end.

(** Text with an apostrophe for each double quote, to write JSON texts. *)
Fixpoint text (s : string) : string :=
  match s with
  | EmptyString => EmptyString
  | String c s' => String (if is_char c 39 then dquote else c) (text s')
  end.

End JSON.

(** ** Paths and the file system *)

Module Path.

(** [path.join(location, entry)] for a normalised [location] and an entry
    name as [fs.readdirSync] returns it: nothing to normalise. *)
Definition join (location entry : string) : string :=
  location ++ "/" ++ entry.

(** The scan of [path.dirname] (posix), from the last character down to
    index 1: the index of the last slash that has a character other than a
    slash after it. *)
Fixpoint dirname_end (rev_tail : list ascii) (i : nat) (matchedSlash : bool)
  : option nat :=
  match rev_tail with
  | [] => None
  | c :: rest =>
      if Ascii.eqb c "/" then
        if matchedSlash then dirname_end rest (i - 1) true else Some i
      else dirname_end rest (i - 1) false
  end.

(** [path.dirname(path)] *)
Definition dirname (path : string) : string :=
  match path with
  | EmptyString => "."
  | String c0 tail =>
      let hasRoot := Ascii.eqb c0 "/" in
      match dirname_end (rev (list_ascii_of_string tail)) (String.length tail) true with
      | None => if hasRoot then "/" else "."
      | Some e => if hasRoot && (e =? 1)%nat then "//" else substring 0 e path
      end
  end.

End Path.

(** A file-system tree without links, but for an entry [fs.statSync]
    fails on (a dangling symbolic link). *)
Inductive node : Type :=
| File (content : string)
| Dir (entries : list (string * node))
| Broken.

Fixpoint find_entry (entries : list (string * node)) (name : string) : option node :=
  match entries with
  | [] => None
  | (name', n) :: entries' =>
      if String.eqb name' name then Some n else find_entry entries' name
  end.

(** Path resolution, component by component, [stack] the ancestors of the
    current directory. *)
Fixpoint walk (stack : list node) (cur : node) (components : list string)
  : option node :=
  match components with
  | [] => Some cur
  | c :: rest =>
      match cur with
      | Dir entries =>
          if String.eqb c "" || String.eqb c "." then walk stack cur rest
          else if String.eqb c ".." then
            match stack with
            | [] => walk [] cur rest
            | parent :: stack' => walk stack' parent rest
            end
          else match find_entry entries c with
               | Some n => walk (cur :: stack) n rest
               | None => None
               end
      | _ => None
      end
  end.

Definition slash : ascii := "/"%char.

(** The node an absolute path names, under the entries of the root. *)
Definition fs_resolve (root : list (string * node)) (path : string) : option node :=
  walk [] (Dir root) (split path slash).

(** Removal of the subtree a path names; nothing happens without one. *)
Fixpoint remove_path (entries : list (string * node)) (names : list string)
  : list (string * node) :=
  match names with
  | [] => entries
  | [name] => filter (fun e => negb (String.eqb (fst e) name)) entries
  | name :: rest =>
      map (fun e =>
             if String.eqb (fst e) name then
               match snd e with
               | Dir sub => (fst e, Dir (remove_path sub rest))
               | _ => e
               end
             else e) entries
  end.

(** The entries of a directory with one of them replaced or added. *)
Fixpoint put_entry (entries : list (string * node)) (name : string) (n : node)
  : list (string * node) :=
  match entries with
  | [] => [(name, n)]
  | (name', n') :: entries' =>
      if String.eqb name' name then (name', n) :: entries'
      else (name', n') :: put_entry entries' name n
  end.

(** What a call has done to the world outside: the commands it ran and the
    trees it removed, in order. *)
Inductive event : Type :=
| Exec (command : string)
| Rimraf (path : string).

Record world : Type := {
  root : list (string * node);
  log : list event
}.

(** Computations on the world: [None] when the call has not returned
    within the fuel, a completion and the world left otherwise. *)
Definition M (A : Type) : Type := world -> option (completion A * world).

Definition ret {A} (a : A) : M A := fun w => Some (Normal a, w).

Definition throw {A} (e : error) : M A := fun w => Some (Throw e, w).

Definition bind {A B} (m : M A) (f : A -> M B) : M B :=
  fun w =>
    match m w with
    | None => None
    | Some (Throw e, w') => Some (Throw e, w')
    | Some (Normal a, w') => f a w'
    end.

Definition lift {A} (c : completion A) : M A := fun w => Some (c, w).

(** [try { body } finally { cleanup }]: the cleanup runs when the body has
    completed, normally or not, and the completion of the body stands
    unless the cleanup throws. *)
Definition try_finally {A} (body : M A) (cleanup : M unit) : M A :=
  fun w =>
    match body w with
    | None => None
    | Some (c, w') =>
        match cleanup w' with
        | None => None
        | Some (Throw e, w'') => Some (Throw e, w'')
        | Some (Normal _, w'') => Some (c, w'')
        end
    end.

Notation "x <- m ;; f" := (bind m (fun x => f))
  (at level 61, m at next level, right associativity).

(** [fs.readFileSync(path).toString()] *)
Definition readFileSync (path : string) : M string :=
  fun w =>
    match fs_resolve (root w) path with
    | Some (File content) => Some (Normal content, w)
    | _ => Some (Throw FsError, w)
    end.

(** [rimraf.sync(path)] *)
Definition rimraf_sync (path : string) : M unit :=
  fun w =>
    let names :=
      filter (fun c => negb (String.eqb c "" || String.eqb c ".")) (split path slash) in
    Some (Normal tt, {| root := remove_path (root w) names;
                        log := (log w ++ [Rimraf path])%list |}).

(** ** TreeScanner *)

Definition isDirectory (n : node) : bool :=
  match n with
  | Dir _ => true
  | _ => false
  end.

(** [readDirectory(location)], [dir] the node [location] names:
    [fs.readdirSync] lists its entries, [fs.statSync] and
    [fs.readFileSync] look at the entry they are given. *)
Fixpoint readDirectory (location : string) (dir : node) : completion obj :=
  match dir with
  | Dir entries =>
      fold_left
        (fun (acc : completion obj) (e : string * node) =>
           match acc with
           | Throw err => Throw err
           | Normal result =>
               let (entry, stat) := e in
               let fullPath := Path.join location entry in
               match stat with
               | Broken => Throw FsError
               | _ =>
                   if isDirectory stat
                      && (Array_indexOf BLACKLISTED_DIRECTORIES entry =? -1)%Z
                   then
                     match readDirectory fullPath stat with
                     | Normal sub => Normal (spread result sub)
                     | Throw err => Throw err
                     end
                   else if negb (isFileValid fullPath) then Normal result
                   else
                     match stat with
                     | File code =>
                         Normal (obj_set result fullPath (VObj [("code", VStr code)]))
                     | _ => Throw FsError
                     end
               end
           end)
        entries (Normal [])
  | _ => Throw FsError
  end.

(** ** ManifestCleaner *)

(** The [try] block of [cleanFiles]: parse the entry, look for [typings]
    or [types]. *)
Definition declares_types (entry : jsval) : completion bool :=
  match JSON.parse (ToString entry) with
  | Normal parsed => JSON.has_either parsed "typings" "types"
  | Throw e => Throw e
  end.

(** This function ensures that we only add package.json files that have
    typing files included *)
Definition cleanFiles (files : obj) : obj :=
  let paths := Object_keys files in
  let validDependencies :=
    filter
      (fun checkedPath =>
         if endsWith checkedPath "/package.json" then
           match declares_types (obj_get files checkedPath) with
           | Normal true => true
           | _ =>
               existsb
                 (fun p => startsWith p (Path.dirname checkedPath) && endsWith p ".ts")
                 paths
           end
         else false)
      paths in
  fold_left
    (fun newFiles p =>
       if endsWith p ".ts" || (-1 <? Array_indexOf validDependencies p)%Z
       then obj_set newFiles p (obj_get files p)
       else newFiles)
    paths [].

(** ** ResponseBudgeter *)

(** [5.8 * 1024 * 1024], 6081740.8; the double the program computes lies
    between the same two integers, and only lengths are compared to it. *)
Definition MAX_RES_SIZE : Q := 5.8 * 1024 * 1024.

(** [n < q] and [n > q] for a length [n]. *)
Definition lt_Q (n : Z) (q : Q) : bool := negb (Qle_bool q (inject_Z n)).
Definition gt_Q (n : Z) (q : Q) : bool := negb (Qle_bool (inject_Z n) q).

(** [JSON.stringify(o).length] *)
Definition stringify_length (o : obj) : Z :=
  Z.of_nat (String.length (JSON.stringify o)).

Record IResult : Type := {
  files : obj;
  droppedFileCount : option Z   (* [None]: the key is absent *)
}.

(** The loop of [dropFiles]: [None] when the fuel is spent before the
    condition fails. *)
Fixpoint dropFiles_loop (fuel : nat) (files result : obj) (index : nat)
  : option (obj * nat) :=
  let paths := Object_keys files in
  match (if lt_Q (stringify_length result) MAX_RES_SIZE
         then nth_error paths index else None) with
  | None => Some (result, index)
  | Some path =>
      match fuel with
      | O => None
      | S fuel' =>
          dropFiles_loop fuel' files (obj_set result path (obj_get files path)) index
      end
  end.

Definition dropFiles (fuel : nat) (files : obj) : option IResult :=
  match dropFiles_loop fuel files [] 0 with
  | Some (result, index) =>
      Some {| files := result; droppedFileCount := Some (Z.of_nat index + 1)%Z |}
  | None => None
  end.

(** ** The pipeline *)

Section Pipeline.

(** The hash of the [hash-sum] package: a short hexadecimal string. *)
Variable sum : string -> string.

(** The package manager: what [npm i --production dependency@version]
    leaves in the scratch directory, [None] when it exits non-zero. *)
Variable npm : string -> string -> option (list (string * node)).

Definition install_command (dependency version dependencyLocation : string) : string :=
  "cd /tmp && mkdir " ++ dependencyLocation ++ " && cd " ++ dependencyLocation
  ++ " && HOME=/tmp npm i --production " ++ dependency ++ "@" ++ version
  ++ " --no-save".

(** [execSync] of the install command: [mkdir] fails on a directory that
    is there, the package manager fills the one made or fails.  The
    command is taken to touch the scratch directory only: what the
    package manager writes under its [HOME], "/tmp", and what the shell
    makes of a specifier that holds shell syntax are left out. *)
Definition execSync_install (dependency version dependencyLocation : string) : M unit :=
  fun w =>
    let ran := (log w ++ [Exec (install_command dependency version dependencyLocation)])%list in
    match find_entry (root w) "tmp" with
    | Some (Dir tmp) =>
        match find_entry tmp dependencyLocation with
        | Some _ => Some (Throw ExecError, {| root := root w; log := ran |})
        | None =>
            match npm dependency version with
            | None =>
                Some (Throw ExecError,
                      {| root := put_entry (root w) "tmp"
                                   (Dir (put_entry tmp dependencyLocation (Dir [])));
                         log := ran |})
            | Some installed =>
                Some (Normal tt,
                      {| root := put_entry (root w) "tmp"
                                   (Dir (put_entry tmp dependencyLocation (Dir installed)));
                         log := ran |})
            end
        end
    | _ => Some (Throw ExecError, {| root := root w; log := ran |})
    end.

(** [readDirectory(dependencyPath)] on the world as it is. *)
Definition scan (location : string) : M obj :=
  fun w =>
    match fs_resolve (root w) location with
    | Some dir => Some (readDirectory location dir, w)
    | None => Some (Throw FsError, w)
    end.

Definition extractFiles (dependency version dependencyLocation : string) : M obj :=
  _ <- execSync_install dependency version dependencyLocation ;;
  let dependencyPath := "/tmp/" ++ dependencyLocation ++ "/node_modules" in
  let packageJSON := dependencyPath ++ "/" ++ dependency ++ "/package.json" in
  content <- readFileSync packageJSON ;;
  pkg <- lift (JSON.parse content) ;;
  typed <- lift (JSON.has_either pkg "types" "typings") ;;
  if negb typed && negb (startsWith dependency "@types/") then ret []
  else
    files <- scan dependencyPath ;;
    ret (cleanFiles files).

(** [/\.tsx?/.test(p)]: [p] contains ".ts". *)
Definition test_tsx (p : string) : bool := (-1 <? indexOf p ".ts")%Z.

Definition stripPrefix (files : obj) (dependencyPath : string) : obj :=
  fold_left
    (fun t n =>
       obj_set t (replace n dependencyPath "") (VObj [("module", obj_get files n)]))
    (Object_keys files) [].

Definition downloadDependencyTypings (fuel : nat) (depQuery : string) : M IResult :=
  let dv := getDependencyAndVersion depQuery in
  let dependency := dependency dv in
  let version := match version dv with Some v => v | None => "latest" end in
  let dependencyLocation := sum (dependency ++ "@" ++ version) in
  try_finally
    (let dependencyPath := "/tmp/" ++ dependencyLocation ++ "/node_modules" in
     files <- extractFiles dependency version dependencyLocation ;;
     if existsb test_tsx (Object_keys files) then
       let filesWithNoPrefix := stripPrefix files dependencyPath in
       let resultSize :=
         stringify_length [("status", VStr "ok"); ("files", VObj filesWithNoPrefix)] in
       if gt_Q resultSize MAX_RES_SIZE then
         fun w =>
           match dropFiles fuel filesWithNoPrefix with
           | Some {| files := cleanedFiles; droppedFileCount := droppedFileCount |} =>
               Some (Normal {| files := cleanedFiles;
                               droppedFileCount := droppedFileCount |}, w)
           | None => None
           end
       else ret {| files := filesWithNoPrefix; droppedFileCount := None |}
     else ret {| files := []; droppedFileCount := None |})
    (rimraf_sync ("/tmp/" ++ dependencyLocation)).

End Pipeline.

(** ** The request handler *)

(** [query.depQuery] of the parsed URL: absent, one value, or the values
    of a key given more than once. *)
Inductive query_value : Type :=
| QUndefined
| QString (s : string)
| QArray (items : list string).

(** The response object: its status code, the calls of [setHeader] in
    order, and the body [res.end] has sent, if any. *)
Record response : Type := {
  statusCode : Z;
  headers : list (string * string);
  body : option string
}.

Definition setHeader (res : response) (name value : string) : response :=
  {| statusCode := statusCode res;
     headers := (headers res ++ [(name, value)])%list;
     body := body res |}.

Definition set_statusCode (res : response) (code : Z) : response :=
  {| statusCode := code; headers := headers res; body := body res |}.

Definition res_end (res : response) (text : string) : response :=
  {| statusCode := statusCode res; headers := headers res; body := Some text |}.

(** What the [catch] of the handler receives: an error the handler made
    with [new Error(message)], or an error of the pipeline. *)
Inductive thrown : Type :=
| NewError (message : string)
| Raised (e : error).

(** The members of the bodies the handler serializes: values of the
    pipeline, and the number of [droppedFileCount]. *)
Inductive member : Type :=
| MValue (v : jsval)
| MNumber (n : Z).

Definition serialize_member (m : member) : option string :=
  match m with
  | MValue v => JSON.SerializeJSONProperty v
  | MNumber n => Some (NilEmpty.string_of_int (Z.to_int n))
  end.

(** [JSON.stringify({ ... })] of an object literal with these members. *)
Definition stringify_body (members : list (string * member)) : string :=
  "{" ++ join (flat_map (fun km =>
                 match serialize_member (snd km) with
                 | Some str => [JSON.QuoteJSONString (fst km) ++ ":" ++ str]
                 | None => []
                 end) members) ","
      ++ "}".

Section Handler.

Variable sum : string -> string.
Variable npm : string -> string -> option (list (string * node)).

(** [e.message] of an error of the pipeline and [e.stack] of an error, as
    the platform words them. *)
Variable message : error -> string.
Variable stack : thrown -> string.

Definition message_of (e : thrown) : string :=
  match e with
  | NewError m => m
  | Raised e => message e
  end.

(** The default export: [None] when the call has not returned, the
    response and the world left otherwise.  [!depQuery] holds for
    [undefined] and for the empty string. *)
Definition handler (fuel : nat) (depQuery : query_value) (res : response)
  : world -> option (response * world) :=
  fun w =>
    let attempt : option ((unit + thrown) * response * world) :=
      match depQuery with
      | QUndefined => Some (inr (NewError "Please provide a dependency"), res, w)
      | QString depQuery =>
          if String.eqb depQuery "" then
            Some (inr (NewError "Please provide a dependency"), res, w)
          else
            let res := setHeader res "Cache-Control" "max-age=31536000" in
            let res := setHeader res "Content-Type" "application/json" in
            let res := setHeader res "Access-Control-Allow-Origin" "*" in
            match downloadDependencyTypings sum npm fuel depQuery w with
            | None => None
            | Some (Throw e, w') => Some (inr (Raised e), res, w')
            | Some (Normal result, w') =>
                Some (inl tt,
                      res_end res
                        (stringify_body
                           [("status", MValue (VStr "ok"));
                            ("files", MValue (VObj (files result)));
                            ("droppedFileCount",
                             match droppedFileCount result with
                             | Some n => MNumber n
                             | None => MValue VUndefined
                             end)]),
                      w')
            end
      | QArray _ => Some (inr (NewError "Dependency should not be an array"), res, w)
      end in
    match attempt with
    | None => None
    | Some (inl _, res, w') => Some (res, w')
    | Some (inr e, res, w') =>
        let res := set_statusCode res 422 in
        Some (res_end res
                (stringify_body
                   [("status", MValue (VStr "error"));
                    ("files", MValue (VObj []));
                    ("error", MValue (VStr (message_of e)));
                    ("stack", MValue (VStr (stack e)))]),
              w')
    end.

End Handler.

(** ** What the properties speak of *)

(** The path of [file] below the directories [dirs], relative to the
    directory they start in: "/d1/.../dn/file". *)
Fixpoint rel_path (dirs : list string) (file : string) : string :=
  match dirs with
  | [] => "/" ++ file
  | d :: dirs' => "/" ++ d ++ rel_path dirs' file
  end.

(** The node reached from [n] along [names] is a regular file with this
    content. *)
Fixpoint file_at (n : node) (names : list string) (content : string) : Prop :=
  match names with
  | [] => n = File content
  | name :: rest =>
      match n with
      | Dir entries => exists sub, In (name, sub) entries /\ file_at sub rest content
      | _ => False
      end
  end.

(** The names of a tree are file names: none holds a slash. *)
Fixpoint names_ok (n : node) : bool :=
  match n with
  | Dir entries =>
      forallb (fun e : string * node => let (name, sub) := e in
                        (indexOf name "/" =? -1)%Z && names_ok sub) entries
  | _ => true
  end.

(** No entry of the tree is one [fs.statSync] fails on. *)
Fixpoint no_broken (n : node) : bool :=
  match n with
  | File _ => true
  | Dir entries =>
      forallb (fun e : string * node => let (_, sub) := e in no_broken sub) entries
  | Broken => false
  end.

(** An entry of the scan of [dir] at [location]: the path of a regular
    file under directories that are not blacklisted, accepted by
    [isFileValid], with the object [{ code }] of its content. *)
Definition scanned_entry (location : string) (dir : node) (p : string) (v : jsval) : Prop :=
  exists dirs file content,
    p = location ++ rel_path dirs file
    /\ v = VObj [("code", VStr content)]
    /\ file_at dir (dirs ++ [file])%list content
    /\ Forall (fun d => Array_indexOf BLACKLISTED_DIRECTORIES d = (-1)%Z) dirs
    /\ isFileValid p = true.

(** One step of the [reduce] of [readDirectory]. *)
Definition readDirectory_step (location : string) (acc : completion obj)
           (e : string * node) : completion obj :=
  match acc with
  | Throw err => Throw err
  | Normal result =>
      let (entry, stat) := e in
      let fullPath := Path.join location entry in
      match stat with
      | Broken => Throw FsError
      | _ =>
          if isDirectory stat
             && (Array_indexOf BLACKLISTED_DIRECTORIES entry =? -1)%Z
          then
            match readDirectory fullPath stat with
            | Normal sub => Normal (spread result sub)
            | Throw err => Throw err
            end
          else if negb (isFileValid fullPath) then Normal result
          else
            match stat with
            | File code =>
                Normal (obj_set result fullPath (VObj [("code", VStr code)]))
            | _ => Throw FsError
            end
      end
  end.

(** A name of one path segment, as a hexadecimal hash is. *)
Definition plain_name (s : string) : bool :=
  negb (String.eqb s "") && negb (String.eqb s ".") && negb (String.eqb s "..")
  && (indexOf s "/" =? -1)%Z.

(** The number of removals of [path] in a log. *)
Fixpoint removals (path : string) (l : list event) : nat :=
  match l with
  | [] => 0
  | Rimraf p :: l' => (if String.eqb p path then 1 else 0) + removals path l'
  | Exec _ :: l' => removals path l'
  end.

(** What [extractFiles] does after the install, on the world it left. *)
Definition after_install (dependency dependencyLocation : string) : M obj :=
  let dependencyPath := "/tmp/" ++ dependencyLocation ++ "/node_modules" in
  let packageJSON := dependencyPath ++ "/" ++ dependency ++ "/package.json" in
  content <- readFileSync packageJSON ;;
  pkg <- lift (JSON.parse content) ;;
  typed <- lift (JSON.has_either pkg "types" "typings") ;;
  if negb typed && negb (startsWith dependency "@types/") then ret []
  else
    files <- scan dependencyPath ;;
    ret (cleanFiles files).

(** What [downloadDependencyTypings] does with the files extracted. *)
Definition assemble (fuel : nat) (extracted : obj) (dependencyPath : string) : M IResult :=
  if existsb test_tsx (Object_keys extracted) then
    let filesWithNoPrefix := stripPrefix extracted dependencyPath in
    let resultSize :=
      stringify_length [("status", VStr "ok"); ("files", VObj filesWithNoPrefix)] in
    if gt_Q resultSize MAX_RES_SIZE then
      fun w =>
        match dropFiles fuel filesWithNoPrefix with
        | Some {| files := cleanedFiles; droppedFileCount := droppedFileCount |} =>
            Some (Normal {| files := cleanedFiles;
                            droppedFileCount := droppedFileCount |}, w)
        | None => None
        end
    else ret {| files := filesWithNoPrefix; droppedFileCount := None |}
  else ret {| files := []; droppedFileCount := None |}.

(** A file content of [n] characters. *)
Definition padding (n : N) : string := N.iter n (String "a"%char) EmptyString.

(** The entry of the response for a file with this content. *)
Definition module_of (content : string) : jsval :=
  VObj [("module", VObj [("code", VStr content)])].

Definition one_big_file : obj :=
  [("/big/index.d.ts", module_of (padding 6081740))].

Definition two_large_files : obj :=
  [("/large/a.d.ts", module_of (padding 4000000));
   ("/large/b.d.ts", module_of (padding 4000000))].

(** A package whose manifest declares its types, in a TypeScript source
    under "src" that the scanner leaves out, beside a typed package. *)
Definition typed_manifest : string :=
  JSON.text "{'name':'dep','version':'1.0.0','types':'src/index.ts'}".

Definition typed_manifest_tree : node :=
  Dir [("dep", Dir [("package.json", File typed_manifest);
                    ("src", Dir [("index.ts", File "export const x = 1;")])]);
       ("lib", Dir [("package.json", File (JSON.text "{'name':'lib'}"));
                    ("index.d.ts", File "export {};")])].

(** A directory the scan reads to the end: no entry [fs.statSync] fails
    on, outside the blacklisted directories, which are not entered. *)
Fixpoint scannable (n : node) : bool :=
  match n with
  | Dir entries =>
      forallb (fun e : string * node =>
                 let (entry, stat) := e in
                 match stat with
                 | Broken => false
                 | File _ => true
                 | Dir _ =>
                     if (Array_indexOf BLACKLISTED_DIRECTORIES entry =? -1)%Z
                     then scannable stat else true
                 end) entries
  | _ => false
  end.

(** The test of [cleanFiles] on a path of its input: it ends in ".ts", or
    it is a manifest among the valid dependencies. *)
Definition kept (files : obj) (p : string) : bool :=
  endsWith p ".ts"
  || (endsWith p "/package.json"
      && match declares_types (obj_get files p) with
         | Normal true => true
         | _ =>
             existsb (fun q => startsWith q (Path.dirname p) && endsWith q ".ts")
                     (Object_keys files)
         end).

(** ** Example worlds *)

(** One fixed hash for the scratch directory of the examples. *)
Definition example_sum (s : string) : string := "1f2e3d4c".

(** A typed package with a test directory and a bundled SDK. *)
Definition react_modules : node :=
  Dir [("react",
        Dir [("package.json", File (JSON.text "{'name':'react','types':'index.d.ts'}"));
             ("index.d.ts", File "export declare const version: string;");
             ("index.js", File "exports.version = '18.2.0';");
             ("src", Dir [("hooks.ts", File "export const x = 1;");
                          ("hooks.d.ts", File "export declare const x: number;")]);
             ("__tests__", Dir [("hooks.d.ts", File "declare const t: number;")]);
             ("my-package.json", File "{}")]);
       ("aws-sdk", Dir [("index.d.ts", File "export {};")])].

(** A package whose manifest is cut short. *)
Definition broken_modules : node :=
  Dir [("broken", Dir [("package.json", File (JSON.text "{'name':'broken','types':"));
                       ("index.d.ts", File "export {};")])].

(** A package that declares no types. *)
Definition untyped_modules : node :=
  Dir [("untyped", Dir [("package.json", File (JSON.text "{'name':'untyped'}"));
                        ("index.js", File "module.exports = 1;")])].

(** A types-scope package whose manifest stands alone, beside a package
    with one declaration file of 6081740 characters, and one beside a
    package with two declaration files of 4000000 characters each. *)
Definition big_modules : node :=
  Dir [("@types",
        Dir [("uses-big",
              Dir [("package.json", File (JSON.text "{'name':'@types/uses-big'}"))])]);
       ("big", Dir [("index.d.ts", File (padding 6081740))])].

Definition large_modules : node :=
  Dir [("@types",
        Dir [("uses-large",
              Dir [("package.json", File (JSON.text "{'name':'@types/uses-large'}"))])]);
       ("large", Dir [("a.d.ts", File (padding 4000000));
                      ("b.d.ts", File (padding 4000000))])].

(** A typed package with a dangling link, and a package directory
    without a manifest. *)
Definition dangling_modules : node :=
  Dir [("dangling",
        Dir [("package.json",
              File (JSON.text "{'name':'dangling','typings':'index.d.ts'}"));
             ("index.d.ts", File "export {};");
             ("link", Broken)])].

Definition bare_modules : node :=
  Dir [("bare", Dir [("index.d.ts", File "export {};")])].

Definition example_npm (dependency version : string) : option (list (string * node)) :=
  if String.eqb dependency "react" then Some [("node_modules", react_modules)]
  else if String.eqb dependency "broken" then Some [("node_modules", broken_modules)]
  else if String.eqb dependency "untyped" then Some [("node_modules", untyped_modules)]
  else if String.eqb dependency "@types/uses-large" then Some [("node_modules", large_modules)]
  else if String.eqb dependency "@types/uses-big" then Some [("node_modules", big_modules)]
  else if String.eqb dependency "dangling" then Some [("node_modules", dangling_modules)]
  else if String.eqb dependency "bare" then Some [("node_modules", bare_modules)]
  else None.

Definition empty_tmp : world := {| root := [("tmp", Dir [])]; log := [] |}.

(** A world where the scratch directory of the examples is there already,
    with the files of another call in it. *)
Definition taken_tmp : world :=
  {| root := [("tmp", Dir [("1f2e3d4c", Dir [("node_modules", react_modules)])])];
     log := [] |}.

(** The scan of a package without declarations beside a package whose
    name extends its name. *)
Definition sibling_scan : obj :=
  [("/m/react/package.json", VObj [("code", VStr "{}")]);
   ("/m/react-dom/index.d.ts", VObj [("code", VStr "export {};")])].

(** The response object a request starts with, and wordings for the
    examples. *)
Definition fresh_response : response :=
  {| statusCode := 200; headers := []; body := None |}.

Definition example_message (e : error) : string :=
  match e with
  | SyntaxError => "Unexpected end of JSON input"
  | TypeError => "Cannot read property 'types' of null"
  | FsError => "ENOENT: no such file or directory"
  | ExecError => "Command failed"
  end.

Definition example_stack (e : thrown) : string :=
  match e with
  | NewError m => "Error: " ++ m
  | Raised e => "Error: " ++ example_message e
  end.

(** * Properties *)

(** ** String builtins *)

Section StringFacts.

Lemma append_nil_r (s : string) : s ++ "" = s.
Proof. induction s as [|c s IH]; simpl; [reflexivity | now rewrite IH]. Qed.

Lemma append_assoc (a b c : string) : (a ++ b) ++ c = a ++ b ++ c.
Proof. induction a as [|x a IH]; simpl; [reflexivity | now rewrite IH]. Qed.

Lemma length_append (a b : string) :
  String.length (a ++ b) = (String.length a + String.length b)%nat.
Proof. induction a as [|x a IH]; simpl; [reflexivity | now rewrite IH]. Qed.

Lemma startsWith_append (pre suf : string) : startsWith (pre ++ suf) pre = true.
Proof.
  induction pre as [|c pre IH]; simpl; [reflexivity |].
  now rewrite Ascii.eqb_refl, IH.
Qed.

Lemma startsWith_spec (s pre : string) :
  startsWith s pre = true <-> exists suf, s = pre ++ suf.
Proof.
  split.
  - revert s; induction pre as [|c pre IH]; intros s H.
    + now exists s.
    + destruct s as [|d s]; simpl in H; [discriminate |].
      apply andb_true_iff in H as [Hc Hs].
      apply Ascii.eqb_eq in Hc; subst d.
      destruct (IH _ Hs) as [suf ->]. now exists suf.
  - intros [suf ->]. apply startsWith_append.
Qed.

Lemma endsWith_append (pre suf : string) : endsWith (pre ++ suf) suf = true.
Proof.
  induction pre as [|c pre IH]; cbn [endsWith append].
  - destruct suf; cbn [endsWith]; now rewrite String.eqb_refl.
  - rewrite IH. now destruct (String.eqb (String c (pre ++ suf)) suf).
Qed.

Lemma endsWith_spec (s suf : string) :
  endsWith s suf = true <-> exists pre, s = pre ++ suf.
Proof.
  split.
  - induction s as [|c s IH]; cbn [endsWith].
    + destruct (String.eqb "" suf) eqn:E; [|discriminate].
      apply String.eqb_eq in E; subst. now exists "".
    + destruct (String.eqb (String c s) suf) eqn:E.
      * apply String.eqb_eq in E; subst. now exists "".
      * intros H. destruct (IH H) as [pre ->]. now exists (String c pre).
  - intros [pre ->]. apply endsWith_append.
Qed.

(** [indexOf_from] either finds no occurrence, whatever the start index,
    or the same one. *)
Lemma indexOf_from_cases (s pat : string) :
  (forall i, indexOf_from s pat i = (-1)%Z)
  \/ (exists k : nat, forall i, indexOf_from s pat i = (i + Z.of_nat k)%Z).
Proof.
  induction s as [|c s IH]; simpl.
  - destruct (startsWith "" pat); [right; exists 0%nat; intros; lia | now left].
  - destruct (startsWith (String c s) pat).
    + right; exists 0%nat; intros; lia.
    + destruct IH as [IH | [k IH]].
      * left; intros; apply IH.
      * right; exists (S k); intros i. rewrite IH. lia.
Qed.

Lemma indexOf_range (s pat : string) :
  indexOf s pat = (-1)%Z \/ (0 <= indexOf s pat)%Z.
Proof.
  unfold indexOf. destruct (indexOf_from_cases s pat) as [H | [k H]]; rewrite H; lia.
Qed.

Lemma indexOf_from_found (s pat : string) (i : Z) :
  (0 <= i)%Z ->
  ((-1 < indexOf_from s pat i)%Z <-> exists pre suf, s = pre ++ pat ++ suf).
Proof.
  revert i; induction s as [|c s IH]; intros i Hi; simpl.
  - destruct (startsWith "" pat) eqn:E.
    + split; [intros _ | lia].
      apply startsWith_spec in E as [suf E]. now exists "", suf.
    + split; [lia |]. intros (pre & suf & H).
      destruct pre; [|discriminate]. simpl in H.
      assert (startsWith "" pat = true) by (apply startsWith_spec; eauto).
      congruence.
  - destruct (startsWith (String c s) pat) eqn:E.
    + split; [intros _ | lia].
      apply startsWith_spec in E as [suf E]. now exists "", suf.
    + rewrite IH by lia. split.
      * intros (pre & suf & ->). now exists (String c pre), suf.
      * intros (pre & suf & H). destruct pre as [|d pre].
        -- simpl in H.
           assert (startsWith (String c s) pat = true) by (apply startsWith_spec; eauto).
           congruence.
        -- simpl in H. injection H as _ ->. eauto.
Qed.

(** [s.indexOf(pat) > -1] says that [pat] occurs in [s]. *)
Lemma indexOf_spec (s pat : string) :
  (-1 < indexOf s pat)%Z <-> exists pre suf, s = pre ++ pat ++ suf.
Proof. apply indexOf_from_found; lia. Qed.

Lemma indexOf_absent (s pat : string) :
  indexOf s pat = (-1)%Z <-> ~ exists pre suf, s = pre ++ pat ++ suf.
Proof.
  rewrite <- indexOf_spec. destruct (indexOf_range s pat); lia.
Qed.

Lemma indexOf_cons_absent (c d : ascii) (s : string) :
  indexOf (String d s) (String c "") = (-1)%Z ->
  d <> c /\ indexOf s (String c "") = (-1)%Z.
Proof.
  intros H. apply indexOf_absent in H. split.
  - intros ->. apply H. now exists "", s.
  - apply indexOf_absent. intros (pre & suf & ->).
    apply H. now exists (String d pre), suf.
Qed.

Lemma split_nonempty (s : string) (c : ascii) : split s c <> [].
Proof.
  destruct s as [|d s]; simpl; [discriminate |].
  destruct (Ascii.eqb d c); [discriminate |].
  destruct (split s c); discriminate.
Qed.

Lemma split_absent (s : string) (c : ascii) :
  indexOf s (String c "") = (-1)%Z -> split s c = [s].
Proof.
  induction s as [|d s IH]; intros H; simpl; [reflexivity |].
  apply indexOf_cons_absent in H as [Hd Hs].
  apply Ascii.eqb_neq in Hd. rewrite Hd, (IH Hs). reflexivity.
Qed.

Lemma split_append_sep (a b : string) (c : ascii) :
  split (a ++ String c b) c = (split a c ++ split b c)%list.
Proof.
  induction a as [|d a IH]; simpl.
  - now rewrite Ascii.eqb_refl.
  - destruct (Ascii.eqb d c); rewrite IH; [reflexivity |].
    destruct (split a c) eqn:E; [now apply split_nonempty in E | reflexivity].
Qed.

Lemma join_split (s : string) (c : ascii) : join (split s c) (String c "") = s.
Proof.
  induction s as [|d s IH]; simpl; [reflexivity |].
  destruct (Ascii.eqb d c) eqn:E.
  - apply Ascii.eqb_eq in E; subst d.
    destruct (split s c) eqn:Es; [now apply split_nonempty in Es |].
    change (String c (join (s0 :: l) (String c "")) = String c s). now rewrite IH.
  - destruct (split s c) as [|h t] eqn:Es; [now apply split_nonempty in Es |].
    destruct t as [|h' t]; simpl in *; now rewrite IH.
Qed.

Lemma pop_snoc (l : list string) (x : string) : pop (l ++ [x])%list = (Some x, l).
Proof.
  induction l as [|y l IH]; simpl; [reflexivity |].
  rewrite IH. destruct (l ++ [x])%list eqn:E; [now destruct l | reflexivity].
Qed.

End StringFacts.

(** ** SpecifierParser *)

Lemma split_leading_at (rest : string) :
  split (String at_sign rest) at_sign = EmptyString :: split rest at_sign.
Proof. reflexivity. Qed.

Lemma length_split_pos (s : string) (c : ascii) : (1 <= List.length (split s c))%nat.
Proof.
  pose proof (split_nonempty s c). destruct (split s c); [congruence | simpl; lia].
Qed.

(** A specifier that ends in a version: the last segment is the version,
    the segments before it, joined again, the dependency. *)
Lemma getDependencyAndVersion_versioned (dep ver : string) :
  indexOf ver "@" = (-1)%Z ->
  (startsWith dep "@" = true \/ indexOf dep "@" = (-1)%Z /\ dep <> "" \/ (2 <= List.length (split dep at_sign))%nat) ->
  getDependencyAndVersion (dep ++ "@" ++ ver)
  = {| dependency := dep; version := Some ver |}.
Proof.
  intros Hver Hdep. unfold getDependencyAndVersion.
  change (dep ++ "@" ++ ver) with (dep ++ String at_sign ver).
  rewrite split_append_sep, (split_absent ver at_sign Hver), pop_snoc.
  change "@" with (String at_sign "") at 2. rewrite join_split.
  rewrite length_app. cbn [List.length].
  pose proof (length_split_pos dep at_sign) as Hpos.
  replace ((List.length (split dep at_sign) + 1 =? 1)%nat) with false
    by (symmetry; apply Nat.eqb_neq; lia).
  destruct Hdep as [Hdep | [[Hdep Hne] | Hdep]].
  - destruct dep as [|c dep']; [discriminate |].
    simpl in Hdep. apply andb_true_iff in Hdep as [Hc _].
    apply Ascii.eqb_eq in Hc; subst c.
    change (String "@" dep') with (String at_sign dep').
    rewrite split_leading_at. cbn [List.length].
    pose proof (length_split_pos dep' at_sign).
    replace ((S (List.length (split dep' at_sign)) + 1 =? 2)%nat) with false
      by (symmetry; apply Nat.eqb_neq; lia).
    now rewrite andb_false_r.
  - destruct dep as [|c dep']; [congruence |].
    apply indexOf_cons_absent in Hdep as [Hc _].
    cbn [append startsWith]. apply Ascii.eqb_neq in Hc. rewrite Hc. reflexivity.
  - replace ((List.length (split dep at_sign) + 1 =? 2)%nat) with false
      by (symmetry; apply Nat.eqb_neq; lia).
    now rewrite andb_false_r.
Qed.

(** C6, as the code has it.  A specifier without "@", and one that begins
    with "@" and has no other, resolve to version "latest" with the whole
    string as the dependency; a scoped specifier "@scope/name@X" whose
    [X] holds no "@" yields dependency "@scope/name" and version [X]. *)
Theorem getDependencyAndVersion_latest_or_scoped
  (plain rest scope name X : string)
  (Hplain : indexOf plain "@" = (-1)%Z)
  (Hrest : indexOf rest "@" = (-1)%Z)
  (HX : indexOf X "@" = (-1)%Z) :
  getDependencyAndVersion plain
  = {| dependency := plain; version := Some "latest" |}
  /\ getDependencyAndVersion ("@" ++ rest)
     = {| dependency := "@" ++ rest; version := Some "latest" |}
  /\ getDependencyAndVersion ("@" ++ scope ++ "/" ++ name ++ "@" ++ X)
     = {| dependency := "@" ++ scope ++ "/" ++ name; version := Some X |}.
Proof.
  repeat split.
  - unfold getDependencyAndVersion.
    rewrite (split_absent plain at_sign Hplain). cbn [List.length Nat.eqb].
    now rewrite orb_true_r.
  - unfold getDependencyAndVersion.
    change ("@" ++ rest) with (String at_sign rest).
    rewrite split_leading_at, (split_absent rest at_sign Hrest).
    reflexivity.
  - replace ("@" ++ scope ++ "/" ++ name ++ "@" ++ X)
      with (("@" ++ scope ++ "/" ++ name) ++ "@" ++ X).
    + apply getDependencyAndVersion_versioned; [exact HX | now left].
    + cbn [append]. f_equal. now rewrite !append_assoc.
Qed.

Lemma getDependencyAndVersion_latest_or_scoped_witness :
  getDependencyAndVersion "react"
  = {| dependency := "react"; version := Some "latest" |}
  /\ getDependencyAndVersion "@types/node"
     = {| dependency := "@types/node"; version := Some "latest" |}
  /\ getDependencyAndVersion "@org/pkg@1.2.3"
     = {| dependency := "@org/pkg"; version := Some "1.2.3" |}.
Proof.
  apply (getDependencyAndVersion_latest_or_scoped "react" "types/node" "org" "pkg" "1.2.3");
    reflexivity.
Defined.

(** C6 as stated fails for an [X] that holds "@": the version is what
    follows the last "@" of the specifier, and the rest of [X] stays in
    the dependency. *)
Lemma getDependencyAndVersion_version_holds_at :
  getDependencyAndVersion ("@" ++ "org" ++ "/" ++ "pkg" ++ "@" ++ "npm:other@1.2.3")
  = {| dependency := "@org/pkg@npm:other"; version := Some "1.2.3" |}
  /\ getDependencyAndVersion ("@" ++ "org" ++ "/" ++ "pkg" ++ "@" ++ "npm:other@1.2.3")
     <> {| dependency := "@" ++ "org" ++ "/" ++ "pkg";
           version := Some "npm:other@1.2.3" |}.
Proof. split; [reflexivity | discriminate]. Qed.

Lemma pop_nonempty (l : list string) :
  l <> [] -> exists x l', pop l = (Some x, l').
Proof.
  induction l as [|y l IH]; [congruence |]. intros _.
  destruct l as [|z l]; [now exists y, [] |].
  destruct IH as (x & l' & E); [discriminate |].
  exists x, (y :: l'). cbn [pop] in *. now rewrite E.
Qed.

(** The version is never [undefined]: the default "latest" of the
    destructuring in [downloadDependencyTypings] is never taken. *)
Lemma getDependencyAndVersion_version (depString : string) :
  exists v, version (getDependencyAndVersion depString) = Some v.
Proof.
  unfold getDependencyAndVersion.
  destruct (_ || _); [now exists "latest" |].
  destruct (pop_nonempty _ (split_nonempty depString at_sign)) as (x & l' & ->).
  now exists x.
Qed.

(** A specifier that ends in a non-leading "@" has the empty version. *)
Lemma getDependencyAndVersion_trailing_at (name : string) :
  name <> "" ->
  getDependencyAndVersion (name ++ "@")
  = {| dependency := name; version := Some "" |}.
Proof.
  intros Hne.
  apply (getDependencyAndVersion_versioned name ""); [reflexivity |].
  destruct (indexOf_range name "@") as [H | H].
  - right; left. now split.
  - right; right.
    assert (Hocc : (-1 < indexOf name "@")%Z) by lia.
    apply indexOf_spec in Hocc as (pre & suf & ->).
    change (pre ++ "@" ++ suf) with (pre ++ String at_sign suf).
    rewrite split_append_sep, length_app.
    pose proof (length_split_pos pre at_sign).
    pose proof (length_split_pos suf at_sign). lia.
Qed.

(** ** The acceptance rule *)

Lemma isFileValid_unfold (path : string) :
  isFileValid path
  = (endsWith path (if (-1 <? indexOf path "/src/")%Z then ".d.ts" else ".ts")
     || endsWith path "package.json").
Proof.
  unfold isFileValid. cbn [existsb TYPE_ONLY_DIRECTORIES append].
  rewrite orb_false_r.
  destruct (endsWith path _); [reflexivity |].
  now destruct (endsWith path "package.json").
Qed.



Example isFileValid_src_ts : isFileValid "/pkg/src/index.ts" = false.
Proof. reflexivity. Qed.

Example isFileValid_src_d_ts : isFileValid "/pkg/src/index.d.ts" = true.
Proof. reflexivity. Qed.

Example isFileValid_src_manifest : isFileValid "/pkg/src/package.json" = true.
Proof. reflexivity. Qed.

Example isFileValid_lib_ts : isFileValid "/pkg/lib/index.ts" = true.
Proof. reflexivity. Qed.

Example isFileValid_js : isFileValid "/pkg/lib/index.js" = false.
Proof. reflexivity. Qed.

(** ** Objects *)

Lemma In_obj_set (o : obj) (k : string) (v : jsval) (k' : string) (v' : jsval) :
  In (k', v') (obj_set o k v) -> (k' = k /\ v' = v) \/ In (k', v') o.
Proof.
  induction o as [|[k0 v0] o IH]; cbn [obj_set].
  - intros [E | []]. injection E as <- <-. now left.
  - destruct (String.eqb k0 k) eqn:E.
    + apply String.eqb_eq in E; subst k0.
      intros [H | H]; [injection H as <- <-; now left | right; now right].
    + intros [H | H]; [right; now left |].
      destruct (IH H) as [? | ?]; [now left | right; now right].
Qed.

Lemma keys_obj_set (o : obj) (k : string) (v : jsval) (k' : string) :
  In k' (Object_keys (obj_set o k v)) <-> k' = k \/ In k' (Object_keys o).
Proof.
  unfold Object_keys. induction o as [|[k0 v0] o IH]; cbn [obj_set map fst In].
  - intuition congruence.
  - destruct (String.eqb k0 k) eqn:E; cbn [map fst In].
    + apply String.eqb_eq in E; subst k0. intuition congruence.
    + rewrite IH. intuition congruence.
Qed.

Lemma In_spread (a b : obj) (k : string) (v : jsval) :
  In (k, v) (spread a b) -> In (k, v) a \/ In (k, v) b.
Proof.
  unfold spread. revert a. induction b as [|[k0 v0] b IH]; intros a; cbn [fold_left fst snd].
  - now left.
  - intros H. destruct (IH _ H) as [H' | H']; [| right; now right].
    destruct (In_obj_set _ _ _ _ _ H') as [[-> ->] | ?]; [right; now left | now left].
Qed.

Lemma obj_get_In (o : obj) (k : string) :
  In k (Object_keys o) -> In (k, obj_get o k) o.
Proof.
  unfold Object_keys. induction o as [|[k0 v0] o IH]; cbn [map fst In obj_get]; [tauto |].
  destruct (String.eqb k0 k) eqn:E.
  - apply String.eqb_eq in E; subst k0. now left.
  - apply String.eqb_neq in E. intros [? | H]; [congruence | right; auto].
Qed.

Lemma Array_indexOf_from_spec (arr : list string) (x : string) (i : Z) :
  (0 <= i)%Z ->
  ((-1 < Array_indexOf_from arr x i)%Z <-> In x arr)
  /\ (Array_indexOf_from arr x i = (-1)%Z \/ (0 <= Array_indexOf_from arr x i)%Z).
Proof.
  revert i. induction arr as [|y arr IH]; intros i Hi; cbn [Array_indexOf_from In].
  - split; [split; [lia | tauto] | now left].
  - destruct (String.eqb y x) eqn:E.
    + apply String.eqb_eq in E. split; [split; [now left | lia] | now right].
    + apply String.eqb_neq in E. destruct (IH (i + 1)%Z ltac:(lia)) as [H1 H2].
      split; [| exact H2]. rewrite H1. intuition congruence.
Qed.

(** [arr.indexOf(x) > -1] says that [x] is in [arr]. *)
Lemma Array_indexOf_spec (arr : list string) (x : string) :
  (-1 < Array_indexOf arr x)%Z <-> In x arr.
Proof. apply Array_indexOf_from_spec; lia. Qed.

Lemma Array_indexOf_absent (arr : list string) (x : string) :
  Array_indexOf arr x = (-1)%Z <-> ~ In x arr.
Proof.
  rewrite <- Array_indexOf_spec.
  destruct (Array_indexOf_from_spec arr x 0 ltac:(lia)) as [_ H].
  unfold Array_indexOf. lia.
Qed.

(** ** ManifestCleaner *)

(** What a conditional copy of the entries of [files] builds. *)
Lemma fold_copy_entries (files : obj) (keep : string -> bool) (paths : list string)
      (init : obj) (k : string) (v : jsval) :
  In (k, v)
     (fold_left (fun newFiles p =>
                   if keep p then obj_set newFiles p (obj_get files p) else newFiles)
                paths init) ->
  In (k, v) init \/ (In k paths /\ keep k = true /\ v = obj_get files k).
Proof.
  revert init. induction paths as [|p paths IH]; intros init; cbn [fold_left In].
  - now left.
  - intros H. destruct (IH _ H) as [H' | (? & ? & ?)]; [| right; auto].
    destruct (keep p) eqn:E; [| now left].
    destruct (In_obj_set _ _ _ _ _ H') as [[-> ->] | ?]; [right; auto | now left].
Qed.

Lemma fold_copy_keys (files : obj) (keep : string -> bool) (paths : list string)
      (init : obj) (k : string) :
  In k (Object_keys
          (fold_left (fun newFiles p =>
                        if keep p then obj_set newFiles p (obj_get files p) else newFiles)
                     paths init))
  <-> In k (Object_keys init) \/ (In k paths /\ keep k = true).
Proof.
  revert init. induction paths as [|p paths IH]; intros init; cbn [fold_left In].
  - tauto.
  - rewrite IH. destruct (keep p) eqn:E.
    + rewrite keys_obj_set. intuition (subst; auto).
    + intuition (subst; auto). congruence.
Qed.

(** The paths [cleanFiles] keeps: those that end in ".ts", and the
    manifests whose entry parses to an object with a truthy [typings] or
    [types], or that have a path ending in ".ts" under their directory. *)
Lemma cleanFiles_keys (files : obj) (p : string) :
  In p (Object_keys (cleanFiles files)) <->
  In p (Object_keys files)
  /\ (endsWith p ".ts" = true
      \/ (endsWith p "/package.json" = true
          /\ (declares_types (obj_get files p) = Normal true
              \/ exists q, In q (Object_keys files)
                           /\ startsWith q (Path.dirname p) = true
                           /\ endsWith q ".ts" = true))).
Proof.
  unfold cleanFiles. rewrite fold_copy_keys. cbn [Object_keys map In].
  rewrite orb_true_iff, Z.ltb_lt, Array_indexOf_spec, filter_In.
  split.
  - intros [[] | [Hin [Hts | [_ Hvalid]]]]; split; auto.
    right. destruct (endsWith p "/package.json"); [split; [reflexivity |] | discriminate].
    destruct (declares_types (obj_get files p)) as [[|] | e]; [now left | |];
      right; apply existsb_exists in Hvalid as (q & Hq & Hq');
      apply andb_true_iff in Hq'; exists q; tauto.
  - intros [Hin [Hts | [Hman Hvalid]]]; right; split; auto.
    right. split; [exact Hin |]. rewrite Hman.
    destruct Hvalid as [-> | (q & Hq & Hpre & Hts)]; [reflexivity |].
    assert (existsb (fun p0 => startsWith p0 (Path.dirname p) && endsWith p0 ".ts")
                    (map fst files) = true)
      by (apply existsb_exists; exists q; rewrite Hpre, Hts; auto).
    destruct (declares_types (obj_get files p)) as [[|] | e]; auto.
Qed.

Lemma cleanFiles_entries (files : obj) (k : string) (v : jsval) :
  In (k, v) (cleanFiles files) -> In (k, v) files.
Proof.
  unfold cleanFiles. intros H.
  apply fold_copy_entries in H as [[] | (Hin & _ & ->)].
  now apply obj_get_In.
Qed.

(** The entry the scanner stores is an object: converted to a string it
    is "[object Object]", which is not JSON. *)
Lemma declares_types_scanned (code : string) :
  declares_types (VObj [("code", VStr code)]) = Throw SyntaxError.
Proof. reflexivity. Qed.

(** On the entries of the scanner, a manifest is kept exactly when a
    collected path under its directory ends in ".ts": what it declares
    is never seen. *)
Lemma cleanFiles_scanned_manifest (files : obj) (p : string) :
  (forall k v, In (k, v) files -> exists code, v = VObj [("code", VStr code)]) ->
  endsWith p "/package.json" = true ->
  endsWith p ".ts" = false ->
  (In p (Object_keys (cleanFiles files)) <->
   In p (Object_keys files)
   /\ exists q, In q (Object_keys files)
                /\ startsWith q (Path.dirname p) = true
                /\ endsWith q ".ts" = true).
Proof.
  intros Hscanned Hman Hts. rewrite cleanFiles_keys. split.
  - intros [Hin [? | [_ [Hdecl | Hq]]]]; [congruence | | tauto].
    destruct (Hscanned _ _ (obj_get_In _ _ Hin)) as [code E].
    rewrite E, declares_types_scanned in Hdecl. discriminate.
  - intros [Hin Hq]. tauto.
Qed.

(** C4.  A manifest that declares [types], scanned with no ".ts" path
    collected under its directory: [cleanFiles] parses the entry of the
    scanner, the object [{ code }], not its text, the parse fails, and the
    manifest is dropped although its JSON content declares [types]. *)
Theorem cleanFiles_drops_typed_manifest :
  let path := "/tmp/1f2e3d4c/node_modules/dep/package.json" in
  exists scanned,
    readDirectory "/tmp/1f2e3d4c/node_modules" typed_manifest_tree = Normal scanned
    /\ obj_get scanned path = VObj [("code", VStr typed_manifest)]
    /\ declares_types (VStr typed_manifest) = Normal true
    /\ declares_types (obj_get scanned path) = Throw SyntaxError
    /\ In path (Object_keys scanned)
    /\ ~ In path (Object_keys (cleanFiles scanned)).
Proof.
  eexists. split; [reflexivity |].
  repeat split; try reflexivity.
  - cbn. tauto.
  - vm_compute. intuition discriminate.
Qed.

(** ** TreeScanner *)

Lemma node_nested_ind (P : node -> Prop) :
  (forall content, P (File content)) ->
  P Broken ->
  (forall entries, Forall (fun e => P (snd e)) entries -> P (Dir entries)) ->
  forall n, P n.
Proof.
  intros HF HB HD. fix IH 1. intros [content | entries |].
  - apply HF.
  - apply HD. induction entries as [|[name sub] entries IHentries].
    + constructor.
    + constructor; [apply IH | exact IHentries].
  - exact HB.
Qed.

Section Scan.

Variable location : string.
Variable entries : list (string * node).

Lemma readDirectory_Dir :
  readDirectory location (Dir entries) = fold_left (readDirectory_step location) entries (Normal []).
Proof. reflexivity. Qed.

Lemma fold_step_Throw (l : list (string * node)) (err : error) :
  fold_left (readDirectory_step location) l (Throw err) = Throw err.
Proof. induction l as [|e l IH]; [reflexivity | exact IH]. Qed.

Hypothesis IH_entries :
  Forall (fun e => forall loc result,
              readDirectory loc (snd e) = Normal result ->
              forall p v, In (p, v) result -> scanned_entry loc (snd e) p v)
         entries.

Lemma scanned_entry_below (entry : string) (sub : node) (p : string) (v : jsval) :
  In (entry, sub) entries ->
  Array_indexOf BLACKLISTED_DIRECTORIES entry = (-1)%Z ->
  scanned_entry (Path.join location entry) sub p v ->
  scanned_entry location (Dir entries) p v.
Proof.
  intros Hin Hblack (dirs & file & content & -> & -> & Hat & Hdirs & Hvalid).
  exists (entry :: dirs), file, content.
  assert (E : Path.join location entry ++ rel_path dirs file
              = location ++ rel_path (entry :: dirs) file).
  { unfold Path.join. cbn [rel_path]. now rewrite !append_assoc. }
  rewrite E in *. repeat split; auto.
  cbn [app file_at]. eauto.
Qed.

Lemma fold_step_entries (l : list (string * node)) :
  (forall e, In e l -> In e entries) ->
  forall acc result,
    (forall p v, In (p, v) acc -> scanned_entry location (Dir entries) p v) ->
    fold_left (readDirectory_step location) l (Normal acc) = Normal result ->
    forall p v, In (p, v) result -> scanned_entry location (Dir entries) p v.
Proof.
  induction l as [|[entry stat] l IHl]; intros Hl acc result Hacc Hfold.
  - cbn in Hfold. injection Hfold as <-. exact Hacc.
  - assert (Hin : In (entry, stat) entries) by (apply Hl; now left).
    assert (Hl' : forall e, In e l -> In e entries) by (intros; apply Hl; now right).
    cbn [fold_left] in Hfold.
    destruct (readDirectory_step location (Normal acc) (entry, stat)) as [acc' |] eqn:Hstep;
      [| rewrite fold_step_Throw in Hfold; discriminate].
    apply (IHl Hl' acc' result); [| exact Hfold].
    clear Hfold IHl. cbn [readDirectory_step] in Hstep.
    destruct (Array_indexOf BLACKLISTED_DIRECTORIES entry =? -1)%Z eqn:Hblack.
    + apply Z.eqb_eq in Hblack.
      destruct stat as [code | sub |]; cbn [isDirectory andb] in Hstep; [| | discriminate].
      * destruct (isFileValid (Path.join location entry)) eqn:Hvalid;
          cbn [negb] in Hstep; injection Hstep as <-; [| exact Hacc].
        intros p v Hp. apply In_obj_set in Hp as [[-> ->] | Hp]; [| auto].
        exists [], entry, code. repeat split; auto.
        cbn [app file_at]. eauto.
      * destruct (readDirectory (Path.join location entry) (Dir sub)) as [subres |] eqn:Hsub;
          [| discriminate].
        injection Hstep as <-. intros p v Hp.
        apply In_spread in Hp as [Hp | Hp]; [auto |].
        apply (scanned_entry_below entry (Dir sub)); auto.
        rewrite Forall_forall in IH_entries.
        apply (IH_entries _ Hin _ _ Hsub _ _ Hp).
    + destruct stat as [code | sub |]; cbn [isDirectory andb] in Hstep; [| | discriminate].
      * destruct (isFileValid (Path.join location entry)) eqn:Hvalid;
          cbn [negb] in Hstep; injection Hstep as <-; [| exact Hacc].
        intros p v Hp. apply In_obj_set in Hp as [[-> ->] | Hp]; [| auto].
        exists [], entry, code. repeat split; auto.
        cbn [app file_at]. eauto.
      * destruct (isFileValid (Path.join location entry)); cbn [negb] in Hstep;
          [discriminate | injection Hstep as <-; exact Hacc].
Qed.

End Scan.

(** Every entry of a scan is the path of a regular file of the tree,
    under directories that are not blacklisted, with its content. *)
Lemma readDirectory_entries (dir : node) :
  forall location result,
    readDirectory location dir = Normal result ->
    forall p v, In (p, v) result -> scanned_entry location dir p v.
Proof.
  induction dir as [content | | entries IH] using node_nested_ind;
    intros location result Hscan; try discriminate.
  rewrite readDirectory_Dir in Hscan.
  apply (fold_step_entries location entries IH entries (fun e H => H) [] result);
    [intros p v [] | exact Hscan].
Qed.

Lemma append_inv_head (a x y : string) : a ++ x = a ++ y -> x = y.
Proof. induction a as [|c a IH]; cbn [append]; [auto | intros H; injection H; auto]. Qed.

Lemma file_at_names (names : list string) :
  forall dir content,
    names_ok dir = true ->
    file_at dir names content ->
    Forall (fun n => indexOf n "/" = (-1)%Z) names.
Proof.
  induction names as [|name rest IH]; intros dir content Hok Hat; [constructor |].
  destruct dir as [c | entries |]; cbn [file_at] in Hat; try contradiction.
  destruct Hat as (sub & Hin & Hat). cbn [names_ok] in Hok.
  rewrite forallb_forall in Hok. specialize (Hok _ Hin). cbn in Hok.
  apply andb_true_iff in Hok as [Hname Hsub]. apply Z.eqb_eq in Hname.
  constructor; [exact Hname | exact (IH _ _ Hsub Hat)].
Qed.

(** Split at its slashes, a relative path gives back its names. *)
Lemma split_rel_path (dirs : list string) (file : string) :
  Forall (fun n => indexOf n "/" = (-1)%Z) (dirs ++ [file])%list ->
  split (rel_path dirs file) slash = (EmptyString :: dirs ++ [file])%list.
Proof.
  induction dirs as [|d dirs IH]; cbn [app rel_path]; intros Hnames.
  - inversion Hnames as [|? ? Hfile _]; subst.
    change ("/" ++ file) with ("" ++ String slash file).
    now rewrite split_append_sep, (split_absent file slash Hfile).
  - inversion Hnames as [|? ? Hd Hrest]; subst. specialize (IH Hrest).
    change ("/" ++ d ++ rel_path dirs file)
      with ("" ++ String slash (d ++ rel_path dirs file)).
    rewrite split_append_sep. cbn [split app]. f_equal.
    destruct (rel_path dirs file) as [|c r] eqn:E; [now destruct dirs |].
    assert (c = slash) by (unfold slash; destruct dirs; cbn in E; congruence).
    subst c.
    rewrite split_append_sep, (split_absent d slash Hd).
    cbn [split] in IH. rewrite Ascii.eqb_refl in IH. injection IH as ->.
    reflexivity.
Qed.

Lemma In_before_last (l l1 l2 : list string) (x b : string) :
  l2 <> [] -> (l ++ [x] = l1 ++ [b] ++ l2)%list -> In b l.
Proof.
  intros Hne E. destruct (exists_last Hne) as (l2' & y & ->).
  replace (l1 ++ [b] ++ l2' ++ [y])%list with ((l1 ++ b :: l2') ++ [y])%list in E
    by (rewrite <- !app_assoc; reflexivity).
  apply app_inj_tail in E as [-> _]. apply in_elt.
Qed.

(** A relative path of names without slashes holds "/name/" only for a
    name among its directories. *)
Lemma rel_path_segment (dirs : list string) (file name pre suf : string) :
  Forall (fun n => indexOf n "/" = (-1)%Z) (dirs ++ [file])%list ->
  indexOf name "/" = (-1)%Z ->
  name <> "" ->
  rel_path dirs file = pre ++ "/" ++ name ++ "/" ++ suf ->
  In name dirs.
Proof.
  intros Hnames Hname Hne E.
  apply (f_equal (fun s => split s slash)) in E.
  rewrite (split_rel_path _ _ Hnames) in E.
  change (pre ++ "/" ++ name ++ "/" ++ suf)
    with (pre ++ String slash (name ++ String slash suf)) in E.
  rewrite !split_append_sep, (split_absent name slash Hname) in E.
  change ("" :: dirs ++ [file])%list with (("" :: dirs) ++ [file])%list in E.
  apply In_before_last in E; [| apply split_nonempty].
  destruct E as [E | E]; [congruence | exact E].
Qed.

(** C7.  In a tree whose names hold no slash, no path the scan emits has
    a blacklisted name among its directories below the scanned location,
    at any depth. *)
Theorem readDirectory_skips_blacklisted
  (location : string) (dir : node) (result : obj) (path name pre suf : string)
  (Hnames : names_ok dir = true)
  (Hscan : readDirectory location dir = Normal result)
  (Hpath : In path (Object_keys result))
  (Hname : In name BLACKLISTED_DIRECTORIES) :
  path <> location ++ pre ++ "/" ++ name ++ "/" ++ suf.
Proof.
  intros E. unfold Object_keys in Hpath.
  apply in_map_iff in Hpath as ([p v] & Hp & Hin). cbn in Hp; subst p.
  destruct (readDirectory_entries dir location result Hscan _ _ Hin)
    as (dirs & file & content & Hrel & _ & Hat & Hdirs & _).
  rewrite Hrel in E. apply append_inv_head in E.
  assert (Hslash : indexOf name "/" = (-1)%Z /\ name <> "").
  { destruct Hname as [<- | [<- | []]]; split; (reflexivity || discriminate). }
  apply rel_path_segment in E;
    [| exact (file_at_names _ _ _ Hnames Hat) | tauto | tauto].
  rewrite Forall_forall in Hdirs. apply Hdirs in E.
  apply Array_indexOf_absent in E. contradiction.
Qed.

Lemma append_eq_length_tail (a b x y : string) :
  a ++ x = b ++ y -> String.length x = String.length y -> x = y.
Proof.
  revert b. induction a as [|c a IH]; intros [|d b]; cbn [append]; intros E Hlen.
  - exact E.
  - subst x. cbn [String.length] in Hlen. rewrite length_append in Hlen. lia.
  - subst y. cbn [String.length] in Hlen. rewrite length_append in Hlen. lia.
  - injection E as _ E. exact (IH _ E Hlen).
Qed.

(** A string does not end in a suffix whose end differs from its own. *)
Lemma endsWith_tail_differs (a t s1 s2 : string) :
  String.length t = String.length s2 ->
  t <> s2 ->
  endsWith (a ++ t) (s1 ++ s2) = false.
Proof.
  intros Hlen Hne. destruct (endsWith (a ++ t) (s1 ++ s2)) eqn:E; [| reflexivity].
  apply endsWith_spec in E as [pre E]. rewrite <- append_assoc in E.
  apply append_eq_length_tail in E; [contradiction | exact Hlen].
Qed.

(** The path of a blacklisted directory is not one [isFileValid] accepts:
    the scan passes over the directory and does not try to read it. *)
Lemma isFileValid_blacklisted (location entry : string) :
  In entry BLACKLISTED_DIRECTORIES ->
  isFileValid (Path.join location entry) = false.
Proof.
  intros Hin. rewrite isFileValid_unfold. unfold Path.join.
  assert (Hlast : exists body last,
             "/" ++ entry = body ++ String last "" /\ last <> "s"%char /\ last <> "n"%char).
  { destruct Hin as [<- | [<- | []]].
    - exists "/__tests_", "_"%char. repeat split; discriminate.
    - exists "/aws-sd", "k"%char. repeat split; discriminate. }
  destruct Hlast as (body & last & -> & Hs & Hn).
  rewrite <- append_assoc.
  assert (Hts : forall s1, endsWith ((location ++ body) ++ String last "") (s1 ++ "s") = false)
    by (intros; apply endsWith_tail_differs; [reflexivity | congruence]).
  assert (Hjson : endsWith ((location ++ body) ++ String last "") ("package.jso" ++ "n") = false)
    by (apply endsWith_tail_differs; [reflexivity | congruence]).
  change ("package.jso" ++ "n") with "package.json" in Hjson. rewrite Hjson, orb_false_r.
  destruct (-1 <? indexOf _ "/src/")%Z; [apply (Hts ".d.t") | apply (Hts ".t")].
Qed.

(** The scan of a directory tree without broken entries returns. *)
Lemma readDirectory_returns (dir : node) :
  forall location,
    no_broken dir = true ->
    isDirectory dir = true ->
    exists result, readDirectory location dir = Normal result.
Proof.
  induction dir as [content | | entries IH] using node_nested_ind;
    intros location Hok Hdir; try discriminate.
  rewrite readDirectory_Dir. cbn [no_broken] in Hok. rewrite forallb_forall in Hok.
  assert (G : forall l acc,
             (forall e, In e l -> In e entries) ->
             exists result, fold_left (readDirectory_step location) l (Normal acc)
                            = Normal result).
  { induction l as [|[entry stat] l IHl]; intros acc Hl; cbn [fold_left]; [eauto |].
    assert (Hin : In (entry, stat) entries) by (apply Hl; now left).
    assert (Hl' : forall e, In e l -> In e entries) by (intros; apply Hl; now right).
    specialize (Hok _ Hin). cbn in Hok.
    rewrite Forall_forall in IH. specialize (IH _ Hin). cbn [snd] in IH.
    cbn [readDirectory_step].
    destruct stat as [code | sub |]; [| | discriminate Hok]; cbn [isDirectory andb].
    - destruct (isFileValid (Path.join location entry)); cbn [negb]; auto.
    - destruct (Array_indexOf BLACKLISTED_DIRECTORIES entry =? -1)%Z eqn:Hblack.
      + destruct (IH (Path.join location entry) Hok eq_refl) as [subres ->]. auto.
      + assert (Hin' : In entry BLACKLISTED_DIRECTORIES).
        { apply Array_indexOf_spec. apply Z.eqb_neq in Hblack.
          destruct (Array_indexOf_from_spec BLACKLISTED_DIRECTORIES entry 0 ltac:(lia))
            as [_ [H | H]]; unfold Array_indexOf in *; lia. }
        rewrite (isFileValid_blacklisted _ _ Hin'). cbn [negb]. auto. }
  apply G. auto.
Qed.

(** ** ResponseBudgeter *)

(** The ceiling is 6081740.8: a length is below it up to 6081740 and
    above it from 6081741 on. *)
Lemma lt_MAX_RES_SIZE (n : Z) : lt_Q n MAX_RES_SIZE = (n <=? 6081740)%Z.
Proof.
  unfold lt_Q, Qle_bool. cbn.
  destruct (Z.leb_spec n 6081740), (Z.leb_spec 60817408 (n * 10)); cbn; lia.
Qed.

Lemma gt_MAX_RES_SIZE (n : Z) : gt_Q n MAX_RES_SIZE = (6081741 <=? n)%Z.
Proof.
  unfold gt_Q, Qle_bool. cbn.
  destruct (Z.leb_spec 6081741 n), (Z.leb_spec (n * 10) 60817408); cbn; lia.
Qed.

Lemma obj_get_head (k : string) (v : jsval) (rest : obj) : obj_get ((k, v) :: rest) k = v.
Proof. cbn [obj_get]. now rewrite String.eqb_refl. Qed.

Lemma obj_set_head (k : string) (v v' : jsval) (rest : obj) :
  obj_set ((k, v) :: rest) k v' = (k, v') :: rest.
Proof. cbn [obj_set]. now rewrite String.eqb_refl. Qed.

(** With the first file in the result and the index still 0, the loop
    is where it was: it ends only when that one file is at the ceiling. *)
Lemma dropFiles_loop_first_fits (k : string) (v : jsval) (rest : obj) :
  lt_Q (stringify_length [(k, v)]) MAX_RES_SIZE = true ->
  forall fuel, dropFiles_loop fuel ((k, v) :: rest) [(k, v)] 0 = None.
Proof.
  intros Hfits. induction fuel as [|fuel IH]; cbn [dropFiles_loop].
  - now rewrite Hfits.
  - rewrite Hfits. cbn [Object_keys map fst nth_error].
    now rewrite obj_get_head, obj_set_head.
Qed.

Lemma stringify_length_empty : stringify_length [] = 2%Z.
Proof. reflexivity. Qed.

Lemma dropFiles_first_fits (k : string) (v : jsval) (rest : obj) :
  lt_Q (stringify_length [(k, v)]) MAX_RES_SIZE = true ->
  forall fuel, dropFiles fuel ((k, v) :: rest) = None.
Proof.
  intros Hfits fuel. unfold dropFiles.
  destruct fuel as [|fuel]; cbn [dropFiles_loop].
  - now rewrite stringify_length_empty.
  - rewrite stringify_length_empty. cbn [lt_Q]. 
    replace (lt_Q 2 MAX_RES_SIZE) with true by reflexivity.
    cbn [Object_keys map fst nth_error obj_set].
    now rewrite obj_get_head, dropFiles_loop_first_fits.
Qed.

Lemma dropFiles_first_overflows (k : string) (v : jsval) (rest : obj) :
  lt_Q (stringify_length [(k, v)]) MAX_RES_SIZE = false ->
  forall fuel,
    dropFiles (S fuel) ((k, v) :: rest)
    = Some {| files := [(k, v)]; droppedFileCount := Some 1%Z |}.
Proof.
  intros Hover fuel. unfold dropFiles. cbn [dropFiles_loop].
  rewrite stringify_length_empty.
  replace (lt_Q 2 MAX_RES_SIZE) with true by reflexivity.
  cbn [Object_keys map fst nth_error obj_set]. rewrite obj_get_head.
  destruct fuel; cbn [dropFiles_loop]; now rewrite Hover.
Qed.

Lemma dropFiles_empty (fuel : nat) :
  dropFiles fuel [] = Some {| files := []; droppedFileCount := Some 1%Z |}.
Proof. destruct fuel; reflexivity. Qed.

(** Sizes of serialized entries. *)

Lemma length_quote_chars_padding (n : N) :
  String.length (JSON.quote_chars (padding n)) = N.to_nat n.
Proof.
  unfold padding. induction n as [|n IH] using N.peano_ind; [reflexivity |].
  rewrite N.iter_succ, N2Nat.inj_succ. cbn [JSON.quote_chars].
  change (JSON.quote_char "a") with "a". cbn [append String.length]. now rewrite IH.
Qed.

Lemma length_QuoteJSONString (s : string) :
  String.length (JSON.QuoteJSONString s) = (String.length (JSON.quote_chars s) + 2)%nat.
Proof.
  unfold JSON.QuoteJSONString. cbn [String.length].
  rewrite length_append. cbn [String.length]. lia.
Qed.

Lemma stringify_length_one (k content : string) :
  stringify_length [(k, module_of content)]
  = (Z.of_nat (String.length (JSON.quote_chars k))
     + Z.of_nat (String.length (JSON.quote_chars content)) + 27)%Z.
Proof.
  unfold stringify_length, JSON.stringify, module_of.
  cbn [JSON.SerializeJSONProperty flat_map snd fst app join].
  repeat (rewrite ?length_append, ?length_QuoteJSONString; cbn [String.length]).
  change (JSON.quote_chars "module") with "module".
  change (JSON.quote_chars "code") with "code".
  change (JSON.quote_chars "status") with "status".
  change (JSON.quote_chars "files") with "files".
  change (JSON.quote_chars "ok") with "ok".
  cbn [String.length]. lia.
Qed.

Lemma stringify_length_two (k1 c1 k2 c2 : string) :
  stringify_length [(k1, module_of c1); (k2, module_of c2)]
  = (Z.of_nat (String.length (JSON.quote_chars k1))
     + Z.of_nat (String.length (JSON.quote_chars c1))
     + Z.of_nat (String.length (JSON.quote_chars k2))
     + Z.of_nat (String.length (JSON.quote_chars c2)) + 53)%Z.
Proof.
  unfold stringify_length, JSON.stringify, module_of.
  cbn [JSON.SerializeJSONProperty flat_map snd fst app join].
  repeat (rewrite ?length_append, ?length_QuoteJSONString; cbn [String.length]).
  change (JSON.quote_chars "module") with "module".
  change (JSON.quote_chars "code") with "code".
  change (JSON.quote_chars "status") with "status".
  change (JSON.quote_chars "files") with "files".
  change (JSON.quote_chars "ok") with "ok".
  cbn [String.length]. lia.
Qed.

(** The size of the whole response, as [downloadDependencyTypings]
    measures it. *)
Lemma resultSize_eq (filesWithNoPrefix : obj) :
  stringify_length [("status", VStr "ok"); ("files", VObj filesWithNoPrefix)]
  = (stringify_length filesWithNoPrefix + 24)%Z.
Proof.
  unfold stringify_length, JSON.stringify.
  cbn [JSON.SerializeJSONProperty flat_map snd fst app join].
  repeat (rewrite ?length_append, ?length_QuoteJSONString; cbn [String.length]).
  change (JSON.quote_chars "module") with "module".
  change (JSON.quote_chars "code") with "code".
  change (JSON.quote_chars "status") with "status".
  change (JSON.quote_chars "files") with "files".
  change (JSON.quote_chars "ok") with "ok".
  cbn [String.length]. lia.
Qed.

Lemma Z_of_length_quote_chars_padding (n : N) :
  Z.of_nat (String.length (JSON.quote_chars (padding n))) = Z.of_N n.
Proof. rewrite length_quote_chars_padding. apply N_nat_Z. Qed.

(** A response of one file whose entry alone is at the ceiling or above:
    the budgeting step is reached and returns the whole input. *)
Lemma dropFiles_one_file_overflow (k content : string) :
  (6081740 < Z.of_nat (String.length (JSON.quote_chars k))
             + Z.of_nat (String.length (JSON.quote_chars content)) + 27)%Z ->
  gt_Q (stringify_length [("status", VStr "ok");
                          ("files", VObj [(k, module_of content)])])
       MAX_RES_SIZE = true
  /\ (forall fuel,
        dropFiles (S fuel) [(k, module_of content)]
        = Some {| files := [(k, module_of content)]; droppedFileCount := Some 1%Z |})
  /\ lt_Q (stringify_length [(k, module_of content)]) MAX_RES_SIZE = false.
Proof.
  intros Hsize.
  assert (Hover : lt_Q (stringify_length [(k, module_of content)]) MAX_RES_SIZE = false).
  { rewrite stringify_length_one, lt_MAX_RES_SIZE. apply Z.leb_gt. lia. }
  split; [| split].
  - rewrite resultSize_eq, stringify_length_one, gt_MAX_RES_SIZE. apply Z.leb_le. lia.
  - intros fuel. apply dropFiles_first_overflows. exact Hover.
  - exact Hover.
Qed.

(** A response of two files, the first below the ceiling and the two
    together above it: the budgeting step is reached and does not end. *)
Lemma dropFiles_two_files_diverge (k1 c1 k2 c2 : string) :
  (Z.of_nat (String.length (JSON.quote_chars k1))
   + Z.of_nat (String.length (JSON.quote_chars c1)) + 27 <= 6081740)%Z ->
  (6081740 < Z.of_nat (String.length (JSON.quote_chars k1))
             + Z.of_nat (String.length (JSON.quote_chars c1))
             + Z.of_nat (String.length (JSON.quote_chars k2))
             + Z.of_nat (String.length (JSON.quote_chars c2)) + 77)%Z ->
  gt_Q (stringify_length [("status", VStr "ok");
                          ("files", VObj [(k1, module_of c1); (k2, module_of c2)])])
       MAX_RES_SIZE = true
  /\ forall fuel, dropFiles fuel [(k1, module_of c1); (k2, module_of c2)] = None.
Proof.
  intros Hfirst Hboth. split.
  - rewrite resultSize_eq, stringify_length_two, gt_MAX_RES_SIZE. apply Z.leb_le. lia.
  - intros fuel. apply dropFiles_first_fits.
    rewrite stringify_length_one, lt_MAX_RES_SIZE. apply Z.leb_le. lia.
Qed.

Lemma one_big_file_overflow :
  gt_Q (stringify_length [("status", VStr "ok"); ("files", VObj one_big_file)])
       MAX_RES_SIZE = true
  /\ (forall fuel,
        dropFiles (S fuel) one_big_file
        = Some {| files := one_big_file; droppedFileCount := Some 1%Z |})
  /\ lt_Q (stringify_length one_big_file) MAX_RES_SIZE = false.
Proof.
  unfold one_big_file. apply dropFiles_one_file_overflow.
  rewrite Z_of_length_quote_chars_padding. reflexivity.
Qed.

Lemma two_large_files_diverge :
  gt_Q (stringify_length [("status", VStr "ok"); ("files", VObj two_large_files)])
       MAX_RES_SIZE = true
  /\ forall fuel, dropFiles fuel two_large_files = None.
Proof.
  unfold two_large_files. apply dropFiles_two_files_diverge;
    rewrite !Z_of_length_quote_chars_padding.
  - intros H; discriminate H.
  - reflexivity.
Qed.

(** ** The pipeline *)

Section PipelineFacts.

Variable sum : string -> string.
Variable npm : string -> string -> option (list (string * node)).

Lemma execSync_install_log (dependency version dependencyLocation : string) (w : world) :
  exists c w1,
    execSync_install npm dependency version dependencyLocation w = Some (c, w1)
    /\ log w1 = (log w ++ [Exec (install_command dependency version dependencyLocation)])%list.
Proof.
  unfold execSync_install.
  destruct (find_entry (root w) "tmp") as [[| tmp |] |]; try (eexists _, _; split; reflexivity).
  destruct (find_entry tmp dependencyLocation); [eexists _, _; split; reflexivity |].
  destruct (npm dependency version); eexists _, _; split; reflexivity.
Qed.

Lemma extractFiles_unfold (dependency version dependencyLocation : string) :
  extractFiles npm dependency version dependencyLocation
  = (_ <- execSync_install npm dependency version dependencyLocation ;;
     after_install dependency dependencyLocation).
Proof. reflexivity. Qed.

(** After the install nothing is written: the world stays. *)
Lemma after_install_world (dependency dependencyLocation : string) (w : world) :
  exists c, after_install dependency dependencyLocation w = Some (c, w).
Proof.
  unfold after_install, bind, readFileSync, lift, scan, ret. cbv zeta.
  destruct (fs_resolve (root w)
              (("/tmp/" ++ dependencyLocation ++ "/node_modules")
               ++ "/" ++ dependency ++ "/package.json")) as [[content | |] |];
    try (eexists; reflexivity).
  destruct (JSON.parse content) as [pkg |]; [| eexists; reflexivity].
  destruct (JSON.has_either pkg "types" "typings") as [typed |]; [| eexists; reflexivity].
  destruct (negb typed && negb (startsWith dependency "@types/"));
    [eexists; reflexivity |].
  destruct (fs_resolve (root w) _) as [dir |]; [| eexists; reflexivity].
  destruct (readDirectory _ dir); eexists; reflexivity.
Qed.

(** [extractFiles] returns, and leaves the world of the install. *)
Lemma extractFiles_world (dependency version dependencyLocation : string) (w : world) :
  exists c0 c w1,
    execSync_install npm dependency version dependencyLocation w = Some (c0, w1)
    /\ extractFiles npm dependency version dependencyLocation w = Some (c, w1)
    /\ (c0 = Normal tt -> after_install dependency dependencyLocation w1 = Some (c, w1))
    /\ (forall e, c0 = Throw e -> c = Throw e).
Proof.
  rewrite extractFiles_unfold. unfold bind.
  destruct (execSync_install_log dependency version dependencyLocation w)
    as (c0 & w1 & -> & _).
  destruct c0 as [[] | e].
  - destruct (after_install_world dependency dependencyLocation w1) as [c Hc].
    exists (Normal tt), c, w1. rewrite Hc. repeat split; auto. discriminate.
  - exists (Throw e), (Throw e), w1. repeat split; auto; congruence.
Qed.

(** The files a normal completion of [extractFiles] holds: none, or the
    cleaned scan of the directory of the packages. *)
Lemma after_install_Normal (dependency dependencyLocation : string) (w : world) (files0 : obj) :
  after_install dependency dependencyLocation w = Some (Normal files0, w) ->
  files0 = []
  \/ exists dir scanned,
       fs_resolve (root w) ("/tmp/" ++ dependencyLocation ++ "/node_modules") = Some dir
       /\ readDirectory ("/tmp/" ++ dependencyLocation ++ "/node_modules") dir = Normal scanned
       /\ files0 = cleanFiles scanned.
Proof.
  unfold after_install, bind, readFileSync, lift, scan, ret. cbv zeta.
  destruct (fs_resolve (root w)
              (("/tmp/" ++ dependencyLocation ++ "/node_modules")
               ++ "/" ++ dependency ++ "/package.json")) as [[content | |] |];
    try discriminate.
  destruct (JSON.parse content) as [pkg |]; [| discriminate].
  destruct (JSON.has_either pkg "types" "typings") as [typed |]; [| discriminate].
  destruct (negb typed && negb (startsWith dependency "@types/")).
  - intros H. injection H as <-. now left.
  - destruct (fs_resolve (root w) _) as [dir |] eqn:Hdir; [| discriminate].
    destruct (readDirectory _ dir) as [scanned |] eqn:Hscan; [| discriminate].
    intros H. injection H as <-. right. eauto.
Qed.

Lemma downloadDependencyTypings_unfold (fuel : nat) (depQuery : string) :
  downloadDependencyTypings sum npm fuel depQuery
  = let dv := getDependencyAndVersion depQuery in
    let version := match version dv with Some v => v | None => "latest" end in
    let dependencyLocation := sum (dependency dv ++ "@" ++ version) in
    try_finally
      (extracted <- extractFiles npm (dependency dv) version dependencyLocation ;;
       assemble fuel extracted ("/tmp/" ++ dependencyLocation ++ "/node_modules"))
      (rimraf_sync ("/tmp/" ++ dependencyLocation)).
Proof. reflexivity. Qed.

(** Assembling the response writes nothing and throws nothing: it
    returns, or the budgeting loop does not end. *)
Lemma assemble_world (fuel : nat) (extracted : obj) (dependencyPath : string) (w : world) :
  assemble fuel extracted dependencyPath w = None
  \/ exists r, assemble fuel extracted dependencyPath w = Some (Normal r, w).
Proof.
  unfold assemble, ret. cbv zeta.
  destruct (existsb test_tsx (Object_keys extracted)); [| right; eauto].
  destruct (gt_Q _ MAX_RES_SIZE); [| right; eauto].
  destruct (dropFiles fuel _) as [[cleaned dropped] |]; [right; eauto | now left].
Qed.

(** A run that has completed: the install ran, the rest left its world
    alone, and the cleanup removed the scratch directory. *)
Lemma downloadDependencyTypings_run (fuel : nat) (depQuery : string) (w w' : world)
      (c : completion IResult) :
  downloadDependencyTypings sum npm fuel depQuery w = Some (c, w') ->
  let dv := getDependencyAndVersion depQuery in
  let version := match version dv with Some v => v | None => "latest" end in
  let dependencyLocation := sum (dependency dv ++ "@" ++ version) in
  exists extracted w1,
    extractFiles npm (dependency dv) version dependencyLocation w = Some (extracted, w1)
    /\ log w1 = (log w ++ [Exec (install_command (dependency dv) version dependencyLocation)])%list
    /\ rimraf_sync ("/tmp/" ++ dependencyLocation) w1 = Some (Normal tt, w')
    /\ match extracted with
       | Throw e => c = Throw e
       | Normal files0 =>
           assemble fuel files0 ("/tmp/" ++ dependencyLocation ++ "/node_modules") w1
           = Some (c, w1)
       end.
Proof.
  rewrite downloadDependencyTypings_unfold. cbv zeta.
  set (dv := getDependencyAndVersion depQuery).
  set (ver := match version dv with Some v => v | None => "latest" end).
  set (loc := sum (dependency dv ++ "@" ++ ver)).
  unfold try_finally, bind. intros H. revert H.
  destruct (extractFiles_world (dependency dv) ver loc w)
    as (c0 & extracted & w1 & Hinstall & -> & _).
  destruct (execSync_install_log (dependency dv) ver loc w) as (c0' & w1' & E & Hlog).
  rewrite Hinstall in E. injection E as <- <-.
  intros H. exists extracted, w1. destruct extracted as [files0 | e]; cbv beta iota in H.
  - destruct (assemble_world fuel files0 ("/tmp/" ++ loc ++ "/node_modules") w1)
      as [E | [r E]]; rewrite E in H; [discriminate |].
    unfold rimraf_sync in H |- *. injection H as <- <-. auto.
  - unfold rimraf_sync in H |- *. injection H as <- <-. auto.
Qed.

(** An error of [extractFiles] reaches the caller, after the cleanup,
    whatever the fuel. *)
Lemma downloadDependencyTypings_throws (fuel : nat) (depQuery : string) (w w1 : world)
      (e : error) :
  let dv := getDependencyAndVersion depQuery in
  let version := match version dv with Some v => v | None => "latest" end in
  let dependencyLocation := sum (dependency dv ++ "@" ++ version) in
  extractFiles npm (dependency dv) version dependencyLocation w = Some (Throw e, w1) ->
  exists w',
    rimraf_sync ("/tmp/" ++ dependencyLocation) w1 = Some (Normal tt, w')
    /\ downloadDependencyTypings sum npm fuel depQuery w = Some (Throw e, w').
Proof.
  cbv zeta. intros H. rewrite downloadDependencyTypings_unfold. cbv zeta.
  unfold try_finally, bind. rewrite H. unfold rimraf_sync. eauto.
Qed.

(** A call returns unless the budgeting loop does not end. *)
Lemma downloadDependencyTypings_returns (fuel : nat) (depQuery : string) (w : world) :
  let dv := getDependencyAndVersion depQuery in
  let version := match version dv with Some v => v | None => "latest" end in
  let dependencyLocation := sum (dependency dv ++ "@" ++ version) in
  (exists c w', downloadDependencyTypings sum npm fuel depQuery w = Some (c, w'))
  \/ (downloadDependencyTypings sum npm fuel depQuery w = None
      /\ exists extracted w1,
           extractFiles npm (dependency dv) version dependencyLocation w
           = Some (Normal extracted, w1)
           /\ dropFiles fuel
                (stripPrefix extracted ("/tmp/" ++ dependencyLocation ++ "/node_modules"))
              = None).
Proof.
  cbv zeta. rewrite downloadDependencyTypings_unfold. cbv zeta.
  set (dv := getDependencyAndVersion depQuery).
  set (ver := match version dv with Some v => v | None => "latest" end).
  set (loc := sum (dependency dv ++ "@" ++ ver)).
  unfold try_finally, bind.
  destruct (extractFiles_world (dependency dv) ver loc w)
    as (c0 & extracted & w1 & _ & -> & _).
  destruct extracted as [files0 | e]; [| left; unfold rimraf_sync; eauto].
  unfold assemble, ret. cbv zeta.
  destruct (existsb test_tsx (Object_keys files0)); [| left; unfold rimraf_sync; eauto].
  destruct (gt_Q _ MAX_RES_SIZE); [| left; unfold rimraf_sync; eauto].
  destruct (dropFiles fuel _) as [[cleaned dropped] |] eqn:E.
  - left; unfold rimraf_sync; eauto.
  - right. split; [reflexivity |]. eauto.
Qed.

End PipelineFacts.

(** ** ScratchReaper *)

Lemma removals_run (path command : string) (l : list event) :
  removals path (l ++ [Exec command; Rimraf path])%list = S (removals path l).
Proof.
  induction l as [|[c | p] l IH]; cbn [app removals].
  - now rewrite String.eqb_refl.
  - exact IH.
  - rewrite IH. lia.
Qed.

Lemma find_entry_filter (entries : list (string * node)) (name : string) :
  find_entry (filter (fun e => negb (String.eqb (fst e) name)) entries) name = None.
Proof.
  induction entries as [|[name' n] entries IH]; cbn [filter fst]; [reflexivity |].
  destruct (String.eqb name' name) eqn:E; cbn [negb]; [exact IH |].
  cbn [find_entry]. now rewrite E.
Qed.

Lemma find_entry_remove_path (entries : list (string * node)) (name child : string) :
  find_entry (remove_path entries [name; child]) name
  = match find_entry entries name with
    | Some (Dir sub) => Some (Dir (remove_path sub [child]))
    | other => other
    end.
Proof.
  cbn [remove_path].
  induction entries as [|[name' n] entries IH]; cbn [map fst snd find_entry]; [reflexivity |].
  destruct (String.eqb name' name) eqn:E.
  - destruct n; cbn [find_entry fst]; now rewrite E.
  - cbn [find_entry]. now rewrite E.
Qed.

Lemma plain_name_spec (s : string) :
  plain_name s = true ->
  String.eqb s "" = false /\ String.eqb s "." = false /\ String.eqb s ".." = false
  /\ indexOf s "/" = (-1)%Z.
Proof.
  unfold plain_name. rewrite !andb_true_iff, !negb_true_iff, Z.eqb_eq. tauto.
Qed.

Lemma rimraf_sync_world (path : string) (w w' : world) :
  rimraf_sync path w = Some (Normal tt, w') ->
  root w' = remove_path (root w)
              (filter (fun c => negb (String.eqb c "" || String.eqb c "."))
                      (split path slash))
  /\ log w' = (log w ++ [Rimraf path])%list.
Proof. unfold rimraf_sync. intros H. injection H as <-. split; reflexivity. Qed.

(** After [rimraf.sync] of a scratch directory its path names nothing. *)
Lemma resolve_after_rimraf (w w' : world) (name : string) :
  plain_name name = true ->
  rimraf_sync ("/tmp/" ++ name) w = Some (Normal tt, w') ->
  fs_resolve (root w') ("/tmp/" ++ name) = None.
Proof.
  intros Hplain H. apply plain_name_spec in Hplain as (Hne & Hdot & Hdots & Hslash).
  apply rimraf_sync_world in H as [Hroot _].
  assert (Hsplit : split ("/tmp/" ++ name) slash = [""; "tmp"; name]).
  { change ("/tmp/" ++ name) with ("" ++ String slash ("tmp" ++ String slash name)).
    now rewrite !split_append_sep, (split_absent name slash Hslash). }
  unfold fs_resolve. rewrite Hroot, Hsplit.
  cbn [filter]. rewrite Hne, Hdot.
  change (negb (("" =? "") || ("" =? "."))) with false.
  change (negb (("tmp" =? "") || ("tmp" =? "."))) with true.
  cbn [orb negb].
  cbn [walk]. cbn [String.eqb Ascii.eqb Bool.eqb orb].
  rewrite find_entry_remove_path.
  destruct (find_entry (root w) "tmp") as [[content | sub |] |]; try reflexivity.
  cbn [walk]. rewrite Hne, Hdot, Hdots. cbn [orb].
  cbn [remove_path]. now rewrite find_entry_filter.
Qed.

(** C3.  A call of [downloadDependencyTypings] that has returned, with a
    result or with an error of any stage, has run the install command and
    then removed the scratch directory "/tmp/<scratch-id>", once and as
    its last act; the scratch id being a file name, as a hash is, the
    directory is gone. *)
Theorem downloadDependencyTypings_cleans_up
  (sum : string -> string) (npm : string -> string -> option (list (string * node)))
  (fuel : nat) (depQuery : string) (w w' : world) (c : completion IResult)
  (Hrun : downloadDependencyTypings sum npm fuel depQuery w = Some (c, w')) :
  let dv := getDependencyAndVersion depQuery in
  let version := match version dv with Some v => v | None => "latest" end in
  let dependencyLocation := sum (dependency dv ++ "@" ++ version) in
  log w' = List.app (log w)
             [Exec (install_command (dependency dv) version dependencyLocation);
              Rimraf ("/tmp/" ++ dependencyLocation)]
  /\ removals ("/tmp/" ++ dependencyLocation) (log w')
     = S (removals ("/tmp/" ++ dependencyLocation) (log w))
  /\ (plain_name dependencyLocation = true ->
      fs_resolve (root w') ("/tmp/" ++ dependencyLocation) = None).
Proof.
  cbv zeta.
  apply downloadDependencyTypings_run in Hrun as (extracted & w1 & _ & Hlog & Hrm & _).
  destruct (rimraf_sync_world _ _ _ Hrm) as [_ E].
  rewrite Hlog, <- app_assoc in E. cbn [app] in E.
  split; [exact E | split].
  - rewrite E. apply removals_run.
  - intros Hplain. exact (resolve_after_rimraf _ _ _ Hplain Hrm).
Qed.

Lemma downloadDependencyTypings_cleans_up_witness :
  exists c w',
    downloadDependencyTypings example_sum example_npm 0 "react@18.2.0" empty_tmp
    = Some (c, w')
    /\ log w'
       = [Exec "cd /tmp && mkdir 1f2e3d4c && cd 1f2e3d4c && HOME=/tmp npm i --production react@18.2.0 --no-save";
          Rimraf "/tmp/1f2e3d4c"]
    /\ removals "/tmp/1f2e3d4c" (log w') = 1%nat
    /\ (plain_name "1f2e3d4c" = true -> fs_resolve (root w') "/tmp/1f2e3d4c" = None).
Proof.
  eexists _, _. split; [reflexivity |].
  exact (downloadDependencyTypings_cleans_up example_sum example_npm 0 "react@18.2.0"
           empty_tmp _ _ eq_refl).
Defined.

(** ** PackageMaterializer *)

(** C5, as the code has it.  With the package installed and its manifest
    read: a manifest that is not JSON makes [extractFiles] throw the
    SyntaxError of the parse, for every dependency and whatever else the
    installed tree holds; the manifest [null] makes it throw the
    TypeError of the property read; a manifest that parses to another
    value and has neither a truthy [types] nor a truthy [typings], for a
    dependency outside "@types/", makes it return the empty result. *)
Theorem extractFiles_manifest
  (npm : string -> string -> option (list (string * node)))
  (dependency version dependencyLocation : string) (w w1 : world) (content : string)
  (Hinstall : execSync_install npm dependency version dependencyLocation w
              = Some (Normal tt, w1))
  (Hread : fs_resolve (root w1)
             (("/tmp/" ++ dependencyLocation ++ "/node_modules")
              ++ "/" ++ dependency ++ "/package.json") = Some (File content)) :
  (JSON.parse content = Throw SyntaxError ->
   extractFiles npm dependency version dependencyLocation w = Some (Throw SyntaxError, w1))
  /\ (JSON.parse content = Normal JSON.JNull ->
      extractFiles npm dependency version dependencyLocation w = Some (Throw TypeError, w1))
  /\ (forall pkg,
        JSON.parse content = Normal pkg ->
        JSON.has_either pkg "types" "typings" = Normal false ->
        startsWith dependency "@types/" = false ->
        extractFiles npm dependency version dependencyLocation w = Some (Normal [], w1)).
Proof.
  assert (E : extractFiles npm dependency version dependencyLocation w
              = after_install dependency dependencyLocation w1)
    by (rewrite extractFiles_unfold; unfold bind; now rewrite Hinstall).
  rewrite E. unfold after_install, bind, readFileSync, lift, ret. cbv zeta.
  rewrite Hread. cbv beta iota. split; [| split].
  - intros ->. reflexivity.
  - intros ->. reflexivity.
  - intros pkg -> Htyped Hscope. cbv beta iota. rewrite Htyped. cbv beta iota.
    rewrite Hscope. reflexivity.
Qed.

Lemma extractFiles_manifest_witness :
  exists w1,
    extractFiles example_npm "broken" "latest" "1f2e3d4c" empty_tmp
    = Some (Throw SyntaxError, w1).
Proof.
  eexists.
  refine (proj1 (extractFiles_manifest example_npm "broken" "latest" "1f2e3d4c"
                   empty_tmp _ (JSON.text "{'name':'broken','types':") _ _) _);
    reflexivity.
Defined.

(** C5 as stated fails: the manifest of "broken" is not JSON, the
    dependency is outside "@types/", and [extractFiles] throws instead of
    returning the empty result. *)
Lemma extractFiles_malformed_manifest_throws :
  startsWith "broken" "@types/" = false
  /\ JSON.parse (JSON.text "{'name':'broken','types':") = Throw SyntaxError
  /\ exists w1,
       extractFiles example_npm "broken" "1.0.0" "1f2e3d4c" empty_tmp
       = Some (Throw SyntaxError, w1)
       /\ extractFiles example_npm "broken" "1.0.0" "1f2e3d4c" empty_tmp
          <> Some (Normal [], w1).
Proof.
  split; [reflexivity | split; [reflexivity |]].
  exists {| root := [("tmp", Dir [("1f2e3d4c", Dir [("node_modules", broken_modules)])])];
            log := [Exec (install_command "broken" "1.0.0" "1f2e3d4c")] |}.
  split; [reflexivity | discriminate].
Qed.

Example downloadDependencyTypings_malformed_manifest :
  downloadDependencyTypings example_sum example_npm 0 "broken" empty_tmp
  = Some (Throw SyntaxError,
          {| root := [("tmp", Dir [])];
             log := [Exec "cd /tmp && mkdir 1f2e3d4c && cd 1f2e3d4c && HOME=/tmp npm i --production broken@latest --no-save";
                     Rimraf "/tmp/1f2e3d4c"] |}).
Proof. reflexivity. Qed.

Example downloadDependencyTypings_untyped :
  downloadDependencyTypings example_sum example_npm 0 "untyped@2.0.0" empty_tmp
  = Some (Normal {| files := []; droppedFileCount := None |},
          {| root := [("tmp", Dir [])];
             log := [Exec "cd /tmp && mkdir 1f2e3d4c && cd 1f2e3d4c && HOME=/tmp npm i --production untyped@2.0.0 --no-save";
                     Rimraf "/tmp/1f2e3d4c"] |}).
Proof. reflexivity. Qed.

Example downloadDependencyTypings_install_fails :
  downloadDependencyTypings example_sum example_npm 0 "no-such-package" empty_tmp
  = Some (Throw ExecError,
          {| root := [("tmp", Dir [])];
             log := [Exec "cd /tmp && mkdir 1f2e3d4c && cd 1f2e3d4c && HOME=/tmp npm i --production no-such-package@latest --no-save";
                     Rimraf "/tmp/1f2e3d4c"] |}).
Proof. reflexivity. Qed.

Example downloadDependencyTypings_manifest_missing :
  downloadDependencyTypings example_sum example_npm 0 "bare" empty_tmp
  = Some (Throw FsError,
          {| root := [("tmp", Dir [])];
             log := [Exec "cd /tmp && mkdir 1f2e3d4c && cd 1f2e3d4c && HOME=/tmp npm i --production bare@latest --no-save";
                     Rimraf "/tmp/1f2e3d4c"] |}).
Proof. reflexivity. Qed.

Example downloadDependencyTypings_scan_fails :
  downloadDependencyTypings example_sum example_npm 0 "dangling@1.0.0" empty_tmp
  = Some (Throw FsError,
          {| root := [("tmp", Dir [])];
             log := [Exec "cd /tmp && mkdir 1f2e3d4c && cd 1f2e3d4c && HOME=/tmp npm i --production dangling@1.0.0 --no-save";
                     Rimraf "/tmp/1f2e3d4c"] |}).
Proof. reflexivity. Qed.

Example downloadDependencyTypings_react :
  downloadDependencyTypings example_sum example_npm 0 "react" empty_tmp
  = Some (Normal
            {| files :=
                 [("/react/package.json",
                   module_of (JSON.text "{'name':'react','types':'index.d.ts'}"));
                  ("/react/index.d.ts", module_of "export declare const version: string;");
                  ("/react/src/hooks.d.ts", module_of "export declare const x: number;")];
               droppedFileCount := None |},
          {| root := [("tmp", Dir [])];
             log := [Exec "cd /tmp && mkdir 1f2e3d4c && cd 1f2e3d4c && HOME=/tmp npm i --production react@latest --no-save";
                     Rimraf "/tmp/1f2e3d4c"] |}).
Proof. reflexivity. Qed.

(** ** The response *)

Lemma replace_unfold (s pat rep : string) :
  replace s pat rep
  = if startsWith s pat then rep ++ slice (String.length pat) s
    else match s with
         | EmptyString => EmptyString
         | String c s' => String c (replace s' pat rep)
         end.
Proof. destruct s; reflexivity. Qed.

Lemma slice_append (a x : string) : slice (String.length a) (a ++ x) = x.
Proof. induction a as [|c a IH]; [now destruct x | exact IH]. Qed.

(** Stripping a prefix that is there leaves the rest. *)
Lemma replace_prefix (pre rest : string) : replace (pre ++ rest) pre "" = rest.
Proof. now rewrite replace_unfold, startsWith_append, slice_append. Qed.

Lemma stripPrefix_entries (extracted : obj) (dependencyPath k : string) (v : jsval) :
  In (k, v) (stripPrefix extracted dependencyPath) ->
  exists n, In n (Object_keys extracted)
            /\ k = replace n dependencyPath ""
            /\ v = VObj [("module", obj_get extracted n)].
Proof.
  unfold stripPrefix.
  assert (G : forall paths init,
             In (k, v)
                (fold_left
                   (fun t n => obj_set t (replace n dependencyPath "")
                                       (VObj [("module", obj_get extracted n)]))
                   paths init) ->
             In (k, v) init
             \/ exists n, In n paths /\ k = replace n dependencyPath ""
                          /\ v = VObj [("module", obj_get extracted n)]).
  { induction paths as [|p paths IH]; intros init; cbn [fold_left]; [now left |].
    intros H. destruct (IH _ H) as [H' | (n & ? & ? & ?)].
    - apply In_obj_set in H' as [[-> ->] | ?]; [right; exists p | now left].
      split; [now left | auto].
    - right. exists n. split; [now right | auto]. }
  intros H. destruct (G _ _ H) as [[] | ?]. assumption.
Qed.

Lemma dropFiles_loop_entries (input : obj) (fuel : nat) :
  forall result index out i,
    (forall k v, In (k, v) result -> In (k, v) input) ->
    dropFiles_loop fuel input result index = Some (out, i) ->
    forall k v, In (k, v) out -> In (k, v) input.
Proof.
  induction fuel as [|fuel IH]; intros result index out i Hres; cbn [dropFiles_loop].
  - destruct (if lt_Q _ _ then _ else _); [discriminate |].
    intros H. injection H as <- <-. exact Hres.
  - destruct (if lt_Q _ _ then _ else _) as [path |] eqn:E.
    + apply IH. intros k v Hin.
      apply In_obj_set in Hin as [[-> ->] | ?]; [| auto].
      apply obj_get_In.
      destruct (lt_Q _ _); [| discriminate]. apply nth_error_In in E. exact E.
    + intros H. injection H as <- <-. exact Hres.
Qed.

Lemma dropFiles_entries (input : obj) (fuel : nat) (r : IResult) (k : string) (v : jsval) :
  dropFiles fuel input = Some r -> In (k, v) (files r) -> In (k, v) input.
Proof.
  unfold dropFiles.
  destruct (dropFiles_loop fuel input [] 0) as [[out i] |] eqn:E; [| discriminate].
  intros H. injection H as <-. cbn [files].
  apply (dropFiles_loop_entries input fuel [] 0%nat out i); [intros ? ? [] | exact E].
Qed.

Lemma assemble_entries (fuel : nat) (extracted : obj) (dependencyPath : string)
      (w w1 : world) (r : IResult) (k : string) (v : jsval) :
  assemble fuel extracted dependencyPath w = Some (Normal r, w1) ->
  In (k, v) (files r) ->
  In (k, v) (stripPrefix extracted dependencyPath).
Proof.
  unfold assemble, ret. cbv zeta.
  destruct (existsb test_tsx (Object_keys extracted));
    [| intros H; injection H as <- _; intros []].
  destruct (gt_Q _ MAX_RES_SIZE); [| intros H; injection H as <- _; auto].
  destruct (dropFiles fuel _) as [[cleaned dropped] |] eqn:E; [| discriminate].
  intros H. injection H as <- _. cbn [files].
  apply (dropFiles_entries _ _ _ _ _ E).
Qed.

(** C9, as the code has it.  Every entry of a result of
    [downloadDependencyTypings] belongs to a regular file of the directory
    of the packages that the install left: its key is the path of that
    file with the scratch prefix "/tmp/<scratch-id>/node_modules" taken
    off, and its value is the object [{ module: { code: s } }] with [s] the
    content of the file. *)
Theorem downloadDependencyTypings_entries
  (sum : string -> string) (npm : string -> string -> option (list (string * node)))
  (fuel : nat) (depQuery : string) (w w' : world) (r : IResult)
  (k : string) (v : jsval)
  (Hrun : downloadDependencyTypings sum npm fuel depQuery w = Some (Normal r, w'))
  (Hentry : In (k, v) (files r)) :
  let dv := getDependencyAndVersion depQuery in
  let version := match version dv with Some v => v | None => "latest" end in
  let dependencyLocation := sum (dependency dv ++ "@" ++ version) in
  exists w1 dir dirs file content,
    execSync_install npm (dependency dv) version dependencyLocation w = Some (Normal tt, w1)
    /\ fs_resolve (root w1) ("/tmp/" ++ dependencyLocation ++ "/node_modules") = Some dir
    /\ file_at dir (dirs ++ [file])%list content
    /\ k = rel_path dirs file
    /\ v = VObj [("module", VObj [("code", VStr content)])].
Proof.
  cbv zeta.
  apply downloadDependencyTypings_run in Hrun as (extracted & w1 & Hextract & _ & _ & Hasm).
  destruct extracted as [files0 | e]; [| discriminate Hasm].
  set (dv := getDependencyAndVersion depQuery) in *.
  set (ver := match version dv with Some v => v | None => "latest" end) in *.
  set (loc := sum (dependency dv ++ "@" ++ ver)) in *.
  destruct (extractFiles_world npm (dependency dv) ver loc w)
    as (c0 & c & w1' & Hinstall & Hextract' & Hafter & Hthrow).
  rewrite Hextract in Hextract'. injection Hextract' as <- <-.
  destruct c0 as [[] | e]; [| discriminate (Hthrow e eq_refl)].
  specialize (Hafter eq_refl).
  apply (assemble_entries _ _ _ _ _ _ _ _ Hasm) in Hentry.
  apply stripPrefix_entries in Hentry as (n & Hn & -> & ->).
  apply after_install_Normal in Hafter as [-> | (dir & scanned & Hdir & Hscan & ->)];
    [destruct Hn |].
  apply obj_get_In, cleanFiles_entries in Hn.
  destruct (readDirectory_entries dir _ _ Hscan _ _ Hn)
    as (dirs & file & content & Hpath & Hval & Hat & _).
  exists w1, dir, dirs, file, content.
  rewrite Hval, Hpath, replace_prefix. auto.
Qed.

Lemma downloadDependencyTypings_entries_witness :
  exists w1 dir dirs file content,
    execSync_install example_npm "react" "18.2.0" "1f2e3d4c" empty_tmp = Some (Normal tt, w1)
    /\ fs_resolve (root w1) "/tmp/1f2e3d4c/node_modules" = Some dir
    /\ file_at dir (dirs ++ [file])%list content
    /\ "/react/index.d.ts" = rel_path dirs file
    /\ VObj [("module", VObj [("code", VStr "export declare const version: string;")])]
       = VObj [("module", VObj [("code", VStr content)])].
Proof.
  refine (downloadDependencyTypings_entries example_sum example_npm 0 "react@18.2.0"
            empty_tmp _ _ "/react/index.d.ts" _ eq_refl _).
  cbn. tauto.
Defined.

(** C9 as stated fails: the value of an entry is not [{ module: s }] with
    [s] a string, it wraps the content once more. *)
Lemma downloadDependencyTypings_value_not_string :
  exists r w',
    downloadDependencyTypings example_sum example_npm 0 "react@18.2.0" empty_tmp
    = Some (Normal r, w')
    /\ obj_get (files r) "/react/index.d.ts"
       = VObj [("module", VObj [("code", VStr "export declare const version: string;")])]
    /\ forall s, obj_get (files r) "/react/index.d.ts" <> VObj [("module", VStr s)].
Proof.
  eexists _, _. split; [reflexivity |]. split; [reflexivity |].
  intros s H. discriminate H.
Qed.

(** ** The budgeting step in a run *)

Section Budgeting.

Variable sum : string -> string.
Variable npm : string -> string -> option (list (string * node)).

(** A run whose response is above the ceiling is the run of [dropFiles],
    followed by the cleanup when [dropFiles] returns. *)
Lemma downloadDependencyTypings_budgeting
      (fuel : nat) (depQuery : string) (w w1 : world) (extracted : obj) :
  let dv := getDependencyAndVersion depQuery in
  let version := match version dv with Some v => v | None => "latest" end in
  let dependencyLocation := sum (dependency dv ++ "@" ++ version) in
  let filesWithNoPrefix :=
    stripPrefix extracted ("/tmp/" ++ dependencyLocation ++ "/node_modules") in
  extractFiles npm (dependency dv) version dependencyLocation w
  = Some (Normal extracted, w1) ->
  existsb test_tsx (Object_keys extracted) = true ->
  gt_Q (stringify_length [("status", VStr "ok"); ("files", VObj filesWithNoPrefix)])
       MAX_RES_SIZE = true ->
  downloadDependencyTypings sum npm fuel depQuery w
  = match dropFiles fuel filesWithNoPrefix with
    | Some r =>
        match rimraf_sync ("/tmp/" ++ dependencyLocation) w1 with
        | Some (_, w') => Some (Normal r, w')
        | None => None
        end
    | None => None
    end.
Proof.
  cbv zeta. intros Hextract Htsx Hsize.
  rewrite downloadDependencyTypings_unfold. cbv zeta.
  unfold try_finally, bind. rewrite Hextract.
  unfold assemble. cbv zeta. rewrite Htsx, Hsize.
  destruct (dropFiles fuel _) as [[cleaned dropped] |]; reflexivity.
Qed.

End Budgeting.

Lemma extractFiles_uses_big :
  extractFiles example_npm "@types/uses-big" "latest" "1f2e3d4c" empty_tmp
  = Some (Normal
            [("/tmp/1f2e3d4c/node_modules/big/index.d.ts",
              VObj [("code", VStr (padding 6081740))])],
          {| root := [("tmp", Dir [("1f2e3d4c", Dir [("node_modules", big_modules)])])];
             log := [Exec (install_command "@types/uses-big" "latest" "1f2e3d4c")] |}).
Proof. lazy -[padding]. reflexivity. Qed.

Lemma extractFiles_uses_large :
  extractFiles example_npm "@types/uses-large" "latest" "1f2e3d4c" empty_tmp
  = Some (Normal
            [("/tmp/1f2e3d4c/node_modules/large/a.d.ts",
              VObj [("code", VStr (padding 4000000))]);
             ("/tmp/1f2e3d4c/node_modules/large/b.d.ts",
              VObj [("code", VStr (padding 4000000))])],
          {| root := [("tmp", Dir [("1f2e3d4c", Dir [("node_modules", large_modules)])])];
             log := [Exec (install_command "@types/uses-large" "latest" "1f2e3d4c")] |}).
Proof. lazy -[padding]. reflexivity. Qed.

(** The response of "@types/uses-big" is [one_big_file], above the ceiling:
    the call returns the whole of it, with [droppedFileCount] 1. *)
Lemma downloadDependencyTypings_uses_big (fuel : nat) :
  downloadDependencyTypings example_sum example_npm (S fuel) "@types/uses-big" empty_tmp
  = Some (Normal {| files := one_big_file; droppedFileCount := Some 1%Z |},
          {| root := [("tmp", Dir [])];
             log := [Exec (install_command "@types/uses-big" "latest" "1f2e3d4c");
                     Rimraf "/tmp/1f2e3d4c"] |}).
Proof.
  destruct one_big_file_overflow as (Hsize & Hdrop & _).
  rewrite (downloadDependencyTypings_budgeting example_sum example_npm (S fuel)
             "@types/uses-big" empty_tmp _ _ extractFiles_uses_big eq_refl Hsize).
  change (stripPrefix _ _) with one_big_file. rewrite Hdrop. reflexivity.
Qed.

(** The response of "@types/uses-large" is [two_large_files], above the ceiling:
    the call does not return. *)
Lemma downloadDependencyTypings_uses_large (fuel : nat) :
  downloadDependencyTypings example_sum example_npm fuel "@types/uses-large" empty_tmp = None.
Proof.
  destruct two_large_files_diverge as (Hsize & Hdrop).
  rewrite (downloadDependencyTypings_budgeting example_sum example_npm fuel
             "@types/uses-large" empty_tmp _ _ extractFiles_uses_large eq_refl Hsize).
  change (stripPrefix _ _) with two_large_files. now rewrite Hdrop.
Qed.

(** C1.  The response of one declaration file of 6081740 characters,
    [one_big_file], is above the ceiling and goes to [dropFiles]: the loop
    puts the file in the result and stops, the index still 0.  The mapping
    returned is the whole input and not a strict prefix of it, its size is
    not below the ceiling, and [droppedFileCount] is 1 with no file
    dropped; [downloadDependencyTypings] returns just that for the package
    "@types/uses-big". *)
Theorem dropFiles_returns_oversized_input :
  (forall fuel,
     dropFiles (S fuel) one_big_file
     = Some {| files := one_big_file; droppedFileCount := Some 1%Z |})
  /\ lt_Q (stringify_length one_big_file) MAX_RES_SIZE = false
  /\ (forall fuel,
        exists w',
          downloadDependencyTypings example_sum example_npm (S fuel) "@types/uses-big" empty_tmp
          = Some (Normal {| files := one_big_file; droppedFileCount := Some 1%Z |}, w')).
Proof.
  destruct one_big_file_overflow as (_ & Hdrop & Hover).
  split; [exact Hdrop | split; [exact Hover |]].
  intros fuel. eexists. apply downloadDependencyTypings_uses_big.
Qed.

(** C2.  The response of two declaration files of 4000000 characters
    each, [two_large_files], is above the ceiling and goes to [dropFiles]:
    the first file fits under the ceiling, the index is never advanced,
    and the loop does not end, whatever the fuel; the call of
    [downloadDependencyTypings] for the package "@types/uses-large" does
    not return. *)
Theorem dropFiles_does_not_terminate :
  gt_Q (stringify_length [("status", VStr "ok"); ("files", VObj two_large_files)])
       MAX_RES_SIZE = true
  /\ (forall fuel, dropFiles fuel two_large_files = None)
  /\ (forall fuel,
        downloadDependencyTypings example_sum example_npm fuel "@types/uses-large" empty_tmp
        = None).
Proof.
  destruct two_large_files_diverge as (Hsize & Hdrop).
  split; [exact Hsize | split; [exact Hdrop |]].
  exact downloadDependencyTypings_uses_large.
Qed.

(** ** The empty version *)

(** C10.  A specifier that ends in a non-leading "@" parses to the empty
    version, not to "latest"; the default of the destructuring does not
    apply to it, and [downloadDependencyTypings] hands it to
    [extractFiles], whose install command reads "name@ --no-save". *)
Theorem trailing_at_installs_empty_version
  (sum : string -> string) (npm : string -> string -> option (list (string * node)))
  (fuel : nat) (name : string) (w : world)
  (Hname : name <> "") :
  getDependencyAndVersion (name ++ "@") = {| dependency := name; version := Some "" |}
  /\ downloadDependencyTypings sum npm fuel (name ++ "@")
     = try_finally
         (extracted <- extractFiles npm name "" (sum (name ++ "@")) ;;
          assemble fuel extracted ("/tmp/" ++ sum (name ++ "@") ++ "/node_modules"))
         (rimraf_sync ("/tmp/" ++ sum (name ++ "@")))
  /\ exists c w1,
       extractFiles npm name "" (sum (name ++ "@")) w = Some (c, w1)
       /\ log w1
          = List.app (log w)
              [Exec ("cd /tmp && mkdir " ++ sum (name ++ "@")
                     ++ " && cd " ++ sum (name ++ "@")
                     ++ " && HOME=/tmp npm i --production " ++ name
                     ++ "@ --no-save")].
Proof.
  pose proof (getDependencyAndVersion_trailing_at name Hname) as Hparse.
  split; [exact Hparse | split].
  - rewrite downloadDependencyTypings_unfold, Hparse. reflexivity.
  - destruct (extractFiles_world npm name "" (sum (name ++ "@")) w)
      as (c0 & c & w1 & Hinstall & Hextract & _).
    destruct (execSync_install_log npm name "" (sum (name ++ "@")) w)
      as (c0' & w1' & E & Hlog).
    rewrite Hinstall in E. injection E as <- <-.
    exists c, w1. split; [exact Hextract | exact Hlog].
Qed.

Lemma trailing_at_installs_empty_version_witness :
  getDependencyAndVersion "react@" = {| dependency := "react"; version := Some "" |}
  /\ downloadDependencyTypings example_sum example_npm 0 "react@"
     = try_finally
         (extracted <- extractFiles example_npm "react" "" "1f2e3d4c" ;;
          assemble 0 extracted "/tmp/1f2e3d4c/node_modules")
         (rimraf_sync "/tmp/1f2e3d4c")
  /\ exists c w1,
       extractFiles example_npm "react" "" "1f2e3d4c" empty_tmp = Some (c, w1)
       /\ log w1
          = [Exec "cd /tmp && mkdir 1f2e3d4c && cd 1f2e3d4c && HOME=/tmp npm i --production react@ --no-save"].
Proof.
  apply (trailing_at_installs_empty_version example_sum example_npm 0 "react" empty_tmp).
  discriminate.
Defined.

Example getDependencyAndVersion_scoped_trailing_at :
  getDependencyAndVersion "@scope/pkg@" = {| dependency := "@scope/pkg"; version := Some "" |}.
Proof. reflexivity. Qed.

(** ** Examples of the scan *)

Example readDirectory_react :
  readDirectory "/tmp/1f2e3d4c/node_modules" react_modules
  = Normal
      [("/tmp/1f2e3d4c/node_modules/react/package.json",
        VObj [("code", VStr (JSON.text "{'name':'react','types':'index.d.ts'}"))]);
       ("/tmp/1f2e3d4c/node_modules/react/index.d.ts",
        VObj [("code", VStr "export declare const version: string;")]);
       ("/tmp/1f2e3d4c/node_modules/react/src/hooks.d.ts",
        VObj [("code", VStr "export declare const x: number;")]);
       ("/tmp/1f2e3d4c/node_modules/react/my-package.json",
        VObj [("code", VStr "{}")])].
Proof. reflexivity. Qed.

Lemma readDirectory_skips_blacklisted_witness :
  "/tmp/1f2e3d4c/node_modules/react/index.d.ts"
  <> "/tmp/1f2e3d4c/node_modules" ++ "/react" ++ "/" ++ "__tests__" ++ "/" ++ "hooks.d.ts".
Proof.
  refine (readDirectory_skips_blacklisted "/tmp/1f2e3d4c/node_modules" react_modules _
            "/tmp/1f2e3d4c/node_modules/react/index.d.ts" "__tests__" "/react" "hooks.d.ts"
            eq_refl readDirectory_react _ _).
  - cbn. tauto.
  - cbn. tauto.
Defined.

(** * Further properties of the code *)

(** ** SpecifierParser: round trip *)

Lemma indexOf_cons_absent_intro (c d : ascii) (s : string) :
  d <> c -> indexOf s (String c "") = (-1)%Z ->
  indexOf (String d s) (String c "") = (-1)%Z.
Proof.
  intros Hd Hs. apply indexOf_absent. intros (pre & suf & H).
  apply indexOf_absent in Hs. destruct pre as [|x pre]; cbn in H.
  - injection H as -> _. congruence.
  - injection H as _ ->. apply Hs. now exists pre, suf.
Qed.

Lemma split_segments (s : string) (c : ascii) :
  Forall (fun p => indexOf p (String c "") = (-1)%Z) (split s c).
Proof.
  induction s as [|d s IH]; cbn [split].
  - constructor; [reflexivity | constructor].
  - destruct (Ascii.eqb d c) eqn:E.
    + constructor; [reflexivity | exact IH].
    + apply Ascii.eqb_neq in E.
      destruct (split s c) as [|h t] eqn:Es; [now apply split_nonempty in Es |].
      inversion IH as [|? ? Hh Ht]; subst. constructor; [| exact Ht].
      now apply indexOf_cons_absent_intro.
Qed.

Lemma join_snoc (l : list string) (x sep : string) :
  l <> [] -> join (l ++ [x])%list sep = join l sep ++ sep ++ x.
Proof.
  induction l as [|y l IH]; [congruence |]. intros _.
  destruct l as [|z l]; [reflexivity |].
  change (join ((y :: z :: l) ++ [x])%list sep)
    with (y ++ sep ++ join ((z :: l) ++ [x])%list sep).
  rewrite IH by discriminate.
  change (join (y :: z :: l) sep) with (y ++ sep ++ join (z :: l) sep).
  now rewrite !append_assoc.
Qed.

(** X1.  Parsing loses nothing.  Either the whole specifier is the dependency,
    at version "latest", or the specifier is the dependency, an "@" and the
    version, and the version holds no "@": the string
    "dependency@version" that names the scratch directory and goes to the
    package manager is then the specifier itself. *)
Theorem getDependencyAndVersion_reassembles (depString : string) :
  getDependencyAndVersion depString
  = {| dependency := depString; version := Some "latest" |}
  \/ exists v,
       version (getDependencyAndVersion depString) = Some v
       /\ dependency (getDependencyAndVersion depString) ++ "@" ++ v = depString
       /\ indexOf v "@" = (-1)%Z.
Proof.
  unfold getDependencyAndVersion.
  destruct (startsWith depString "@" && _ || (List.length (split depString at_sign) =? 1)%nat)
    eqn:Hcond; [now left | right].
  apply orb_false_iff in Hcond as [_ Hone]. apply Nat.eqb_neq in Hone.
  destruct (exists_last (split_nonempty depString at_sign)) as (l & x & Hsplit).
  rewrite Hsplit in *. rewrite pop_snoc. cbn [version dependency].
  assert (Hl : l <> []).
  { intros ->. cbn in Hone. congruence. }
  exists x. split; [reflexivity | split].
  - change "@" with (String at_sign "").
    rewrite <- join_snoc by exact Hl. rewrite <- Hsplit. apply join_split.
  - pose proof (split_segments depString at_sign) as Hseg.
    rewrite Hsplit, Forall_app in Hseg. destruct Hseg as [_ Hx].
    now inversion Hx.
Qed.

(** X2.  An unscoped specifier "name@X": the dependency is the name and the
    version is [X]. *)
Theorem getDependencyAndVersion_unscoped (name X : string)
  (Hname : indexOf name "@" = (-1)%Z)
  (Hnonempty : name <> "")
  (HX : indexOf X "@" = (-1)%Z) :
  getDependencyAndVersion (name ++ "@" ++ X)
  = {| dependency := name; version := Some X |}.
Proof.
  apply getDependencyAndVersion_versioned; [exact HX | right; left; now split].
Qed.

Lemma getDependencyAndVersion_unscoped_witness :
  getDependencyAndVersion ("react" ++ "@" ++ "18.2.0")
  = {| dependency := "react"; version := Some "18.2.0" |}.
Proof.
  apply (getDependencyAndVersion_unscoped "react" "18.2.0");
    [reflexivity | discriminate | reflexivity].
Defined.

(** ** The acceptance rule: declaration files and other sources *)

(** X3.  A path that ends in ".d.ts" is accepted in every directory, "src"
    included; a path that ends in ".tsx" or in ".js" is accepted in none,
    although [downloadDependencyTypings] looks for ".tsx" among the keys. *)
Theorem isFileValid_by_extension (stem : string) :
  isFileValid (stem ++ ".d.ts") = true
  /\ isFileValid (stem ++ ".tsx") = false
  /\ isFileValid (stem ++ ".js") = false.
Proof.
  split; [| split].
  - rewrite isFileValid_unfold.
    destruct (-1 <? indexOf _ "/src/")%Z.
    + now rewrite endsWith_append.
    + replace (stem ++ ".d.ts") with ((stem ++ ".d") ++ ".ts")
        by (now rewrite append_assoc).
      now rewrite endsWith_append.
  - rewrite isFileValid_unfold.
    replace (stem ++ ".tsx") with ((stem ++ ".ts") ++ "x") by (now rewrite append_assoc).
    rewrite (endsWith_tail_differs _ "x" "package.jso" "n") by (reflexivity || discriminate).
    rewrite orb_false_r.
    destruct (-1 <? indexOf _ "/src/")%Z.
    + apply (endsWith_tail_differs _ "x" ".d.t" "s"); [reflexivity | discriminate].
    + apply (endsWith_tail_differs _ "x" ".t" "s"); [reflexivity | discriminate].
  - rewrite isFileValid_unfold.
    replace (stem ++ ".js") with ((stem ++ ".j") ++ "s") by (now rewrite append_assoc).
    rewrite (endsWith_tail_differs _ "s" "package.jso" "n") by (reflexivity || discriminate).
    rewrite orb_false_r.
    replace ((stem ++ ".j") ++ "s") with ((stem ++ ".") ++ "js") by (now rewrite !append_assoc).
    destruct (-1 <? indexOf _ "/src/")%Z.
    + apply (endsWith_tail_differs _ "js" ".d." "ts"); [reflexivity | discriminate].
    + apply (endsWith_tail_differs _ "js" "." "ts"); [reflexivity | discriminate].
Qed.

(** ** TreeScanner: when the scan fails, and what it does not miss *)

Lemma blacklisted_In (entry : string) :
  (Array_indexOf BLACKLISTED_DIRECTORIES entry =? -1)%Z = false ->
  In entry BLACKLISTED_DIRECTORIES.
Proof.
  intros H. apply Array_indexOf_spec. apply Z.eqb_neq in H.
  destruct (Array_indexOf_from_spec BLACKLISTED_DIRECTORIES entry 0 ltac:(lia))
    as [_ [H' | H']]; unfold Array_indexOf in *; lia.
Qed.

(** X4.  The scan throws exactly when it meets an entry it cannot stat outside
    a blacklisted directory, or is not given a directory; a blacklisted
    directory is passed over, broken entries and all. *)
Theorem readDirectory_fails_exactly (dir : node) :
  forall location,
    if scannable dir
    then exists result, readDirectory location dir = Normal result
    else readDirectory location dir = Throw FsError.
Proof.
  induction dir as [content | | entries IH] using node_nested_ind;
    intros location; try reflexivity.
  rewrite readDirectory_Dir. cbn [scannable].
  set (ok := fun e : string * node =>
               let (entry, stat) := e in
               match stat with
               | Broken => false
               | File _ => true
               | Dir _ =>
                   if (Array_indexOf BLACKLISTED_DIRECTORIES entry =? -1)%Z
                   then scannable stat else true
               end).
  assert (G : forall l acc,
             (forall e, In e l -> In e entries) ->
             if forallb ok l
             then exists result,
                 fold_left (readDirectory_step location) l (Normal acc) = Normal result
             else fold_left (readDirectory_step location) l (Normal acc) = Throw FsError).
  { induction l as [|[entry stat] l IHl]; intros acc Hl; cbn [fold_left forallb]; [eauto |].
    assert (Hin : In (entry, stat) entries) by (apply Hl; now left).
    assert (Hl' : forall e, In e l -> In e entries) by (intros; apply Hl; now right).
    rewrite Forall_forall in IH. specialize (IH _ Hin). cbn [snd] in IH.
    cbn [readDirectory_step ok].
    destruct stat as [code | sub |]; cbn [isDirectory andb].
    - destruct (isFileValid (Path.join location entry)); cbn [negb]; apply IHl; exact Hl'.
    - destruct (Array_indexOf BLACKLISTED_DIRECTORIES entry =? -1)%Z eqn:Hblack.
      + specialize (IH (Path.join location entry)).
        destruct (scannable (Dir sub)); cbn [andb].
        * destruct IH as [subres ->]. apply IHl; exact Hl'.
        * rewrite IH. apply fold_step_Throw.
      + rewrite (isFileValid_blacklisted _ _ (blacklisted_In _ Hblack)).
        cbn [negb andb]. apply IHl; exact Hl'.
    - apply fold_step_Throw. }
  apply G. auto.
Qed.

Lemma keys_spread (a b : obj) (k : string) :
  In k (Object_keys (spread a b)) <-> In k (Object_keys a) \/ In k (Object_keys b).
Proof.
  unfold spread. revert a. induction b as [|[k0 v0] b IH]; intros a; cbn [fold_left fst snd].
  - cbn. tauto.
  - rewrite IH, keys_obj_set. cbn [Object_keys map fst In]. intuition (subst; auto).
Qed.

(** Keys are never taken out of the accumulator of the scan. *)
Lemma fold_step_keys (location : string) (l : list (string * node)) :
  forall acc result,
    fold_left (readDirectory_step location) l (Normal acc) = Normal result ->
    (forall k, In k (Object_keys acc) -> In k (Object_keys result))
    /\ forall e, In e l ->
         exists acc1 acc2,
           readDirectory_step location (Normal acc1) e = Normal acc2
           /\ forall k, In k (Object_keys acc2) -> In k (Object_keys result).
Proof.
  induction l as [|e l IH]; intros acc result Hfold; cbn [fold_left] in Hfold.
  - injection Hfold as <-. split; [auto | intros e []].
  - destruct (readDirectory_step location (Normal acc) e) as [acc' |] eqn:Hstep;
      [| rewrite fold_step_Throw in Hfold; discriminate].
    destruct (IH _ _ Hfold) as [Hmono Hin]. split.
    + intros k Hk. apply Hmono. clear - Hstep Hk.
      destruct e as [entry stat]. cbn [readDirectory_step] in Hstep.
      destruct stat as [code | sub |]; [| | discriminate].
      * destruct (isDirectory (File code) && _); [discriminate |].
        destruct (negb _); injection Hstep as <-; [exact Hk |].
        apply keys_obj_set. now right.
      * destruct (isDirectory (Dir sub) && _).
        -- destruct (readDirectory _ _); [| discriminate]. injection Hstep as <-.
           apply keys_spread. now left.
        -- destruct (negb _); [injection Hstep as <-; exact Hk | discriminate].
    + intros e' [<- | He'].
      * exists acc, acc'. split; [exact Hstep | exact Hmono].
      * exact (Hin _ He').
Qed.

(** X5.  The scan misses nothing: a regular file of the tree under directories
    that are not blacklisted, with a path [isFileValid] accepts, has its
    path among the keys. *)
Theorem readDirectory_complete (dirs : list string) :
  forall (dir : node) (location : string) (result : obj) (file content : string),
    readDirectory location dir = Normal result ->
    file_at dir (dirs ++ [file])%list content ->
    Forall (fun d => Array_indexOf BLACKLISTED_DIRECTORIES d = (-1)%Z) dirs ->
    isFileValid (location ++ rel_path dirs file) = true ->
    In (location ++ rel_path dirs file) (Object_keys result).
Proof.
  induction dirs as [|d dirs IH]; intros dir location result file content Hscan Hat Hdirs Hvalid;
    destruct dir as [c | entries |]; cbn [app file_at] in Hat; try contradiction;
    destruct Hat as (sub & Hin & Hat); rewrite readDirectory_Dir in Hscan;
    destruct (fold_step_keys _ _ _ _ Hscan) as [_ Hstep];
    destruct (Hstep _ Hin) as (acc1 & acc2 & Hrun & Hkeys); apply Hkeys;
    cbn [readDirectory_step] in Hrun.
  - cbn [file_at] in Hat. subst sub. cbn [isDirectory andb] in Hrun.
    cbn [rel_path] in Hvalid |- *. unfold Path.join in Hrun. rewrite Hvalid in Hrun.
    cbn [negb] in Hrun. injection Hrun as <-. apply keys_obj_set. now left.
  - inversion Hdirs as [|? ? Hd Hrest]; subst.
    destruct sub as [c | sub |];
      [destruct dirs; cbn [app file_at] in Hat; contradiction | |
       destruct dirs; cbn [app file_at] in Hat; contradiction].
    rewrite Hd in Hrun. cbn [isDirectory andb Z.eqb] in Hrun.
    change ((-1 =? -1)%Z) with true in Hrun. cbn [andb] in Hrun.
    destruct (readDirectory (Path.join location d) (Dir sub)) as [subres |] eqn:Hsub;
      [| discriminate].
    injection Hrun as <-. apply keys_spread. right.
    assert (E : location ++ rel_path (d :: dirs) file
                = Path.join location d ++ rel_path dirs file).
    { unfold Path.join. cbn [rel_path]. now rewrite !append_assoc. }
    rewrite E in *. exact (IH _ _ _ _ _ Hsub Hat Hrest Hvalid).
Qed.

Lemma readDirectory_complete_witness :
  exists result,
    readDirectory "/tmp/1f2e3d4c/node_modules" react_modules = Normal result
    /\ In ("/tmp/1f2e3d4c/node_modules" ++ rel_path ["react"; "src"] "hooks.d.ts")
          (Object_keys result).
Proof.
  eexists. split; [exact readDirectory_react |].
  apply (readDirectory_complete ["react"; "src"] react_modules _ _ "hooks.d.ts"
           "export declare const x: number;" readDirectory_react).
  - cbn [app file_at react_modules].
    eexists. split; [left; reflexivity |].
    eexists. split; [right; right; right; left; reflexivity |].
    eexists. split; [right; left; reflexivity |]. reflexivity.
  - repeat constructor.
  - reflexivity.
Defined.

Lemma NoDup_obj_set (o : obj) (k : string) (v : jsval) :
  NoDup (Object_keys o) -> NoDup (Object_keys (obj_set o k v)).
Proof.
  unfold Object_keys. induction o as [|[k0 v0] o IH]; cbn [obj_set map fst]; intros H.
  - constructor; [intros [] | constructor].
  - inversion H as [|? ? Hnin Hnd]; subst.
    destruct (String.eqb k0 k) eqn:E; cbn [map fst]; [exact H |].
    constructor; [| auto].
    intros Hin. apply (keys_obj_set o k v k0) in Hin as [-> | Hin]; [| contradiction].
    now rewrite String.eqb_refl in E.
Qed.

Lemma NoDup_spread (a b : obj) : NoDup (Object_keys a) -> NoDup (Object_keys (spread a b)).
Proof.
  unfold spread. revert a. induction b as [|[k v] b IH]; intros a H; cbn [fold_left]; [exact H |].
  apply IH. now apply NoDup_obj_set.
Qed.

(** The keys of a scan are distinct. *)
Lemma readDirectory_NoDup (location : string) (dir : node) (result : obj) :
  readDirectory location dir = Normal result -> NoDup (Object_keys result).
Proof.
  destruct dir as [c | entries |]; try discriminate. rewrite readDirectory_Dir.
  assert (G : forall l acc res,
             NoDup (Object_keys acc) ->
             fold_left (readDirectory_step location) l (Normal acc) = Normal res ->
             NoDup (Object_keys res)).
  { induction l as [|[entry stat] l IHl]; intros acc res Hacc Hfold; cbn [fold_left] in Hfold.
    - now injection Hfold as <-.
    - destruct (readDirectory_step location (Normal acc) (entry, stat)) as [acc' |] eqn:Hstep;
        [| rewrite fold_step_Throw in Hfold; discriminate].
      apply (IHl acc' res); [| exact Hfold]. cbn [readDirectory_step] in Hstep.
      destruct stat as [code | sub |]; [| | discriminate].
      + destruct (isDirectory (File code) && _); [discriminate |].
        destruct (negb _); injection Hstep as <-; [exact Hacc | now apply NoDup_obj_set].
      + destruct (isDirectory (Dir sub) && _).
        * destruct (readDirectory _ _); [| discriminate]. injection Hstep as <-.
          now apply NoDup_spread.
        * destruct (negb _); [injection Hstep as <-; exact Hacc | discriminate]. }
  apply G. constructor.
Qed.

(** ** ManifestCleaner: the cleaned mapping *)

Lemma obj_set_fresh (o : obj) (k : string) (v : jsval) :
  ~ In k (Object_keys o) -> obj_set o k v = (o ++ [(k, v)])%list.
Proof.
  unfold Object_keys. induction o as [|[k0 v0] o IH]; cbn [obj_set map fst In app]; intros H.
  - reflexivity.
  - destruct (String.eqb k0 k) eqn:E.
    + apply String.eqb_eq in E. tauto.
    + rewrite IH by tauto. reflexivity.
Qed.

Lemma obj_get_NoDup (o : obj) (k : string) (v : jsval) :
  NoDup (Object_keys o) -> In (k, v) o -> obj_get o k = v.
Proof.
  unfold Object_keys. induction o as [|[k0 v0] o IH]; cbn [map fst In obj_get]; [tauto |].
  intros Hnd [E | Hin]; inversion Hnd as [|? ? Hnin Hnd']; subst.
  - injection E as -> ->. now rewrite String.eqb_refl.
  - destruct (String.eqb k0 k) eqn:E; [| auto].
    apply String.eqb_eq in E; subst k0. exfalso. apply Hnin.
    apply in_map_iff. now exists (k, v).
Qed.

Lemma obj_get_filter (K : string -> bool) (o : obj) (k : string) :
  obj_get (filter (fun kv => K (fst kv)) o) k = if K k then obj_get o k else VUndefined.
Proof.
  induction o as [|[k0 v0] o IH]; cbn [filter fst obj_get].
  - now destruct (K k).
  - destruct (String.eqb k0 k) eqn:E.
    + apply String.eqb_eq in E; subst k0.
      destruct (K k) eqn:EK; cbn [obj_get]; [now rewrite String.eqb_refl |].
      exact IH.
    + destruct (K k0); cbn [obj_get]; rewrite ?E; exact IH.
Qed.

(** A conditional copy of entries with distinct keys is a filter. *)
Lemma fold_copy_filter (files : obj) (keep : string -> bool) (l : obj) :
  forall acc,
    (forall e, In e l -> obj_get files (fst e) = snd e) ->
    NoDup (Object_keys acc ++ Object_keys l)%list ->
    fold_left (fun newFiles p =>
                 if keep p then obj_set newFiles p (obj_get files p) else newFiles)
              (Object_keys l) acc
    = (acc ++ filter (fun kv => keep (fst kv)) l)%list.
Proof.
  unfold Object_keys.
  induction l as [|[k v] l IH]; intros acc Hget Hnd; cbn [map fst fold_left filter].
  - now rewrite app_nil_r.
  - assert (Hfresh : ~ In k (map fst acc)).
    { apply NoDup_remove_2 in Hnd. intros H. apply Hnd. apply in_or_app. now left. }
    assert (Hnd' : forall acc' : obj, map fst acc' = (map fst acc ++ [k])%list ->
                     NoDup (map fst acc' ++ map fst l)%list).
    { intros acc' ->. rewrite <- app_assoc. exact Hnd. }
    assert (Hget' : forall e, In e l -> obj_get files (fst e) = snd e)
      by (intros; apply Hget; now right).
    destruct (keep k).
    + assert (E : obj_get files k = v) by (apply (Hget (k, v)); now left).
      rewrite E.
      rewrite (obj_set_fresh _ _ _ Hfresh), IH; [now rewrite <- app_assoc | exact Hget' |].
      apply Hnd'. now rewrite map_app.
    + apply IH; [exact Hget' |]. apply NoDup_remove_1 in Hnd. exact Hnd.
Qed.

(** The cleaned mapping is the input without the manifests that fail the
    test: the entries kept stand in the order of the input, each with the
    value it had. *)
Lemma cleanFiles_as_filter (files : obj) (Hkeys : NoDup (Object_keys files)) :
  cleanFiles files = filter (fun kv => kept files (fst kv)) files.
Proof.
  unfold cleanFiles.
  rewrite (fold_copy_filter files _ files []); cbn [app Object_keys map].
  - apply filter_ext_in. intros [p v] Hin. cbn [fst]. unfold kept. f_equal.
    assert (Hp : In p (Object_keys files)) by (apply in_map_iff; now exists (p, v)).
    apply eq_true_iff_eq. rewrite Z.ltb_lt, Array_indexOf_spec, filter_In, andb_true_iff.
    destruct (endsWith p "/package.json"); intuition congruence.
  - intros [p v] Hin. now apply obj_get_NoDup.
  - exact Hkeys.
Qed.

Lemma filter_all (A : Type) (f : A -> bool) (l : list A) :
  (forall x, In x l -> f x = true) -> filter f l = l.
Proof.
  induction l as [|x l IH]; intros H; cbn [filter]; [reflexivity |].
  rewrite (H x) by now left. f_equal. apply IH. intros; apply H; now right.
Qed.

Lemma NoDup_keys_filter (K : string * jsval -> bool) (o : obj) :
  NoDup (Object_keys o) -> NoDup (Object_keys (filter K o)).
Proof.
  unfold Object_keys. induction o as [|e o IH]; cbn [filter map]; intros H; [constructor |].
  inversion H as [|? ? Hnin Hnd]; subst. destruct (K e); cbn [map]; [| auto].
  constructor; [| auto]. intros Hin. apply Hnin.
  apply in_map_iff in Hin as (x & Hx & Hin). apply filter_In in Hin as [Hin _].
  apply in_map_iff. now exists x.
Qed.

Lemma kept_cleaned (files : obj) (p : string) :
  kept files p = true ->
  kept (filter (fun kv => kept files (fst kv)) files) p = true.
Proof.
  intros Hp. set (cleaned := filter (fun kv => kept files (fst kv)) files).
  assert (Hget : obj_get cleaned p = obj_get files p)
    by (unfold cleaned; rewrite (obj_get_filter (kept files)), Hp; reflexivity).
  assert (Hex : forall d,
             existsb (fun q => startsWith q d && endsWith q ".ts") (Object_keys files) = true ->
             existsb (fun q => startsWith q d && endsWith q ".ts") (Object_keys cleaned) = true).
  { intros d H. apply existsb_exists in H as (q & Hq & Hq'). apply existsb_exists.
    exists q. split; [| exact Hq'].
    apply andb_true_iff in Hq' as [_ Hts].
    unfold Object_keys in *. apply in_map_iff in Hq as ([q0 v0] & E & Hq).
    cbn in E; subst q0. apply in_map_iff. exists (q, v0). split; [reflexivity |].
    apply filter_In. split; [exact Hq |]. cbn [fst]. unfold kept. now rewrite Hts. }
  unfold kept in Hp |- *. rewrite Hget.
  destruct (endsWith p ".ts"); [reflexivity |]. cbn [orb] in *.
  destruct (endsWith p "/package.json"); [| discriminate]. cbn [andb] in *.
  destruct (declares_types (obj_get files p)) as [[|] | e]; auto.
Qed.

Lemma keys_filter (K : string -> bool) (o : obj) :
  Object_keys (filter (fun kv => K (fst kv)) o) = filter K (Object_keys o).
Proof.
  unfold Object_keys. induction o as [|[k v] o IH]; cbn [filter map fst]; [reflexivity |].
  destruct (K k); cbn [map fst]; now rewrite IH.
Qed.

(** X6.  The cleaned mapping keeps the order of the input: its paths are the
    paths of the input that pass the test, in their order, and its
    entries are the entries the input has for them. *)
Theorem cleanFiles_keeps_order (files : obj) (Hkeys : NoDup (Object_keys files)) :
  Object_keys (cleanFiles files) = filter (kept files) (Object_keys files)
  /\ forall k v, In (k, v) (cleanFiles files) <-> In (k, v) files /\ kept files k = true.
Proof.
  rewrite (cleanFiles_as_filter files Hkeys). split.
  - apply keys_filter.
  - intros k v. rewrite filter_In. reflexivity.
Qed.

Lemma cleanFiles_keeps_order_witness :
  Object_keys (cleanFiles sibling_scan) = filter (kept sibling_scan) (Object_keys sibling_scan)
  /\ forall k v,
       In (k, v) (cleanFiles sibling_scan) <-> In (k, v) sibling_scan /\ kept sibling_scan k = true.
Proof.
  apply (cleanFiles_keeps_order sibling_scan).
  constructor; [intros [H | []]; discriminate H |].
  constructor; [intros [] | constructor].
Defined.

(** X7.  Cleaning a cleaned mapping changes nothing. *)
Theorem cleanFiles_idempotent (files : obj) (Hkeys : NoDup (Object_keys files)) :
  cleanFiles (cleanFiles files) = cleanFiles files.
Proof.
  rewrite (cleanFiles_as_filter files Hkeys).
  rewrite cleanFiles_as_filter by (apply NoDup_keys_filter; exact Hkeys).
  apply filter_all. intros [p v] Hin. cbn [fst].
  apply kept_cleaned. apply filter_In in Hin as [_ H]. exact H.
Qed.

Lemma cleanFiles_idempotent_witness :
  cleanFiles (cleanFiles sibling_scan) = cleanFiles sibling_scan.
Proof.
  apply (cleanFiles_idempotent sibling_scan).
  constructor; [intros [H | []]; discriminate H |].
  constructor; [intros [] | constructor].
Defined.

(** X8.  The value of a path in the cleaned mapping: the one it had when the
    path is kept, none otherwise. *)
Theorem cleanFiles_lookup (files : obj) (p : string) (Hkeys : NoDup (Object_keys files)) :
  obj_get (cleanFiles files) p = if kept files p then obj_get files p else VUndefined.
Proof. rewrite (cleanFiles_as_filter files Hkeys). apply obj_get_filter. Qed.

Lemma cleanFiles_lookup_witness :
  obj_get (cleanFiles sibling_scan) "/m/react/package.json"
  = if kept sibling_scan "/m/react/package.json"
    then obj_get sibling_scan "/m/react/package.json"
    else VUndefined.
Proof.
  apply (cleanFiles_lookup sibling_scan "/m/react/package.json").
  constructor; [intros [H | []]; discriminate H |].
  constructor; [intros [] | constructor].
Defined.

(** ** ManifestCleaner: the directory of a manifest *)

Lemma list_ascii_of_string_append (a b : string) :
  list_ascii_of_string (a ++ b)
  = (list_ascii_of_string a ++ list_ascii_of_string b)%list.
Proof. induction a as [|c a IH]; cbn; [reflexivity | now rewrite IH]. Qed.

Lemma substring_prefix (a b : string) : substring 0 (String.length a) (a ++ b) = a.
Proof.
  induction a as [|c a IH]; cbn [String.length append substring].
  - now destruct b.
  - now rewrite IH.
Qed.

(** [path.dirname] of the manifest path of a directory is the directory. *)
Lemma dirname_manifest (dir : string) :
  dir <> "" -> dir <> "/" -> Path.dirname (dir ++ "/package.json") = dir.
Proof.
  intros Hne Hroot. destruct dir as [|c0 d]; [now destruct Hne |].
  cbn [append]. unfold Path.dirname.
  rewrite list_ascii_of_string_append, rev_app_distr, length_append.
  change (rev (list_ascii_of_string "/package.json"))
    with (list_ascii_of_string "nosj.egakcap/").
  cbn [list_ascii_of_string app Path.dirname_end String.length].
  change (Ascii.eqb "n" "/") with false. change (Ascii.eqb "o" "/") with false.
  change (Ascii.eqb "s" "/") with false. change (Ascii.eqb "j" "/") with false.
  change (Ascii.eqb "." "/") with false. change (Ascii.eqb "e" "/") with false.
  change (Ascii.eqb "g" "/") with false. change (Ascii.eqb "a" "/") with false.
  change (Ascii.eqb "k" "/") with false. change (Ascii.eqb "c" "/") with false.
  change (Ascii.eqb "p" "/") with false. change (Ascii.eqb "/" "/") with true.
  cbv iota.
  replace (String.length d + 13 - 1 - 1 - 1 - 1 - 1 - 1 - 1 - 1 - 1 - 1 - 1 - 1)%nat
    with (S (String.length d)) by lia.
  destruct (Ascii.eqb c0 "/" && (S (String.length d) =? 1)%nat) eqn:E.
  - apply andb_true_iff in E as [Ec Ed]. apply Ascii.eqb_eq in Ec.
    apply Nat.eqb_eq in Ed. destruct d; [| discriminate Ed]. now subst c0.
  - exact (substring_prefix (String c0 d) "/package.json").
Qed.

Lemma manifest_not_ts (dir : string) : endsWith (dir ++ "/package.json") ".ts" = false.
Proof.
  change "/package.json" with ("/package.j" ++ "son"). rewrite <- append_assoc.
  apply (endsWith_tail_differs _ "son" "" ".ts"); [reflexivity | discriminate].
Qed.

(** X9.  The manifest of a directory, among the entries of a scan, is kept
    exactly when some collected path that ends in ".ts" begins with the
    path of the directory, as a string: a path under the directory, or a
    path under a sibling whose name extends the name of the directory. *)
Theorem cleanFiles_manifest_rule (files : obj) (dir : string)
  (Hscanned : forall k v, In (k, v) files -> exists code, v = VObj [("code", VStr code)])
  (Hdir : dir <> "" /\ dir <> "/") :
  In (dir ++ "/package.json") (Object_keys (cleanFiles files))
  <-> In (dir ++ "/package.json") (Object_keys files)
      /\ exists rest, In (dir ++ rest) (Object_keys files)
                      /\ endsWith (dir ++ rest) ".ts" = true.
Proof.
  destruct Hdir as [Hne Hroot].
  rewrite (cleanFiles_scanned_manifest files _ Hscanned
             (endsWith_append dir "/package.json") (manifest_not_ts dir)).
  rewrite (dirname_manifest dir Hne Hroot). split; intros [Hin Hq]; (split; [exact Hin |]).
  - destruct Hq as (q & Hq & Hpre & Hts). apply startsWith_spec in Hpre as [rest ->]. eauto.
  - destruct Hq as (rest & Hq & Hts). exists (dir ++ rest).
    repeat split; auto. apply startsWith_append.
Qed.


Lemma cleanFiles_manifest_rule_witness :
  In "/m/react/package.json" (Object_keys (cleanFiles sibling_scan))
  <-> In "/m/react/package.json" (Object_keys sibling_scan)
      /\ exists rest, In ("/m/react" ++ rest) (Object_keys sibling_scan)
                      /\ endsWith ("/m/react" ++ rest) ".ts" = true.
Proof.
  apply (cleanFiles_manifest_rule sibling_scan "/m/react").
  - intros k v [H | [H | []]]; injection H as <- <-; eauto.
  - split; discriminate.
Defined.

(** ** ResponseBudgeter: what a return of [dropFiles] looks like *)

(** Every result of [dropFiles] has [droppedFileCount] 1.  Its files are
    none, for an input without files, or the first file of the input
    alone, which then is at the ceiling or above by itself. *)
Lemma dropFiles_outcome (fuel : nat) (input : obj) (r : IResult) :
  dropFiles fuel input = Some r ->
  droppedFileCount r = Some 1%Z
  /\ ((input = [] /\ files r = [])
      \/ exists k v rest,
           input = (k, v) :: rest
           /\ files r = [(k, v)]
           /\ (6081741 <= stringify_length [(k, v)])%Z).
Proof.
  intros Hreturn. destruct input as [|[k v] rest].
  - rewrite dropFiles_empty in Hreturn. injection Hreturn as <-. cbn. auto.
  - destruct (lt_Q (stringify_length [(k, v)]) MAX_RES_SIZE) eqn:Hfit.
    + rewrite (dropFiles_first_fits k v rest Hfit) in Hreturn. discriminate.
    + destruct fuel as [|fuel]; [discriminate Hreturn |].
      rewrite (dropFiles_first_overflows k v rest Hfit) in Hreturn.
      injection Hreturn as <-. cbn [droppedFileCount files]. split; [reflexivity |].
      right. exists k, v, rest. repeat split.
      rewrite lt_MAX_RES_SIZE in Hfit. apply Z.leb_gt in Hfit. lia.
Qed.

(** ** The response: order *)

(** Taking the prefix off keys that all begin with it keeps the files
    apart and in their order: one entry for each file, its key without
    the prefix, its value under [module]. *)
Lemma stripPrefix_as_map (extracted : obj) (dependencyPath : string)
  (Hkeys : NoDup (Object_keys extracted))
  (Hprefix : forall k, In k (Object_keys extracted) -> startsWith k dependencyPath = true) :
  stripPrefix extracted dependencyPath
  = map (fun kv => (slice (String.length dependencyPath) (fst kv),
                    VObj [("module", snd kv)])) extracted.
Proof.
  unfold stripPrefix.
  assert (G : forall l acc,
             (forall e, In e l -> obj_get extracted (fst e) = snd e) ->
             (forall e, In e l -> startsWith (fst e) dependencyPath = true) ->
             NoDup (Object_keys l) ->
             (forall e, In e l -> ~ In (slice (String.length dependencyPath) (fst e))
                                       (Object_keys acc)) ->
             fold_left
               (fun t n => obj_set t (replace n dependencyPath "")
                                   (VObj [("module", obj_get extracted n)]))
               (Object_keys l) acc
             = (acc ++ map (fun kv => (slice (String.length dependencyPath) (fst kv),
                                       VObj [("module", snd kv)])) l)%list).
  { unfold Object_keys.
    induction l as [|[k v] l IH]; intros acc Hget Hpre Hnd Hfresh; cbn [map fst fold_left].
    - now rewrite app_nil_r.
    - assert (Ek : replace k dependencyPath "" = slice (String.length dependencyPath) k).
      { assert (Hk : startsWith k dependencyPath = true) by (apply (Hpre (k, v)); now left).
        rewrite replace_unfold, Hk. reflexivity. }
      assert (Ev : obj_get extracted k = v) by (apply (Hget (k, v)); now left).
      rewrite Ek, Ev, obj_set_fresh by (apply (Hfresh (k, v)); now left).
      clear Ek Ev. inversion Hnd as [|? ? Hnin Hnd']; subst.
      rewrite IH; [now rewrite <- app_assoc | | | exact Hnd' |].
      + intros; apply Hget; now right.
      + intros; apply Hpre; now right.
      + intros [k' v'] Hin Hk'. cbn [fst] in Hk'.
        rewrite map_app in Hk'. apply in_app_or in Hk' as [Hk' | Hk'].
        * exact (Hfresh (k', v') (or_intror Hin) Hk').
        * destruct Hk' as [Hk' | []]. cbn [fst] in Hk'.
          assert (Hk1 : startsWith k dependencyPath = true) by (apply (Hpre (k, v)); now left).
          assert (Hk2 : startsWith k' dependencyPath = true)
            by (apply (Hpre (k', v')); now right).
          apply startsWith_spec in Hk1 as [a ->]. apply startsWith_spec in Hk2 as [b ->].
          rewrite !slice_append in Hk'. subst b.
          apply Hnin. apply in_map_iff. now exists (dependencyPath ++ a, v'). }
  rewrite (G extracted []); [reflexivity | | | exact Hkeys | intros e _ []].
  - intros [k v] Hin. now apply obj_get_NoDup.
  - intros [k v] Hin. apply Hprefix. apply in_map_iff. now exists (k, v).
Qed.

(** ** ResponseBudgeter: when it returns *)

(** X10.  [dropFiles] returns exactly on an input without files and on an
    input whose first file alone is at the ceiling or above. *)
Theorem dropFiles_returns_iff (fuel : nat) (input : obj) :
  (exists r, dropFiles (S fuel) input = Some r)
  <-> (input = []
       \/ exists k v rest,
            input = (k, v) :: rest /\ (6081741 <= stringify_length [(k, v)])%Z).
Proof.
  split.
  - intros [r Hr]. apply dropFiles_outcome in Hr as [_ [[H _] | (k & v & rest & H & _ & Hsize)]].
    + now left.
    + right. eauto.
  - intros [-> | (k & v & rest & -> & Hsize)].
    + rewrite dropFiles_empty. eauto.
    + eexists. apply dropFiles_first_overflows.
      rewrite lt_MAX_RES_SIZE. apply Z.leb_gt. lia.
Qed.

(** ** The scratch directory and the rest of the file system *)

Lemma scratch_names (name : string) :
  plain_name name = true ->
  filter (fun c => negb (String.eqb c "" || String.eqb c "."))
         (split ("/tmp/" ++ name) slash)
  = ["tmp"; name].
Proof.
  intros Hplain. apply plain_name_spec in Hplain as (Hne & Hdot & _ & Hslash).
  assert (Hsplit : split ("/tmp/" ++ name) slash = [""; "tmp"; name]).
  { change ("/tmp/" ++ name) with ("" ++ String slash ("tmp" ++ String slash name)).
    now rewrite !split_append_sep, (split_absent name slash Hslash). }
  rewrite Hsplit. cbn [filter]. rewrite Hne, Hdot. reflexivity.
Qed.

(** Removing the entry just put into a directory that had none of its
    name gives the directory back. *)
Lemma filter_put_entry (entries : list (string * node)) (name : string) (n : node) :
  find_entry entries name = None ->
  filter (fun e => negb (String.eqb (fst e) name)) (put_entry entries name n) = entries.
Proof.
  induction entries as [|[name' n'] entries IH]; cbn [find_entry put_entry]; intros H.
  - cbn [filter fst]. now rewrite String.eqb_refl.
  - destruct (String.eqb name' name) eqn:E; [discriminate H |].
    cbn [filter fst]. rewrite E. cbn [negb]. now rewrite IH.
Qed.

Lemma map_if_other (g : string * node -> string * node)
      (entries : list (string * node)) (name : string) :
  ~ In name (map fst entries) ->
  map (fun e : string * node => if String.eqb (fst e) name then g e else e) entries
  = entries.
Proof.
  induction entries as [|[name' n'] entries IH]; cbn [map fst]; intros H;
    [reflexivity |].
  destruct (String.eqb name' name) eqn:E.
  - apply String.eqb_eq in E. exfalso. apply H. now left.
  - rewrite IH; [reflexivity |]. intros Hin. apply H. now right.
Qed.

Lemma remove_put_entry (entries tmp : list (string * node)) (name child : string)
      (n : node) :
  NoDup (map fst entries) ->
  find_entry entries name = Some (Dir tmp) ->
  find_entry tmp child = None ->
  remove_path (put_entry entries name (Dir (put_entry tmp child n))) [name; child]
  = entries.
Proof.
  intros Hnodup Hname Hchild. cbn [remove_path].
  induction entries as [|[name' n'] entries IH]; [discriminate Hname |].
  cbn [find_entry] in Hname. cbn [put_entry].
  inversion Hnodup as [| ? ? Hnotin Hnodup']; subst.
  destruct (String.eqb name' name) eqn:E.
  - injection Hname as ->. cbn [map fst snd]. rewrite E.
    rewrite (filter_put_entry tmp child n Hchild).
    apply String.eqb_eq in E. subst name'.
    f_equal. now apply map_if_other.
  - cbn [map fst snd]. rewrite E. now rewrite (IH Hnodup' Hname).
Qed.

Section PipelineMore.

Variable sum : string -> string.
Variable npm : string -> string -> option (list (string * node)).

(** A call on a tree where the scratch directory is there already: the
    install command fails at [mkdir], the call throws that error, and the
    directory that was there is removed. *)
Lemma downloadDependencyTypings_scratch_taken_run
      (fuel : nat) (depQuery : string) (w : world)
      (tmp : list (string * node)) (n : node) :
  let dv := getDependencyAndVersion depQuery in
  let version := match version dv with Some v => v | None => "latest" end in
  let dependencyLocation := sum (dependency dv ++ "@" ++ version) in
  find_entry (root w) "tmp" = Some (Dir tmp) ->
  find_entry tmp dependencyLocation = Some n ->
  exists w',
    downloadDependencyTypings sum npm fuel depQuery w = Some (Throw ExecError, w')
    /\ rimraf_sync ("/tmp/" ++ dependencyLocation)
         {| root := root w;
            log := (log w ++ [Exec (install_command (dependency dv) version
                                                    dependencyLocation)])%list |}
       = Some (Normal tt, w').
Proof.
  cbv zeta. intros Htmp Hloc.
  set (dv := getDependencyAndVersion depQuery) in *.
  set (ver := match version dv with Some v => v | None => "latest" end) in *.
  set (loc := sum (dependency dv ++ "@" ++ ver)) in *.
  assert (Hx : extractFiles npm (dependency dv) ver loc w
               = Some (Throw ExecError,
                       {| root := root w;
                          log := (log w ++ [Exec (install_command (dependency dv) ver loc)])%list |})).
  { rewrite extractFiles_unfold. unfold bind, execSync_install. now rewrite Htmp, Hloc. }
  destruct (downloadDependencyTypings_throws sum npm fuel depQuery w _ _ Hx) as (w' & Hrm & Hrun).
  exists w'. split; [exact Hrun | exact Hrm].
Qed.

End PipelineMore.


(** ** The result of a run *)

(** A result without [droppedFileCount]: no file, or all files of the
    response, which then is within the ceiling. *)
Lemma assemble_whole (fuel : nat) (extracted : obj) (dependencyPath : string)
      (w w1 : world) (r : IResult) :
  assemble fuel extracted dependencyPath w = Some (Normal r, w1) ->
  droppedFileCount r = None ->
  (files r = [] \/ files r = stripPrefix extracted dependencyPath)
  /\ (stringify_length [("status", VStr "ok"); ("files", VObj (files r))] <= 6081740)%Z.
Proof.
  unfold assemble, ret. cbv zeta.
  destruct (existsb test_tsx (Object_keys extracted)).
  - destruct (gt_Q _ MAX_RES_SIZE) eqn:Hsize.
    + destruct (dropFiles fuel _) as [[cleaned dropped] |] eqn:E; [| discriminate].
      intros H Hwhole. injection H as <-. apply dropFiles_outcome in E as [E _].
      cbn [droppedFileCount] in *. congruence.
    + intros H _. injection H as <-. cbn [files]. split; [now right |].
      rewrite gt_MAX_RES_SIZE in Hsize. apply Z.leb_gt in Hsize. lia.
  - intros H _. injection H as <-. cbn [files]. split; [now left |].
    rewrite resultSize_eq, stringify_length_empty. lia.
Qed.

(** A result with [droppedFileCount]: the count is 1 and there is one
    file, at the ceiling or above by itself. *)
Lemma assemble_dropped (fuel : nat) (extracted : obj) (dependencyPath : string)
      (w w1 : world) (r : IResult) (n : Z) :
  assemble fuel extracted dependencyPath w = Some (Normal r, w1) ->
  droppedFileCount r = Some n ->
  n = 1%Z
  /\ exists k v, files r = [(k, v)] /\ (6081741 <= stringify_length [(k, v)])%Z.
Proof.
  unfold assemble, ret. cbv zeta.
  destruct (existsb test_tsx (Object_keys extracted));
    [| intros H Hcount; injection H as <-; discriminate Hcount].
  destruct (gt_Q _ MAX_RES_SIZE) eqn:Hsize;
    [| intros H Hcount; injection H as <-; discriminate Hcount].
  destruct (dropFiles fuel _) as [[cleaned dropped] |] eqn:E; [| discriminate].
  intros H Hcount. injection H as <-. cbn [droppedFileCount files] in *.
  apply dropFiles_outcome in E as [E1 E2]. cbn [droppedFileCount files] in *.
  split; [congruence |].
  destruct E2 as [[Hempty _] | (k & v & rest & _ & -> & Hover)].
  - rewrite Hempty, resultSize_eq, stringify_length_empty, gt_MAX_RES_SIZE in Hsize.
    discriminate Hsize.
  - eauto.
Qed.

(** X11.  A result without [droppedFileCount] is within the ceiling: the
    response [{ status: "ok", files }] made of it serializes to at most
    6081740 characters. *)
Theorem downloadDependencyTypings_within_ceiling
  (sum : string -> string) (npm : string -> string -> option (list (string * node)))
  (fuel : nat) (depQuery : string) (w w' : world) (r : IResult)
  (Hrun : downloadDependencyTypings sum npm fuel depQuery w = Some (Normal r, w'))
  (Hwhole : droppedFileCount r = None) :
  (stringify_length [("status", VStr "ok"); ("files", VObj (files r))] <= 6081740)%Z.
Proof.
  apply downloadDependencyTypings_run in Hrun as (extracted & w1 & _ & _ & _ & Hasm).
  destruct extracted as [files0 | e]; [| discriminate Hasm].
  exact (proj2 (assemble_whole _ _ _ _ _ _ Hasm Hwhole)).
Qed.

Lemma downloadDependencyTypings_within_ceiling_witness :
  exists r w',
    downloadDependencyTypings example_sum example_npm 0 "react@18.2.0" empty_tmp
    = Some (Normal r, w')
    /\ droppedFileCount r = None
    /\ (stringify_length [("status", VStr "ok"); ("files", VObj (files r))] <= 6081740)%Z.
Proof.
  eexists _, _. split; [reflexivity |]. split; [reflexivity |].
  exact (downloadDependencyTypings_within_ceiling example_sum example_npm 0 "react@18.2.0"
           empty_tmp _ _ eq_refl eq_refl).
Defined.

(** X12.  A result with [droppedFileCount] has the count 1 and exactly one
    file, whose entry alone serializes to 6081741 characters or more:
    whenever the budgeting step returns, nothing was dropped below the
    ceiling. *)
Theorem downloadDependencyTypings_dropped
  (sum : string -> string) (npm : string -> string -> option (list (string * node)))
  (fuel : nat) (depQuery : string) (w w' : world) (r : IResult) (n : Z)
  (Hrun : downloadDependencyTypings sum npm fuel depQuery w = Some (Normal r, w'))
  (Hcount : droppedFileCount r = Some n) :
  n = 1%Z
  /\ exists k v, files r = [(k, v)] /\ (6081741 <= stringify_length [(k, v)])%Z.
Proof.
  apply downloadDependencyTypings_run in Hrun as (extracted & w1 & _ & _ & _ & Hasm).
  destruct extracted as [files0 | e]; [| discriminate Hasm].
  exact (assemble_dropped _ _ _ _ _ _ _ Hasm Hcount).
Qed.

Lemma downloadDependencyTypings_dropped_witness :
  1%Z = 1%Z
  /\ exists k v,
       one_big_file = [(k, v)] /\ (6081741 <= stringify_length [(k, v)])%Z.
Proof.
  exact (downloadDependencyTypings_dropped example_sum example_npm 1 "@types/uses-big"
           empty_tmp _ _ 1%Z (downloadDependencyTypings_uses_big 0) eq_refl).
Defined.

(** X13.  The files of a result that is whole and not empty are the entries
    of the scan of the directory of the packages that [cleanFiles] keeps,
    in the order of the scan, each with the scratch prefix taken off its
    path and its entry put under [module]. *)
Theorem downloadDependencyTypings_files
  (sum : string -> string) (npm : string -> string -> option (list (string * node)))
  (fuel : nat) (depQuery : string) (w w' : world) (r : IResult)
  (Hrun : downloadDependencyTypings sum npm fuel depQuery w = Some (Normal r, w'))
  (Hwhole : droppedFileCount r = None)
  (Hsome : files r <> []) :
  let dv := getDependencyAndVersion depQuery in
  let version := match version dv with Some v => v | None => "latest" end in
  let dependencyLocation := sum (dependency dv ++ "@" ++ version) in
  let dependencyPath := "/tmp/" ++ dependencyLocation ++ "/node_modules" in
  exists w1 dir scanned,
    execSync_install npm (dependency dv) version dependencyLocation w = Some (Normal tt, w1)
    /\ fs_resolve (root w1) dependencyPath = Some dir
    /\ readDirectory dependencyPath dir = Normal scanned
    /\ files r
       = map (fun kv => (slice (String.length dependencyPath) (fst kv),
                         VObj [("module", snd kv)]))
             (filter (fun kv => kept scanned (fst kv)) scanned).
Proof.
  cbv zeta.
  apply downloadDependencyTypings_run in Hrun as (extracted & w1 & Hextract & _ & _ & Hasm).
  destruct extracted as [files0 | e]; [| discriminate Hasm].
  set (dv := getDependencyAndVersion depQuery) in *.
  set (ver := match version dv with Some v => v | None => "latest" end) in *.
  set (loc := sum (dependency dv ++ "@" ++ ver)) in *.
  destruct (extractFiles_world npm (dependency dv) ver loc w)
    as (c0 & c & w1' & Hinstall & Hextract' & Hafter & Hthrow).
  rewrite Hextract in Hextract'. injection Hextract' as <- <-.
  destruct c0 as [[] | e]; [| discriminate (Hthrow e eq_refl)].
  specialize (Hafter eq_refl).
  destruct (assemble_whole _ _ _ _ _ _ Hasm Hwhole) as [[Hnone | Hfiles] _];
    [contradiction |].
  apply after_install_Normal in Hafter as [-> | (dir & scanned & Hdir & Hscan & ->)];
    [now destruct Hsome |].
  exists w1, dir, scanned. repeat split; [exact Hinstall | exact Hdir | exact Hscan |].
  pose proof (readDirectory_NoDup _ _ _ Hscan) as Hnodup.
  rewrite Hfiles, (cleanFiles_as_filter scanned Hnodup).
  apply stripPrefix_as_map.
  - now apply NoDup_keys_filter.
  - intros k Hk. unfold Object_keys in Hk. apply in_map_iff in Hk as ([k' v] & E & Hin).
    cbn [fst] in E. subst k'. apply filter_In in Hin as [Hin _].
    destruct (readDirectory_entries dir _ _ Hscan _ _ Hin) as (dirs & file & content & -> & _).
    apply startsWith_append.
Qed.

Lemma downloadDependencyTypings_files_witness :
  exists r w' w1 dir scanned,
    downloadDependencyTypings example_sum example_npm 0 "react@18.2.0" empty_tmp
    = Some (Normal r, w')
    /\ execSync_install example_npm "react" "18.2.0" "1f2e3d4c" empty_tmp = Some (Normal tt, w1)
    /\ fs_resolve (root w1) "/tmp/1f2e3d4c/node_modules" = Some dir
    /\ readDirectory "/tmp/1f2e3d4c/node_modules" dir = Normal scanned
    /\ files r
       = map (fun kv => (slice (String.length "/tmp/1f2e3d4c/node_modules") (fst kv),
                         VObj [("module", snd kv)]))
             (filter (fun kv => kept scanned (fst kv)) scanned).
Proof.
  eexists _, _.
  destruct (downloadDependencyTypings_files example_sum example_npm 0 "react@18.2.0"
              empty_tmp _ _ eq_refl eq_refl ltac:(discriminate))
    as (w1 & dir & scanned & H).
  exists w1, dir, scanned. split; [reflexivity | exact H].
Defined.

(** ** The scratch directory *)

(** X14.  When the scratch directory of the call is there already, the
    install command fails at [mkdir]: the call throws that error, installs
    nothing, and still removes the directory, with all that was in it. *)
Theorem downloadDependencyTypings_scratch_taken
  (sum : string -> string) (npm : string -> string -> option (list (string * node)))
  (fuel : nat) (depQuery : string) (w : world)
  (tmp : list (string * node)) (n : node) :
  let dv := getDependencyAndVersion depQuery in
  let version := match version dv with Some v => v | None => "latest" end in
  let dependencyLocation := sum (dependency dv ++ "@" ++ version) in
  forall (Htmp : find_entry (root w) "tmp" = Some (Dir tmp))
         (Htaken : find_entry tmp dependencyLocation = Some n)
         (Hplain : plain_name dependencyLocation = true),
  exists w',
    downloadDependencyTypings sum npm fuel depQuery w = Some (Throw ExecError, w')
    /\ root w' = remove_path (root w) ["tmp"; dependencyLocation]
    /\ fs_resolve (root w') ("/tmp/" ++ dependencyLocation) = None.
Proof.
  cbv zeta. intros Htmp Htaken Hplain.
  destruct (downloadDependencyTypings_scratch_taken_run sum npm fuel depQuery w tmp n
              Htmp Htaken) as (w' & Hrun & Hrm).
  exists w'. split; [exact Hrun | split].
  - apply rimraf_sync_world in Hrm as [Hroot _]. cbn [root] in Hroot.
    now rewrite Hroot, scratch_names.
  - exact (resolve_after_rimraf _ _ _ Hplain Hrm).
Qed.

Lemma downloadDependencyTypings_scratch_taken_witness :
  exists w',
    downloadDependencyTypings example_sum example_npm 0 "react@18.2.0" taken_tmp
    = Some (Throw ExecError, w')
    /\ root w' = remove_path (root taken_tmp) ["tmp"; "1f2e3d4c"]
    /\ fs_resolve (root w') "/tmp/1f2e3d4c" = None.
Proof.
  exact (downloadDependencyTypings_scratch_taken example_sum example_npm 0 "react@18.2.0"
           taken_tmp _ _ eq_refl eq_refl eq_refl).
Defined.

(** X15.  After the install a call writes nothing, and its cleanup
    removes the scratch directory and nothing else: the tree a completed
    call leaves, with a result or an error, is the tree the install
    command left without "/tmp/<scratch-id>".  Where the install command
    has added nothing but the scratch directory, that is the tree the
    call found. *)
Theorem downloadDependencyTypings_removes_only_scratch
  (sum : string -> string) (npm : string -> string -> option (list (string * node)))
  (fuel : nat) (depQuery : string) (w w' : world) (c : completion IResult)
  (Hrun : downloadDependencyTypings sum npm fuel depQuery w = Some (c, w')) :
  let dv := getDependencyAndVersion depQuery in
  let version := match version dv with Some v => v | None => "latest" end in
  let dependencyLocation := sum (dependency dv ++ "@" ++ version) in
  forall (Hplain : plain_name dependencyLocation = true),
  exists c0 w1,
    execSync_install npm (dependency dv) version dependencyLocation w = Some (c0, w1)
    /\ root w' = remove_path (root w1) ["tmp"; dependencyLocation]
    /\ forall tmp n,
         NoDup (map fst (root w)) ->
         find_entry (root w) "tmp" = Some (Dir tmp) ->
         find_entry tmp dependencyLocation = None ->
         root w1 = put_entry (root w) "tmp" (Dir (put_entry tmp dependencyLocation n)) ->
         root w' = root w.
Proof.
  cbv zeta. intros Hplain.
  apply downloadDependencyTypings_run in Hrun as (extracted & w1 & Hextract & _ & Hrm & _).
  set (dv := getDependencyAndVersion depQuery) in *.
  set (ver := match version dv with Some v => v | None => "latest" end) in *.
  set (loc := sum (dependency dv ++ "@" ++ ver)) in *.
  destruct (extractFiles_world npm (dependency dv) ver loc w)
    as (c0 & c' & w1' & Hinstall & Hextract' & _).
  rewrite Hextract in Hextract'. injection Hextract' as <- <-.
  apply rimraf_sync_world in Hrm as [Hroot _].
  rewrite (scratch_names loc Hplain) in Hroot.
  exists c0, w1. split; [exact Hinstall | split; [exact Hroot |]].
  intros tmp n Hnames Htmp Hfree Honly.
  rewrite Hroot, Honly. now apply remove_put_entry.
Qed.

Lemma downloadDependencyTypings_removes_only_scratch_witness :
  exists c w' c0 w1,
    downloadDependencyTypings example_sum example_npm 0 "react@18.2.0" empty_tmp
    = Some (c, w')
    /\ execSync_install example_npm "react" "18.2.0" "1f2e3d4c" empty_tmp = Some (c0, w1)
    /\ root w' = remove_path (root w1) ["tmp"; "1f2e3d4c"]
    /\ root w' = root empty_tmp.
Proof.
  eexists _, _.
  destruct (downloadDependencyTypings_removes_only_scratch example_sum example_npm 0
              "react@18.2.0" empty_tmp _ _ eq_refl eq_refl)
    as (c0 & w1 & Hinstall & Hroot & Honly).
  exists c0, w1. split; [reflexivity | split; [exact Hinstall | split; [exact Hroot |]]].
  injection Hinstall as _ <-.
  apply (Honly [] (Dir [("node_modules", react_modules)])); try reflexivity.
  repeat constructor. intros [].
Defined.

(** ** The gate of the response *)

Lemma test_tsx_ts (p : string) : endsWith p ".ts" = true -> test_tsx p = true.
Proof.
  intros H. apply endsWith_spec in H as [pre ->].
  unfold test_tsx. apply Z.ltb_lt. apply indexOf_spec.
  exists pre, "". reflexivity.
Qed.

(** Of a scan, [cleanFiles] keeps a manifest only beside a path that ends
    in ".ts": what it keeps, if anything, passes the test for ".ts". *)
Lemma cleanFiles_scanned_gate (files : obj) :
  (forall k v, In (k, v) files -> exists code, v = VObj [("code", VStr code)]) ->
  cleanFiles files <> [] ->
  existsb test_tsx (Object_keys (cleanFiles files)) = true.
Proof.
  intros Hscanned Hsome.
  destruct (cleanFiles files) as [|[k v] rest] eqn:E; [now destruct Hsome |].
  assert (Hk : In k (Object_keys (cleanFiles files))) by (rewrite E; now left).
  rewrite <- E. apply existsb_exists.
  apply cleanFiles_keys in Hk as [Hin [Hts | [_ [Hdecl | (q & Hq & _ & Hts)]]]].
  - exists k. split; [| now apply test_tsx_ts]. apply cleanFiles_keys. auto.
  - destruct (Hscanned _ _ (obj_get_In _ _ Hin)) as [code Hcode].
    rewrite Hcode, declares_types_scanned in Hdecl. discriminate.
  - exists q. split; [| now apply test_tsx_ts]. apply cleanFiles_keys. auto.
Qed.

Lemma spread_obj_set_nonempty (l : list string) (f : string -> string) (g : string -> jsval) :
  forall acc,
    acc <> [] ->
    fold_left (fun t n => obj_set t (f n) (g n)) l acc <> [].
Proof.
  induction l as [|n l IH]; intros acc H; cbn [fold_left]; [exact H |].
  apply IH. destruct acc as [|[k v] acc]; cbn [obj_set]; [discriminate |].
  destruct (String.eqb k (f n)); discriminate.
Qed.

Lemma stripPrefix_nonempty (extracted : obj) (dependencyPath : string) :
  extracted <> [] -> stripPrefix extracted dependencyPath <> [].
Proof.
  unfold stripPrefix, Object_keys. destruct extracted as [|[k v] rest]; [tauto |].
  intros _. cbn [map fst fold_left].
  apply (spread_obj_set_nonempty (map fst rest)
           (fun n => replace n dependencyPath "")
           (fun n => VObj [("module", obj_get ((k, v) :: rest) n)])).
  discriminate.
Qed.

Lemma assemble_empty_iff (fuel : nat) (extracted : obj) (dependencyPath : string)
      (w w1 : world) (r : IResult) :
  assemble fuel extracted dependencyPath w = Some (Normal r, w1) ->
  (extracted <> [] -> existsb test_tsx (Object_keys extracted) = true) ->
  (files r = [] <-> extracted = []).
Proof.
  intros Hasm Hgate. destruct extracted as [|kv rest].
  - cbn in Hasm. injection Hasm as <-. cbn [files]. tauto.
  - assert (Hne : kv :: rest <> []) by discriminate.
    specialize (Hgate Hne). revert Hasm. unfold assemble, ret. cbv zeta. rewrite Hgate.
    destruct (gt_Q _ MAX_RES_SIZE) eqn:Hsize.
    + destruct (dropFiles fuel _) as [[cleaned dropped] |] eqn:E; [| discriminate].
      intros H. injection H as <-. cbn [files].
      apply dropFiles_outcome in E as [_ [[E _] | (k & v & rest' & _ & E & _)]];
        cbn [files] in E.
      * now apply stripPrefix_nonempty in E.
      * rewrite E. split; discriminate.
    + intros H. injection H as <-. cbn [files]. split; [| discriminate].
      intros E. now apply stripPrefix_nonempty in E.
Qed.

(** X16.  A result without files means that [extractFiles] returned none:
    whatever [cleanFiles] keeps of a scan passes the test for ".ts" and
    goes into the response. *)
Theorem downloadDependencyTypings_empty_iff
  (sum : string -> string) (npm : string -> string -> option (list (string * node)))
  (fuel : nat) (depQuery : string) (w w' : world) (r : IResult)
  (Hrun : downloadDependencyTypings sum npm fuel depQuery w = Some (Normal r, w')) :
  let dv := getDependencyAndVersion depQuery in
  let version := match version dv with Some v => v | None => "latest" end in
  let dependencyLocation := sum (dependency dv ++ "@" ++ version) in
  exists extracted w1,
    extractFiles npm (dependency dv) version dependencyLocation w
    = Some (Normal extracted, w1)
    /\ (files r = [] <-> extracted = []).
Proof.
  cbv zeta.
  apply downloadDependencyTypings_run in Hrun as (extracted & w1 & Hextract & _ & _ & Hasm).
  destruct extracted as [files0 | e]; [| discriminate Hasm].
  exists files0, w1. split; [exact Hextract |].
  apply (assemble_empty_iff _ _ _ _ _ _ Hasm). intros Hsome.
  set (dv := getDependencyAndVersion depQuery) in *.
  set (ver := match version dv with Some v => v | None => "latest" end) in *.
  set (loc := sum (dependency dv ++ "@" ++ ver)) in *.
  destruct (extractFiles_world npm (dependency dv) ver loc w)
    as (c0 & c & w1' & Hinstall & Hextract' & Hafter & Hthrow).
  rewrite Hextract in Hextract'. injection Hextract' as <- <-.
  destruct c0 as [[] | e]; [| discriminate (Hthrow e eq_refl)].
  specialize (Hafter eq_refl).
  apply after_install_Normal in Hafter as [-> | (dir & scanned & _ & Hscan & ->)];
    [now destruct Hsome |].
  apply cleanFiles_scanned_gate; [| exact Hsome].
  intros k v Hin.
  destruct (readDirectory_entries dir _ _ Hscan _ _ Hin) as (_ & _ & content & _ & -> & _).
  eauto.
Qed.

Lemma downloadDependencyTypings_empty_iff_witness :
  exists r w' extracted w1,
    downloadDependencyTypings example_sum example_npm 0 "untyped" empty_tmp
    = Some (Normal r, w')
    /\ extractFiles example_npm "untyped" "latest" "1f2e3d4c" empty_tmp
       = Some (Normal extracted, w1)
    /\ (files r = [] <-> extracted = []).
Proof.
  eexists _, _.
  destruct (downloadDependencyTypings_empty_iff example_sum example_npm 0 "untyped"
              empty_tmp _ _ eq_refl)
    as (extracted & w1 & H).
  exists extracted, w1. split; [reflexivity | exact H].
Defined.

(** ** When a call does not return *)

(** The files [extractFiles] returns, if any, pass the test for ".ts". *)
Lemma extractFiles_gate
      (npm : string -> string -> option (list (string * node)))
      (dependency version dependencyLocation : string) (w w1 : world) (extracted : obj) :
  extractFiles npm dependency version dependencyLocation w = Some (Normal extracted, w1) ->
  extracted <> [] ->
  existsb test_tsx (Object_keys extracted) = true.
Proof.
  intros Hextract Hsome.
  destruct (extractFiles_world npm dependency version dependencyLocation w)
    as (c0 & c & w1' & _ & Hextract' & Hafter & Hthrow).
  rewrite Hextract in Hextract'. injection Hextract' as <- <-.
  destruct c0 as [[] | e]; [| discriminate (Hthrow e eq_refl)].
  specialize (Hafter eq_refl).
  apply after_install_Normal in Hafter as [-> | (dir & scanned & _ & Hscan & ->)];
    [now destruct Hsome |].
  apply cleanFiles_scanned_gate; [| exact Hsome].
  intros k v Hin.
  destruct (readDirectory_entries dir _ _ Hscan _ _ Hin) as (_ & _ & content & _ & -> & _).
  eauto.
Qed.

(** X17.  A call of [downloadDependencyTypings] does not return, whatever
    the fuel, exactly when the response of the files extracted is above
    the ceiling while its first file alone is within it; in every other
    case the call returns, with a result or an error. *)
Theorem downloadDependencyTypings_hangs_iff
  (sum : string -> string) (npm : string -> string -> option (list (string * node)))
  (depQuery : string) (w : world) :
  let dv := getDependencyAndVersion depQuery in
  let version := match version dv with Some v => v | None => "latest" end in
  let dependencyLocation := sum (dependency dv ++ "@" ++ version) in
  let dependencyPath := "/tmp/" ++ dependencyLocation ++ "/node_modules" in
  (forall fuel, downloadDependencyTypings sum npm fuel depQuery w = None)
  <-> exists extracted w1 k v rest,
        extractFiles npm (dependency dv) version dependencyLocation w
        = Some (Normal extracted, w1)
        /\ stripPrefix extracted dependencyPath = (k, v) :: rest
        /\ (6081741 <= stringify_length
                         [("status", VStr "ok");
                          ("files", VObj (stripPrefix extracted dependencyPath))])%Z
        /\ (stringify_length [(k, v)] <= 6081740)%Z.
Proof.
  cbv zeta.
  set (dv := getDependencyAndVersion depQuery).
  set (ver := match version dv with Some v => v | None => "latest" end).
  set (loc := sum (dependency dv ++ "@" ++ ver)).
  split.
  - intros Hhang. specialize (Hhang 1%nat). revert Hhang.
    rewrite downloadDependencyTypings_unfold. cbv zeta. fold dv. fold ver. fold loc.
    unfold try_finally, bind.
    destruct (extractFiles_world npm (dependency dv) ver loc w)
      as (c0 & extracted & w1 & _ & Hextract & _).
    rewrite Hextract.
    destruct extracted as [files0 | e]; [| unfold rimraf_sync; discriminate].
    unfold assemble, ret. cbv zeta.
    destruct (existsb test_tsx (Object_keys files0)); [| unfold rimraf_sync; discriminate].
    destruct (gt_Q _ MAX_RES_SIZE) eqn:Hsize; [| unfold rimraf_sync; discriminate].
    destruct (dropFiles 1 _) as [[cleaned dropped] |] eqn:E;
      [unfold rimraf_sync; discriminate |].
    intros _. rewrite gt_MAX_RES_SIZE in Hsize. apply Z.leb_le in Hsize.
    destruct (stripPrefix files0 ("/tmp/" ++ loc ++ "/node_modules"))
      as [|[k v] rest] eqn:Hstrip.
    + rewrite dropFiles_empty in E. discriminate E.
    + exists files0, w1, k, v, rest.
      split; [reflexivity | split; [exact Hstrip | split; [rewrite ?Hstrip; exact Hsize |]]].
      destruct (lt_Q (stringify_length [(k, v)]) MAX_RES_SIZE) eqn:Hfit.
      * rewrite lt_MAX_RES_SIZE in Hfit. now apply Z.leb_le in Hfit.
      * rewrite (dropFiles_first_overflows k v rest Hfit 0) in E. discriminate E.
  - intros (extracted & w1 & k & v & rest & Hextract & Hstrip & Hsize & Hfit) fuel.
    assert (Hgate : existsb test_tsx (Object_keys extracted) = true).
    { apply (extractFiles_gate _ _ _ _ _ _ _ Hextract). intros ->. discriminate Hstrip. }
    assert (Hover : gt_Q (stringify_length
                            [("status", VStr "ok");
                             ("files", VObj (stripPrefix extracted
                                               ("/tmp/" ++ loc ++ "/node_modules")))])
                         MAX_RES_SIZE = true)
      by (rewrite gt_MAX_RES_SIZE; now apply Z.leb_le).
    rewrite (downloadDependencyTypings_budgeting sum npm fuel depQuery w w1 extracted
               Hextract Hgate Hover).
    fold dv. fold ver. fold loc. rewrite Hstrip.
    rewrite (dropFiles_first_fits k v rest); [reflexivity |].
    rewrite lt_MAX_RES_SIZE. now apply Z.leb_le.
Qed.


(** ** The request handler *)

Lemma stringify_body_whole (status : string) (o : obj) :
  stringify_body [("status", MValue (VStr status)); ("files", MValue (VObj o));
                  ("droppedFileCount", MValue VUndefined)]
  = JSON.stringify [("status", VStr status); ("files", VObj o)].
Proof. reflexivity. Qed.

Lemma length_stringify_body_count (o : obj) (n : Z) :
  Z.of_nat (String.length
              (stringify_body [("status", MValue (VStr "ok")); ("files", MValue (VObj o));
                               ("droppedFileCount", MNumber n)]))
  = (stringify_length [("status", VStr "ok"); ("files", VObj o)]
     + 20 + Z.of_nat (String.length (NilEmpty.string_of_int (Z.to_int n))))%Z.
Proof.
  unfold stringify_length, JSON.stringify, stringify_body.
  cbn [JSON.SerializeJSONProperty serialize_member flat_map snd fst app join].
  repeat (rewrite ?length_append, ?length_QuoteJSONString; cbn [String.length]).
  change (JSON.quote_chars "status") with "status".
  change (JSON.quote_chars "files") with "files".
  change (JSON.quote_chars "ok") with "ok".
  change (JSON.quote_chars "droppedFileCount") with "droppedFileCount".
  cbn [String.length]. lia.
Qed.

Section HandlerFacts.

Variable sum : string -> string.
Variable npm : string -> string -> option (list (string * node)).
Variable message : error -> string.
Variable stack : thrown -> string.

(** The three headers of a response to a specifier. *)
Lemma handler_string (fuel : nat) (c : ascii) (s : string) (res : response) (w : world) :
  handler sum npm message stack fuel (QString (String c s)) res w
  = let sent :=
      (headers res ++ [("Cache-Control", "max-age=31536000");
                       ("Content-Type", "application/json");
                       ("Access-Control-Allow-Origin", "*")])%list in
    match downloadDependencyTypings sum npm fuel (String c s) w with
    | None => None
    | Some (Throw e, w') =>
        Some ({| statusCode := 422;
                 headers := sent;
                 body := Some (stringify_body
                                 [("status", MValue (VStr "error"));
                                  ("files", MValue (VObj []));
                                  ("error", MValue (VStr (message e)));
                                  ("stack", MValue (VStr (stack (Raised e))))]) |}, w')
    | Some (Normal result, w') =>
        Some ({| statusCode := statusCode res;
                 headers := sent;
                 body := Some (stringify_body
                                 [("status", MValue (VStr "ok"));
                                  ("files", MValue (VObj (files result)));
                                  ("droppedFileCount",
                                   match droppedFileCount result with
                                   | Some n => MNumber n
                                   | None => MValue VUndefined
                                   end)]) |}, w')
    end.
Proof.
  unfold handler. cbv zeta. change (String.eqb (String c s) "") with false. cbv iota.
  destruct (downloadDependencyTypings sum npm fuel (String c s) w) as [[[r | e] w'] |];
    unfold res_end, set_statusCode, setHeader; cbn [statusCode headers body];
    rewrite <- ?app_assoc; reflexivity.
Qed.

(** The size of the body of a success. *)
Lemma handler_body_size (fuel : nat) (depQuery : string) (w w' : world) (r : IResult) :
  downloadDependencyTypings sum npm fuel depQuery w = Some (Normal r, w') ->
  match droppedFileCount r with
  | None =>
      (Z.of_nat (String.length
                   (stringify_body [("status", MValue (VStr "ok"));
                                    ("files", MValue (VObj (files r)));
                                    ("droppedFileCount", MValue VUndefined)]))
       <= 6081740)%Z
  | Some n =>
      n = 1%Z
      /\ (6081786 <= Z.of_nat (String.length
                                 (stringify_body [("status", MValue (VStr "ok"));
                                                  ("files", MValue (VObj (files r)));
                                                  ("droppedFileCount", MNumber n)])))%Z
  end.
Proof.
  intros Hrun.
  apply downloadDependencyTypings_run in Hrun as (extracted & w1 & _ & _ & _ & Hasm).
  destruct extracted as [files0 | e]; [| discriminate Hasm].
  destruct (droppedFileCount r) as [n |] eqn:Hcount.
  - destruct (assemble_dropped _ _ _ _ _ _ _ Hasm Hcount) as (-> & k & v & Hfiles & Hsize).
    split; [reflexivity |].
    rewrite length_stringify_body_count, resultSize_eq, Hfiles.
    change (String.length (NilEmpty.string_of_int (Z.to_int 1))) with 1%nat. lia.
  - rewrite stringify_body_whole.
    exact (proj2 (assemble_whole _ _ _ _ _ _ Hasm Hcount)).
Qed.

End HandlerFacts.

(** X18.  A request without a specifier, with an empty one, or with the
    specifier given more than once is answered at once, whatever the
    fuel: status 422, no header set, the message of the handler in the
    body, and the world untouched: no command is run. *)
Theorem handler_without_specifier
  (sum : string -> string) (npm : string -> string -> option (list (string * node)))
  (message : error -> string) (stack : thrown -> string)
  (fuel : nat) (depQuery : query_value) (res : response) (w : world)
  (Hnone : forall c s, depQuery <> QString (String c s)) :
  let said :=
    match depQuery with
    | QArray _ => "Dependency should not be an array"
    | _ => "Please provide a dependency"
    end in
  handler sum npm message stack fuel depQuery res w
  = Some ({| statusCode := 422;
             headers := headers res;
             body := Some (stringify_body
                             [("status", MValue (VStr "error"));
                              ("files", MValue (VObj []));
                              ("error", MValue (VStr said));
                              ("stack", MValue (VStr (stack (NewError said))))]) |},
          w).
Proof.
  cbv zeta. destruct depQuery as [| [| c s] | items]; try reflexivity.
  now destruct (Hnone c s).
Qed.

Lemma handler_without_specifier_witness :
  handler example_sum example_npm example_message example_stack 0
          (QArray ["react"; "vue"]) fresh_response empty_tmp
  = Some ({| statusCode := 422;
             headers := [];
             body := Some (JSON.text "{'status':'error','files':{},'error':'Dependency should not be an array','stack':'Error: Dependency should not be an array'}") |},
          empty_tmp).
Proof.
  refine (handler_without_specifier example_sum example_npm example_message example_stack 0
            (QArray ["react"; "vue"]) fresh_response empty_tmp _).
  intros c s H. discriminate H.
Defined.

(** X19.  A request with a specifier that has been answered: the three
    headers were set, the install command was run and the scratch
    directory removed, and the status is 422 exactly when the pipeline
    threw; the answer to a failure carries the year-long [Cache-Control]
    like the answer to a success. *)
Theorem handler_with_specifier
  (sum : string -> string) (npm : string -> string -> option (list (string * node)))
  (message : error -> string) (stack : thrown -> string)
  (fuel : nat) (c : ascii) (s : string) (res res' : response) (w w' : world)
  (Hrun : handler sum npm message stack fuel (QString (String c s)) res w = Some (res', w')) :
  let depQuery := String c s in
  let dv := getDependencyAndVersion depQuery in
  let version := match version dv with Some v => v | None => "latest" end in
  let dependencyLocation := sum (dependency dv ++ "@" ++ version) in
  headers res'
  = List.app (headers res)
      [("Cache-Control", "max-age=31536000");
       ("Content-Type", "application/json");
       ("Access-Control-Allow-Origin", "*")]
  /\ log w'
     = List.app (log w)
         [Exec (install_command (dependency dv) version dependencyLocation);
          Rimraf ("/tmp/" ++ dependencyLocation)]
  /\ ((exists r,
         downloadDependencyTypings sum npm fuel depQuery w = Some (Normal r, w')
         /\ statusCode res' = statusCode res)
      \/ (exists e,
            downloadDependencyTypings sum npm fuel depQuery w = Some (Throw e, w')
            /\ statusCode res' = 422%Z
            /\ body res'
               = Some (stringify_body
                         [("status", MValue (VStr "error"));
                          ("files", MValue (VObj []));
                          ("error", MValue (VStr (message e)));
                          ("stack", MValue (VStr (stack (Raised e))))]))).
Proof.
  cbv zeta. rewrite handler_string in Hrun. cbv zeta in Hrun.
  destruct (downloadDependencyTypings sum npm fuel (String c s) w) as [[cpl w1] |] eqn:Hpipe;
    [| discriminate Hrun].
  assert (Hlog : log w1
                 = List.app (log w)
                     [Exec (install_command
                              (dependency (getDependencyAndVersion (String c s)))
                              match version (getDependencyAndVersion (String c s)) with
                              | Some v => v
                              | None => "latest"
                              end
                              (sum (dependency (getDependencyAndVersion (String c s)) ++ "@"
                                    ++ match version (getDependencyAndVersion (String c s)) with
                                       | Some v => v
                                       | None => "latest"
                                       end)));
                      Rimraf ("/tmp/"
                              ++ sum (dependency (getDependencyAndVersion (String c s)) ++ "@"
                                      ++ match version (getDependencyAndVersion (String c s)) with
                                         | Some v => v
                                         | None => "latest"
                                         end))]).
  { pose proof Hpipe as H.
    apply downloadDependencyTypings_run in H as (extracted & w0 & _ & Hlog & Hrm & _).
    destruct (rimraf_sync_world _ _ _ Hrm) as [_ E].
    rewrite Hlog, <- app_assoc in E. exact E. }
  destruct cpl as [r | e]; injection Hrun as <- <-; cbn [headers statusCode body];
    (split; [reflexivity | split; [exact Hlog |]]).
  - left. exists r. split; reflexivity.
  - right. exists e. repeat split; reflexivity.
Qed.

Lemma handler_with_specifier_witness :
  exists res' w',
    handler example_sum example_npm example_message example_stack 0
            (QString "broken") fresh_response empty_tmp
    = Some (res', w')
    /\ headers res'
       = [("Cache-Control", "max-age=31536000");
          ("Content-Type", "application/json");
          ("Access-Control-Allow-Origin", "*")]
    /\ log w' = [Exec (install_command "broken" "latest" "1f2e3d4c");
                 Rimraf "/tmp/1f2e3d4c"]
    /\ statusCode res' = 422%Z.
Proof.
  eexists _, _. split; [reflexivity |].
  destruct (handler_with_specifier example_sum example_npm example_message example_stack 0
              "b"%char "roken" fresh_response _ empty_tmp _ eq_refl)
    as (Hheaders & Hlog & _).
  split; [exact Hheaders | split; [exact Hlog | reflexivity]].
Defined.

(** X20.  The body of a success is the response the pipeline measured: it
    is within the ceiling when the result has no [droppedFileCount], and
    when it has one, the count is 1 and the body is above the ceiling. *)
Theorem handler_success_size
  (sum : string -> string) (npm : string -> string -> option (list (string * node)))
  (message : error -> string) (stack : thrown -> string)
  (fuel : nat) (c : ascii) (s : string) (res res' : response) (w w' : world) (r : IResult)
  (Hrun : handler sum npm message stack fuel (QString (String c s)) res w = Some (res', w'))
  (Hok : downloadDependencyTypings sum npm fuel (String c s) w = Some (Normal r, w')) :
  exists text,
    body res' = Some text
    /\ match droppedFileCount r with
       | None =>
           text = JSON.stringify [("status", VStr "ok"); ("files", VObj (files r))]
           /\ (Z.of_nat (String.length text) <= 6081740)%Z
       | Some n =>
           n = 1%Z /\ (6081786 <= Z.of_nat (String.length text))%Z
       end.
Proof.
  rewrite handler_string, Hok in Hrun. cbv zeta in Hrun. injection Hrun as <-.
  cbn [body]. eexists. split; [reflexivity |].
  pose proof (handler_body_size sum npm fuel _ _ _ _ Hok) as Hsize.
  destruct (droppedFileCount r) as [n |]; [exact Hsize |].
  split; [apply stringify_body_whole | exact Hsize].
Qed.

Lemma handler_success_size_witness :
  exists res' text,
    handler example_sum example_npm example_message example_stack 1
            (QString "@types/uses-big") fresh_response empty_tmp
    = Some (res', {| root := [("tmp", Dir [])];
                     log := [Exec (install_command "@types/uses-big" "latest" "1f2e3d4c");
                             Rimraf "/tmp/1f2e3d4c"] |})
    /\ body res' = Some text
    /\ 1%Z = 1%Z
    /\ (6081786 <= Z.of_nat (String.length text))%Z.
Proof.
  eexists.
  assert (Hrun := handler_string example_sum example_npm example_message example_stack 1
                    "@"%char "types/uses-big" fresh_response empty_tmp).
  change (String "@" "types/uses-big") with "@types/uses-big" in Hrun.
  rewrite (downloadDependencyTypings_uses_big 0) in Hrun. cbv zeta in Hrun.
  destruct (handler_success_size example_sum example_npm example_message example_stack 1
              "@"%char "types/uses-big" fresh_response _ empty_tmp _ _ Hrun
              (downloadDependencyTypings_uses_big 0))
    as (text & Hbody & Hsize).
  exists text. split; [exact Hrun | split; [exact Hbody | exact Hsize]].
Defined.
